(** * Student Paycheck Buddy: a shallow embedding of [app.py]

    The Flask application keeps five tables (users, pay_schedules,
    transactions, budgets, recurring_bills) and answers requests with a
    handful of handlers.  This development embeds the helpers and the
    handlers of [create_app] as Rocq functions and proves the properties
    the specification states about them.

    Conventions of the embedding:
    - a Python [str] is a [string] (a list of 8-bit characters); the
      whitespace set of [str.strip], the letters of [str.lower] and the
      digits of [int] and [strptime] are the ASCII ones; [int] skips the
      narrower whitespace set of the C locale around its digits;
    - a Python [int] is a [Z]; [//] and [%] are [Z.div] and [Z.modulo]
      (both round towards minus infinity for a positive divisor);
    - an SQLite integer has 64 bits: a statement that is given a larger
      amount as a parameter raises [OverflowError] and writes nothing,
      and a [SUM] whose running total leaves the range raises
      [OperationalError];
    - a raised exception is the [Raise] case of [result]; a handler that
      does not catch it answers with it and leaves the database as it
      was;
    - a [datetime.date] is a record of year, month and day, with the
      range check of its constructor and the ordinal conversions of the
      [datetime] module; addition of days raises [OverflowError] outside
      0001-01-01 .. 9999-12-31;
    - the SQLite database is a record of row lists, in insertion order;
      a query filters and sums these lists in that order, [GROUP BY]
      gives its groups in the order of their keys, [fetchone] takes the
      first row, and [ORDER BY] is a stable sort;
    - the session holds what the application put there, the key of a
      users row;
    - a handler takes the database, the session of the sender and the
      form, and returns an [outcome]; the POST branches of [signup],
      [login], [setup], [transaction_new], [budgets] and [bills], the
      [dashboard] and the pages of the transactions, the bills and the
      budgets are embedded. *)

From Stdlib Require Import ZArith List String Ascii Bool Lia.
From Stdlib Require Import Sorting.Permutation Sorting.Sorted.
Import ListNotations.

Local Open Scope string_scope.
Local Open Scope Z_scope.

(** ** Exceptions *)

Inductive exn : Type :=
| ValueError
| OverflowError
| ZeroDivisionError
| IntegrityError
| OperationalError.

Inductive result (A : Type) : Type :=
| Ok (a : A)
| Raise (e : exn).

Arguments Ok {A} a.
Arguments Raise {A} e.

Definition bind {A B : Type} (r : result A) (k : A -> result B) : result B :=
  match r with
  | Ok a => k a
  | Raise e => Raise e
  end.

Notation "x <- r ;; k" := (bind r (fun x => k))
  (at level 61, r at next level, right associativity).

Definition is_ok {A : Type} (r : result A) : bool :=
  match r with Ok _ => true | Raise _ => false end.

(** ** Python strings *)

Module PyStr.

(** [str.isspace] on the ASCII range: tab, line feed, vertical tab, form
    feed, carriage return, the four separators 28..31 and the space. *)
Definition is_space (c : ascii) : bool :=
  let n := N_of_ascii c in
  ((9 <=? n) && (n <=? 13) || (28 <=? n) && (n <=? 32))%N.

Definition is_empty (s : string) : bool :=
  match s with
  | EmptyString => true
  | String _ _ => false
  end.

Fixpoint lstrip (s : string) : string :=
  match s with
  | EmptyString => EmptyString
  | String c r => if is_space c then lstrip r else s
  end.

Fixpoint rstrip (s : string) : string :=
  match s with
  | EmptyString => EmptyString
  | String c r =>
      let r' := rstrip r in
      if is_empty r' && is_space c then EmptyString else String c r'
  end.

(** [s.strip()] *)
Definition strip (s : string) : string := rstrip (lstrip s).

(** [s.lower()] on the ASCII range. *)
Definition lower_char (c : ascii) : ascii :=
  let n := N_of_ascii c in
  if ((65 <=? n) && (n <=? 90))%N then ascii_of_N (n + 32) else c.

Fixpoint lower (s : string) : string :=
  match s with
  | EmptyString => EmptyString
  | String c r => String (lower_char c) (lower r)
  end.

(** [c in s] for a one-character needle. *)
Fixpoint contains (c : ascii) (s : string) : bool :=
  match s with
  | EmptyString => false
  | String a r => Ascii.eqb a c || contains c r
  end.

(** [s.split(c, 1)] when [c] occurs in [s]: the text before the first
    occurrence and the text after it.  Without an occurrence Python
    returns the one-element list [[s]]; here that is [(s, "")], and the
    callers test [contains] first. *)
Fixpoint split_once (c : ascii) (s : string) : string * string :=
  match s with
  | EmptyString => (EmptyString, EmptyString)
  | String a r =>
      if Ascii.eqb a c then (EmptyString, r)
      else let (h, t) := split_once c r in (String a h, t)
  end.

(** The slice [s[:n]]. *)
Definition take (n : nat) (s : string) : string := substring 0 n s.

Fixpoint all_chars (p : ascii -> bool) (s : string) : bool :=
  match s with
  | EmptyString => true
  | String c r => p c && all_chars p r
  end.

(** A character that [strip] keeps. *)
Definition plain (c : ascii) : bool := negb (is_space c).

(** The value of a decimal digit, by its code: the digits are the
    characters 48 to 57. *)
Definition digit_val (c : ascii) : option Z :=
  let n := Z.of_N (N_of_ascii c) in
  if (48 <=? n) && (n <=? 57) then Some (n - 48) else None.

Definition is_digit (c : ascii) : bool :=
  match digit_val c with Some _ => true | None => false end.

(** The character of the digit [d], for [0 <= d <= 9]. *)
Definition digit_char (d : Z) : ascii := ascii_of_N (Z.to_N (48 + d)).

(** The digits of [int(s)] after whitespace and sign are gone: decimal
    digits, with single underscores allowed between two digits.
    [prev] records that the previous character was a digit. *)
Fixpoint int_digits (s : string) (acc : Z) (prev : bool) : result Z :=
  match s with
  | EmptyString => if prev then Ok acc else Raise ValueError
  | String c r =>
      match digit_val c with
      | Some d => int_digits r (10 * acc + d) true
      | None =>
          if Ascii.eqb c "_" && prev then int_digits r acc false
          else Raise ValueError
      end
  end.

(** The whitespace that [int] skips before and after the number
    ([Py_ISSPACE]): tab to carriage return and the space.  The
    separators 28..31, which [str.strip] removes, are not part of it. *)
Definition is_int_space (c : ascii) : bool :=
  let n := N_of_ascii c in
  ((9 <=? n) && (n <=? 13) || (n =? 32))%N.

Fixpoint int_lstrip (s : string) : string :=
  match s with
  | EmptyString => EmptyString
  | String c r => if is_int_space c then int_lstrip r else s
  end.

Fixpoint int_rstrip (s : string) : string :=
  match s with
  | EmptyString => EmptyString
  | String c r =>
      let r' := int_rstrip r in
      if is_empty r' && is_int_space c then EmptyString else String c r'
  end.

(** [int(s)] for a string argument, base 10. *)
Definition int (s : string) : result Z :=
  match int_rstrip (int_lstrip s) with
  | String "-" r => v <- int_digits r 0 false ;; Ok (- v)
  | String "+" r => int_digits r 0 false
  | t => int_digits t 0 false
  end.

(** The decimal digits of [n], most significant first, pushed in front
    of [acc]; [fuel] bounds the number of digits. *)
Fixpoint dec_digits (fuel : nat) (n : Z) (acc : string) : string :=
  match fuel with
  | O => acc
  | S f =>
      let acc' := String (digit_char (n mod 10)) acc in
      if n / 10 =? 0 then acc' else dec_digits f (n / 10) acc'
  end.

(** [str(n)], and the [d] format, for an [int]. *)
Definition of_nonneg (n : Z) : string :=
  dec_digits (S (Z.to_nat (Z.log2 n))) n EmptyString.

Definition of_int (n : Z) : string :=
  if n <? 0 then String "-" (of_nonneg (- n)) else of_nonneg n.

Fixpoint zeros (n : nat) : string :=
  match n with
  | O => EmptyString
  | S k => String "0" (zeros k)
  end.

(** The format [0wd] for a non-negative [int]: zero padding on the left
    up to width [w]. *)
Definition zero_pad (w : nat) (n : Z) : string :=
  let s := of_nonneg n in
  zeros (w - length s) ++ s.

(** Comparison of two strings byte by byte, as SQLite's BINARY collation
    and Python's [str] comparison do. *)
Fixpoint leb (a b : string) : bool :=
  match a, b with
  | EmptyString, _ => true
  | String _ _, EmptyString => false
  | String x a', String y b' =>
      if (N_of_ascii x <? N_of_ascii y)%N then true
      else if (N_of_ascii y <? N_of_ascii x)%N then false
      else leb a' b'
  end.

End PyStr.

(** ** Date and money helpers *)

(** [cents_from_money_str]: a [ValueError] of [int] propagates. *)
Definition cents_from_money_str (x : string) : result Z :=
  let x := PyStr.strip x in
  if PyStr.is_empty x then Ok 0
  else
    let (dollars, cents) :=
      if PyStr.contains "." x then
        let (dollars, cents) := PyStr.split_once "." x in
        (dollars, PyStr.take 2 (cents ++ "00"))
      else (x, "00") in
    d <- PyStr.int dollars ;;
    c <- PyStr.int cents ;;
    Ok (d * 100 + c).

(** [money_from_cents] *)
Definition money_from_cents (c : Z) : string :=
  let sign := if c <? 0 then "-" else "" in
  let c := Z.abs c in
  sign ++ PyStr.of_int (c / 100) ++ "." ++ PyStr.zero_pad 2 (c mod 100).

(** ** [datetime.date] *)

Module PyDate.

Record date : Type := mkdate { year : Z; month : Z; day : Z }.

Definition MINYEAR : Z := 1.
Definition MAXYEAR : Z := 9999.
(** [date.max.toordinal()] *)
Definition MAXORDINAL : Z := 3652059.

Definition is_leap (y : Z) : bool :=
  (y mod 4 =? 0) && (negb (y mod 100 =? 0) || (y mod 400 =? 0)).

(** The table [_DAYS_IN_MONTH]. *)
Definition DAYS_IN_MONTH (m : Z) : Z :=
  match m with
  | 1 => 31 | 2 => 28 | 3 => 31 | 4 => 30 | 5 => 31 | 6 => 30
  | 7 => 31 | 8 => 31 | 9 => 30 | 10 => 31 | 11 => 30 | 12 => 31
  | _ => 0
  end.

(** The table [_DAYS_BEFORE_MONTH]. *)
Definition DAYS_BEFORE_MONTH (m : Z) : Z :=
  match m with
  | 1 => 0 | 2 => 31 | 3 => 59 | 4 => 90 | 5 => 120 | 6 => 151
  | 7 => 181 | 8 => 212 | 9 => 243 | 10 => 273 | 11 => 304 | 12 => 334
  | _ => 0
  end.

Definition days_before_year (y : Z) : Z :=
  let y := y - 1 in
  y * 365 + y / 4 - y / 100 + y / 400.

Definition days_in_month (y m : Z) : Z :=
  if (m =? 2) && is_leap y then 29 else DAYS_IN_MONTH m.

Definition days_before_month (y m : Z) : Z :=
  DAYS_BEFORE_MONTH m + (if (m >? 2) && is_leap y then 1 else 0).

Definition ymd2ord (y m d : Z) : Z :=
  days_before_year y + days_before_month y m + d.

(** [_ord2ymd]: the date of ordinal [n], for [1 <= n <= MAXORDINAL]. *)
Definition ord2ymd (n : Z) : date :=
  let n := n - 1 in
  let n400 := n / 146097 in
  let n := n mod 146097 in
  let y := n400 * 400 + 1 in
  let n100 := n / 36524 in
  let n := n mod 36524 in
  let n4 := n / 1461 in
  let n := n mod 1461 in
  let n1 := n / 365 in
  let n := n mod 365 in
  let y := y + n100 * 100 + n4 * 4 + n1 in
  if (n1 =? 4) || (n100 =? 4) then mkdate (y - 1) 12 31
  else
    let leapyear := (n1 =? 3) && (negb (n4 =? 24) || (n100 =? 3)) in
    let m := Z.shiftr (n + 50) 5 in
    let preceding :=
      DAYS_BEFORE_MONTH m + (if (m >? 2) && leapyear then 1 else 0) in
    if preceding >? n then
      let m := m - 1 in
      let preceding :=
        preceding
        - (DAYS_IN_MONTH m + (if (m =? 2) && leapyear then 1 else 0)) in
      mkdate y m (n - preceding + 1)
    else mkdate y m (n - preceding + 1).

(** One for a leap year, zero otherwise. *)
Definition leap_day (y : Z) : Z := if is_leap y then 1 else 0.

(** The range check of the [date] constructor. *)
Definition valid (d : date) : bool :=
  (MINYEAR <=? year d) && (year d <=? MAXYEAR)
  && (1 <=? month d) && (month d <=? 12)
  && (1 <=? day d) && (day d <=? days_in_month (year d) (month d)).

(** [date(y, m, d)] *)
Definition make (y m d : Z) : result date :=
  let r := mkdate y m d in
  if valid r then Ok r else Raise ValueError.

Definition toordinal (d : date) : Z := ymd2ord (year d) (month d) (day d).

(** [d + timedelta(days=k)] *)
Definition add_days (d : date) (k : Z) : result date :=
  let o := toordinal d + k in
  if (0 <? o) && (o <=? MAXORDINAL) then Ok (ord2ymd o)
  else Raise OverflowError.

(** [d - timedelta(days=k)], which is [d + timedelta(days=-k)]. *)
Definition sub_days (d : date) (k : Z) : result date := add_days d (- k).

(** [(a - b).days] *)
Definition diff_days (a b : date) : Z := toordinal a - toordinal b.

(** [d.replace(day=k)] *)
Definition replace_day (d : date) (k : Z) : result date :=
  make (year d) (month d) k.

(** [a < b]: the comparison of the triples (year, month, day). *)
Definition ltb (a b : date) : bool :=
  (year a <? year b)
  || (year a =? year b)
     && ((month a <? month b)
         || (month a =? month b) && (day a <? day b)).

Definition leb (a b : date) : bool := negb (ltb b a).

(** The day after [d] in the calendar. *)
Definition tomorrow (d : date) : date :=
  if day d <? days_in_month (year d) (month d)
  then mkdate (year d) (month d) (day d + 1)
  else if month d <? 12 then mkdate (year d) (month d + 1) 1
  else mkdate (year d + 1) 1 1.

(** The month after month [m] of year [y]. *)
Definition following_month (y m : Z) : Z * Z :=
  if m =? 12 then (y + 1, 1) else (y, m + 1).

(** *** [strptime] with the format [%Y-%m-%d]

    The format compiles to the regular expression
    [(\d\d\d\d)-(1[0-2]|0[1-9]|[1-9])-(3[01]|[12]\d|0[1-9]|[1-9]| [1-9])],
    matched at the start of the text; text left over after the match is
    an error, and so is a triple that is not a date. *)

Definition digit19 (c : ascii) : option Z :=
  match PyStr.digit_val c with
  | Some 0 => None
  | r => r
  end.

Definition parse_year (s : string) : option (Z * string) :=
  match s with
  | String a (String b (String c (String d r))) =>
      match PyStr.digit_val a, PyStr.digit_val b,
            PyStr.digit_val c, PyStr.digit_val d with
      | Some a, Some b, Some c, Some d =>
          Some (((a * 10 + b) * 10 + c) * 10 + d, r)
      | _, _, _, _ => None
      end
  | _ => None
  end.

Definition parse_month (s : string) : option (Z * string) :=
  match s with
  | String "1" (String c r as t) =>
      match PyStr.digit_val c with
      | Some 0 => Some (10, r)
      | Some 1 => Some (11, r)
      | Some 2 => Some (12, r)
      | _ => Some (1, t)
      end
  | String "0" (String c r) =>
      match digit19 c with
      | Some v => Some (v, r)
      | None => None
      end
  | String c r =>
      match digit19 c with
      | Some v => Some (v, r)
      | None => None
      end
  | EmptyString => None
  end.

Definition parse_day (s : string) : option (Z * string) :=
  let one :=
    match s with
    | String c r =>
        match digit19 c with
        | Some v => Some (v, r)
        | None =>
            match c, r with
            | " "%char, String c' r' =>
                match digit19 c' with
                | Some v => Some (v, r')
                | None => None
                end
            | _, _ => None
            end
        end
    | EmptyString => None
    end in
  match s with
  | String a (String b r) =>
      match PyStr.digit_val a, PyStr.digit_val b with
      | Some 3, Some 0 => Some (30, r)
      | Some 3, Some 1 => Some (31, r)
      | Some 1, Some v => Some (10 + v, r)
      | Some 2, Some v => Some (20 + v, r)
      | Some 0, Some v => if v =? 0 then None else Some (v, r)
      | _, _ => one
      end
  | _ => one
  end.

Definition expect (c : ascii) (s : string) : option string :=
  match s with
  | String a r => if Ascii.eqb a c then Some r else None
  | EmptyString => None
  end.

Definition strptime_ymd (s : string) : result date :=
  match parse_year s with
  | None => Raise ValueError
  | Some (y, s) =>
  match expect "-" s with
  | None => Raise ValueError
  | Some s =>
  match parse_month s with
  | None => Raise ValueError
  | Some (m, s) =>
  match expect "-" s with
  | None => Raise ValueError
  | Some s =>
  match parse_day s with
  | None => Raise ValueError
  | Some (d, s) =>
      if PyStr.is_empty s then make y m d else Raise ValueError
  end end end end end.

(** [strftime] with the format [%Y-%m-%d].  The year is written on four
    digits, as the documentation of the format has it; for years below
    1000 some C libraries drop the leading zeros, and the statements
    below that depend on the text of a date take the year from 1000 on. *)
Definition strftime_ymd (d : date) : string :=
  PyStr.zero_pad 4 (year d) ++ "-" ++ PyStr.zero_pad 2 (month d)
  ++ "-" ++ PyStr.zero_pad 2 (day d).

End PyDate.

Import PyDate.

(** [parse_ymd] *)
Definition parse_ymd (s : string) : result date := strptime_ymd s.

(** [ymd] *)
Definition ymd (d : date) : string := strftime_ymd d.

(** ** The database

    [schema.sql] is not part of the sources at hand.  The rows carry the
    columns the statements of [app.py] read and write; the uniqueness
    constraints are the ones its statements rely on. *)

Record user_row : Type := mkuser {
  u_id : Z;
  u_email : string;
  u_password_hash : string
}.

Record schedule_row : Type := mkschedule {
  ps_user_id : Z;
  ps_frequency : string;
  ps_next_payday : string;
  ps_typical_net_pay_cents : Z
}.

Record transaction_row : Type := mktransaction {
  t_id : Z;
  t_user_id : Z;
  t_kind : string;
  t_amount_cents : Z;
  t_category : string;
  t_occurred_on : string;
  t_note : string
}.

Record budget_row : Type := mkbudget {
  b_user_id : Z;
  b_category : string;
  b_limit_cents : Z
}.

Record bill_row : Type := mkbill {
  rb_id : Z;
  rb_user_id : Z;
  rb_name : string;
  rb_amount_cents : Z;
  rb_due_day : Z;
  rb_active : Z
}.

Record database : Type := mkdb {
  users : list user_row;
  pay_schedules : list schedule_row;
  transactions : list transaction_row;
  budgets : list budget_row;
  recurring_bills : list bill_row
}.

Definition empty_db : database := mkdb [] [] [] [] [].

(** The next value of an integer primary key: one more than the largest
    key in the table. *)
Definition next_id (ids : list Z) : Z := fold_right Z.max 0 ids + 1.

(** *** SQLite integers *)

(** The range of an SQLite [INTEGER]. *)
Definition INT64_MIN : Z := -9223372036854775808.
Definition INT64_MAX : Z := 9223372036854775807.

Definition int64 (v : Z) : bool := (INT64_MIN <=? v) && (v <=? INT64_MAX).

(** A Python [int] given to [db.execute] as a parameter: outside the
    range the [sqlite3] module raises [OverflowError] before the
    statement runs. *)
Definition bind_int (v : Z) : result Z :=
  if int64 v then Ok v else Raise OverflowError.

(** [SUM] over integers: SQLite adds the values one by one, in the order
    of the rows, and reports "integer overflow" when the running total
    leaves the range at any point. *)
Fixpoint sum_from (total : Z) (values : list Z) : result Z :=
  match values with
  | [] => Ok total
  | v :: r =>
      if int64 (total + v) then sum_from (total + v) r
      else Raise OperationalError
  end.

Definition sqlite_sum (values : list Z) : result Z := sum_from 0 values.

(** [ORDER BY]: insertion into a sorted list, and the sort; rows that
    compare equal stay in table order. *)
Fixpoint insert_sorted {A : Type} (le : A -> A -> bool) (x : A) (l : list A)
  : list A :=
  match l with
  | [] => [x]
  | y :: r => if le x y then x :: l else y :: insert_sorted le x r
  end.

Definition sort_by {A : Type} (le : A -> A -> bool) (l : list A) : list A :=
  fold_right (insert_sorted le) [] l.

(** ** Requests, sessions and responses *)

(** The submitted form, as the list of its fields. *)
Definition form : Type := list (string * string).

(** [request.form.get(key, default)] *)
Fixpoint form_get (f : form) (key default : string) : string :=
  match f with
  | [] => default
  | (k, v) :: r => if String.eqb k key then v else form_get r key default
  end.

(** The session cookie: the value of [session.get("user_id")]. *)
Definition session : Type := option Z.

(** One entry of the dashboard's [bills_due] list. *)
Record due_entry : Type := mkdue {
  de_name : string;
  de_amount : string;
  de_due : string
}.

(** The keyword arguments the dashboard template is rendered with. *)
Record dashboard_view : Type := mkview {
  v_period_start : string;
  v_period_end : string;
  v_next_payday : string;
  v_typical : string;
  v_income : string;
  v_expense : string;
  v_remaining : string;
  v_daily_limit : string;
  v_top_category : option string;
  v_top_total : option string;
  v_bills_due : list due_entry;
  v_bills_total : string;
  v_after_bills : string
}.

Inductive response : Type :=
| Redirect (endpoint : string)
| Page (template : string)
| Dashboard (view : dashboard_view).

(** What a handler leaves behind: the database, the session, the
    messages it flashed (oldest first) and its response, or the exception
    it did not catch. *)
Record outcome : Type := mkoutcome {
  o_db : database;
  o_session : session;
  o_flashed : list string;
  o_response : result response
}.

(** ** Auth helpers *)

Definition current_user_id (s : session) : option Z := s.

(** The truth value of [current_user_id()]: [None] and [0] are false. *)
Definition logged_in (s : session) : bool :=
  match current_user_id s with
  | Some uid => negb (uid =? 0)
  | None => false
  end.

(** [require_login]: the result and the message flashed, if any. *)
Definition require_login (s : session) : bool * list string :=
  if logged_in s then (true, []) else (false, ["Please log in first."]).

(** ** Pay schedule helpers *)

(** [get_schedule]: [fetchone] gives the first matching row. *)
Definition get_schedule (db : database) (user_id : Z) : option schedule_row :=
  find (fun r => ps_user_id r =? user_id) (pay_schedules db).

(** [current_pay_period] *)
Definition current_pay_period (schedule : schedule_row)
  : result (date * date * date) :=
  next_payday <- parse_ymd (ps_next_payday schedule) ;;
  period_end <- sub_days next_payday 1 ;;
  period_start <- sub_days period_end 13 ;;
  Ok (period_start, period_end, next_payday).

(** ** Table updates *)

Definition set_users (db : database) (l : list user_row) : database :=
  mkdb l (pay_schedules db) (transactions db) (budgets db) (recurring_bills db).

Definition set_pay_schedules (db : database) (l : list schedule_row) : database :=
  mkdb (users db) l (transactions db) (budgets db) (recurring_bills db).

Definition set_transactions (db : database) (l : list transaction_row) : database :=
  mkdb (users db) (pay_schedules db) l (budgets db) (recurring_bills db).

Definition set_budgets (db : database) (l : list budget_row) : database :=
  mkdb (users db) (pay_schedules db) (transactions db) l (recurring_bills db).

Definition set_recurring_bills (db : database) (l : list bill_row) : database :=
  mkdb (users db) (pay_schedules db) (transactions db) (budgets db) l.

(** Modelled from the spec: the users table of [schema.sql], with
    "User: id, email (unique), password hash".  The insert of [signup]
    raises [sqlite3.IntegrityError] when a row has the email already and
    appends a row with a fresh id otherwise. *)
Definition insert_user (db : database) (email password_hash : string)
  : result database :=
  if existsb (fun u => String.eqb (u_email u) email) (users db)
  then Raise IntegrityError
  else Ok (set_users db
             (users db
              ++ [mkuser (next_id (map u_id (users db))) email password_hash])).

(** [SELECT id FROM users WHERE email = ?], [fetchone]. *)
Definition select_user_id (db : database) (email : string) : option Z :=
  option_map u_id (find (fun u => String.eqb (u_email u) email) (users db)).

(** Modelled from the spec: the pay_schedules table of [schema.sql], with
    "PaySchedule: one per user".  The statement of [setup] inserts a row
    with frequency ['biweekly'] and, on a conflict on [user_id], sets
    [next_payday] and [typical_net_pay_cents] of the row in conflict. *)
Fixpoint upsert_schedule (rows : list schedule_row)
    (user_id : Z) (next_payday : string) (net_pay_cents : Z)
  : list schedule_row :=
  match rows with
  | [] => [mkschedule user_id "biweekly" next_payday net_pay_cents]
  | r :: rs =>
      if ps_user_id r =? user_id
      then mkschedule (ps_user_id r) (ps_frequency r) next_payday net_pay_cents
           :: rs
      else r :: upsert_schedule rs user_id next_payday net_pay_cents
  end.

(** Modelled from the spec: the budgets table of [schema.sql], with
    "Budget: (user_id, category) unique; limit_cents".  The statement of
    [budgets] inserts a row and, on a conflict on [(user_id, category)],
    sets [limit_cents] of the row in conflict. *)
Fixpoint upsert_budget (rows : list budget_row)
    (user_id : Z) (category : string) (limit_cents : Z) : list budget_row :=
  match rows with
  | [] => [mkbudget user_id category limit_cents]
  | r :: rs =>
      if (b_user_id r =? user_id) && String.eqb (b_category r) category
      then mkbudget (b_user_id r) (b_category r) limit_cents :: rs
      else r :: upsert_budget rs user_id category limit_cents
  end.

(** The insert of [bills]: a new row, [active] set to 1. *)
Definition insert_bill (rows : list bill_row)
    (user_id : Z) (name : string) (amount_cents due_day : Z) : list bill_row :=
  rows ++ [mkbill (next_id (map rb_id rows)) user_id name amount_cents due_day 1].

(** The insert of [transaction_new]. *)
Definition insert_transaction (rows : list transaction_row)
    (user_id : Z) (kind : string) (amount_cents : Z)
    (category occurred_on note : string) : list transaction_row :=
  rows ++ [mktransaction (next_id (map t_id rows)) user_id kind amount_cents
             category occurred_on note].

(** ** Routes: the POST branches *)

Section Signup.

(** [werkzeug.security.generate_password_hash] *)
Variable generate_password_hash : string -> string.

(** [signup], for a POST. *)
Definition signup_post (db : database) (s : session) (f : form) : outcome :=
  let email := PyStr.lower (PyStr.strip (form_get f "email" "")) in
  let pw := form_get f "password" "" in
  if PyStr.is_empty email || PyStr.is_empty pw then
    mkoutcome db s ["Email and password required."]
      (Ok (Page "auth_signup.html"))
  else
    match insert_user db email (generate_password_hash pw) with
    | Raise IntegrityError =>
        mkoutcome db s ["That email is already registered."]
          (Ok (Page "auth_signup.html"))
    | Raise e => mkoutcome db s [] (Raise e)
    | Ok db' =>
        mkoutcome db' (select_user_id db' email) [] (Ok (Redirect "setup"))
    end.

End Signup.

(** [setup], for a POST. *)
Definition setup_post (db : database) (s : session) (f : form) : outcome :=
  match require_login s, current_user_id s with
  | (true, _), Some user_id =>
      let next_payday := PyStr.strip (form_get f "next_payday" "") in
      let net_pay := PyStr.strip (form_get f "typical_net_pay" "") in
      match parse_ymd next_payday with
      | Raise _ =>
          mkoutcome db s ["Next payday must be YYYY-MM-DD."]
            (Ok (Page "setup.html"))
      | Ok _ =>
          match cents_from_money_str net_pay with
          | Raise e => mkoutcome db s [] (Raise e)
          | Ok net_pay_cents =>
              match bind_int net_pay_cents with
              | Raise e => mkoutcome db s [] (Raise e)
              | Ok stored =>
                  mkoutcome
                    (set_pay_schedules db
                       (upsert_schedule (pay_schedules db)
                          user_id next_payday stored))
                    s ["Setup saved!"] (Ok (Redirect "dashboard"))
              end
          end
      end
  | (_, msgs), _ => mkoutcome db s msgs (Ok (Redirect "login"))
  end.

(** [transaction_new], for a POST on the day [today]. *)
Definition transaction_new_post (today : date)
    (db : database) (s : session) (f : form) : outcome :=
  match require_login s, current_user_id s with
  | (true, _), Some user_id =>
      let kind := form_get f "kind" "expense" in
      let amount := form_get f "amount" "0" in
      let category := PyStr.strip (form_get f "category" "Other") in
      let occurred_on := PyStr.strip (form_get f "occurred_on" (ymd today)) in
      let note := PyStr.strip (form_get f "note" "") in
      if negb (String.eqb kind "income" || String.eqb kind "expense") then
        mkoutcome db s ["Invalid type."] (Ok (Redirect "transaction_new"))
      else
        match parse_ymd occurred_on with
        | Raise _ =>
            mkoutcome db s ["Date must be YYYY-MM-DD."]
              (Ok (Redirect "transaction_new"))
        | Ok _ =>
            match cents_from_money_str amount with
            | Raise e => mkoutcome db s [] (Raise e)
            | Ok amount_cents =>
                match bind_int amount_cents with
                | Raise e => mkoutcome db s [] (Raise e)
                | Ok stored =>
                    mkoutcome
                      (set_transactions db
                         (insert_transaction (transactions db) user_id kind
                            stored category occurred_on note))
                      s ["Transaction added!"] (Ok (Redirect "transactions"))
                end
            end
        end
  | (_, msgs), _ => mkoutcome db s msgs (Ok (Redirect "login"))
  end.

(** [budgets], for a POST. *)
Definition budgets_post (db : database) (s : session) (f : form) : outcome :=
  match require_login s, current_user_id s with
  | (true, _), Some user_id =>
      let category := PyStr.strip (form_get f "category" "Other") in
      let limit := PyStr.strip (form_get f "limit" "0") in
      match cents_from_money_str limit with
      | Raise e => mkoutcome db s [] (Raise e)
      | Ok limit_cents =>
          match bind_int limit_cents with
          | Raise e => mkoutcome db s [] (Raise e)
          | Ok stored =>
              mkoutcome
                (set_budgets db
                   (upsert_budget (budgets db) user_id category stored))
                s ["Budget saved!"] (Ok (Redirect "budgets"))
          end
      end
  | (_, msgs), _ => mkoutcome db s msgs (Ok (Redirect "login"))
  end.

(** [bills], for a POST. *)
Definition bills_post (db : database) (s : session) (f : form) : outcome :=
  match require_login s, current_user_id s with
  | (true, _), Some user_id =>
      let name := PyStr.strip (form_get f "name" "") in
      let amount := PyStr.strip (form_get f "amount" "0") in
      let due_day := PyStr.strip (form_get f "due_day" "1") in
      if PyStr.is_empty name then
        mkoutcome db s ["Bill name required."] (Ok (Redirect "bills"))
      else
        match PyStr.int due_day with
        | Raise _ =>
            mkoutcome db s ["Due day must be a number 1â€“31."]
              (Ok (Redirect "bills"))
        | Ok due_day_int =>
            if (due_day_int <? 1) || (due_day_int >? 31) then
              mkoutcome db s ["Due day must be between 1 and 31."]
                (Ok (Redirect "bills"))
            else
              match cents_from_money_str amount with
              | Raise e => mkoutcome db s [] (Raise e)
              | Ok amount_cents =>
                  match bind_int amount_cents with
                  | Raise e => mkoutcome db s [] (Raise e)
                  | Ok stored =>
                      mkoutcome
                        (set_recurring_bills db
                           (insert_bill (recurring_bills db) user_id name
                              stored due_day_int))
                        s ["Bill added!"] (Ok (Redirect "bills"))
                  end
              end
        end
  | (_, msgs), _ => mkoutcome db s msgs (Ok (Redirect "login"))
  end.

(** ** The dashboard *)

(** The rows of the totals query: the user's transactions whose
    [occurred_on] text lies between the two bounds. *)
Definition period_rows (db : database) (user_id : Z) (lo hi : string)
  : list transaction_row :=
  filter (fun t => (t_user_id t =? user_id)
                   && PyStr.leb lo (t_occurred_on t)
                   && PyStr.leb (t_occurred_on t) hi)
         (transactions db).

(** The rows of the top-category query, and of the spending query of
    the budgets page: the user's expenses whose [occurred_on] text lies
    between the two bounds. *)
Definition spent_rows (db : database) (user_id : Z) (lo hi : string)
  : list transaction_row :=
  filter (fun t => (t_user_id t =? user_id)
                   && String.eqb (t_kind t) "expense"
                   && PyStr.leb lo (t_occurred_on t)
                   && PyStr.leb (t_occurred_on t) hi)
         (transactions db).

(** The texts of a list, each once. *)
Fixpoint distinct (l : list string) : list string :=
  match l with
  | [] => []
  | k :: r => if existsb (String.eqb k) r then distinct r else k :: distinct r
  end.

(** The groups of [GROUP BY]: the values of the key among the rows, in
    the order of the texts. *)
Definition group_keys (l : list string) : list string :=
  sort_by PyStr.leb (distinct l).

(** [SUM(amount_cents)] for each of the groups [keys]: the rows of a
    group are added in table order, and the statement fails when the sum
    of one group does. *)
Fixpoint group_sums (key : transaction_row -> string)
    (rows : list transaction_row) (keys : list string)
  : result (list (string * Z)) :=
  match keys with
  | [] => Ok []
  | k :: ks =>
      total <- sqlite_sum
                 (map t_amount_cents
                    (filter (fun t => String.eqb (key t) k) rows)) ;;
      rest <- group_sums key rows ks ;;
      Ok ((k, total) :: rest)
  end.

(** [SELECT key, SUM(amount_cents) ... GROUP BY key] over [rows]. *)
Definition grouped_sums (key : transaction_row -> string)
    (rows : list transaction_row) : result (list (string * Z)) :=
  group_sums key rows (group_keys (map key rows)).

(** The value a dictionary filled from the groups holds for [k], and
    [default] when no group has that key. *)
Definition dict_get (groups : list (string * Z)) (k : string) (default : Z)
  : Z :=
  match find (fun g => String.eqb (fst g) k) groups with
  | Some g => snd g
  | None => default
  end.

(** [ORDER BY total DESC LIMIT 1], [fetchone]: the group with the largest
    total.  SQL leaves the choice among equal totals open; SQLite keeps
    the one that comes last in the order of the groups. *)
Definition top_group (groups : list (string * Z)) : option (string * Z) :=
  hd_error (sort_by (fun a b => snd b <=? snd a) (rev groups)).

(** Insertion of a bill into a list sorted by [due_day]; rows with the
    same day stay in table order. *)
Fixpoint insert_by_due_day (b : bill_row) (l : list bill_row) : list bill_row :=
  match l with
  | [] => [b]
  | x :: r =>
      if rb_due_day b <=? rb_due_day x then b :: l
      else x :: insert_by_due_day b r
  end.

(** The bills query: the user's active bills, [ORDER BY due_day ASC]. *)
Definition active_bills (db : database) (user_id : Z) : list bill_row :=
  fold_right insert_by_due_day []
    (filter (fun b => (rb_user_id b =? user_id) && (rb_active b =? 1))
            (recurring_bills db)).

(** [(d.replace(day=1) + timedelta(days=32)).replace(day=1)] *)
Definition first_of_next_month (d : date) : result date :=
  d1 <- replace_day d 1 ;;
  a <- add_days d1 32 ;;
  replace_day a 1.

(** The body of the loop over the bills up to the test against the next
    payday: the date on which the bill is due next. *)
Definition projected_due_date (today : date) (due_day : Z) : result date :=
  first_next_month <- first_of_next_month today ;;
  l <- sub_days first_next_month 1 ;;
  let last_day := day l in
  let actual_day := Z.min due_day last_day in
  due_date <- replace_day today actual_day ;;
  if ltb due_date today then
    next_month <- first_of_next_month today ;;
    first_next_next <- first_of_next_month next_month ;;
    l_nm <- sub_days first_next_next 1 ;;
    let last_day_nm := day l_nm in
    let actual_day_nm := Z.min due_day last_day_nm in
    replace_day next_month actual_day_nm
  else Ok due_date.

(** The projected due date in the words of the specification: the day
    [due_day], clamped to the length of the month, in the month of
    [today] when that day has not passed yet, and in the month after it
    otherwise. *)
Definition clamped_day (y m due_day : Z) : Z :=
  Z.min due_day (days_in_month y m).

Definition spec_due_date (today : date) (due_day : Z) : date :=
  let y := year today in
  let m := month today in
  if day today <=? clamped_day y m due_day
  then mkdate y m (clamped_day y m due_day)
  else
    let (y', m') := following_month y m in
    mkdate y' m' (clamped_day y' m' due_day).

(** One turn of the loop: [due_before] and [total_due_cents] after the
    bill [b]. *)
Definition bill_step (today next_payday : date)
    (acc : list due_entry * Z) (b : bill_row) : result (list due_entry * Z) :=
  due_date <- projected_due_date today (rb_due_day b) ;;
  if ltb due_date next_payday then
    Ok ((fst acc
         ++ [mkdue (rb_name b) (money_from_cents (rb_amount_cents b))
               (ymd due_date)])%list,
        snd acc + rb_amount_cents b)
  else Ok acc.

Fixpoint bills_loop (today next_payday : date)
    (bills : list bill_row) (acc : list due_entry * Z)
  : result (list due_entry * Z) :=
  match bills with
  | [] => Ok acc
  | b :: r =>
      acc' <- bill_step today next_payday acc b ;;
      bills_loop today next_payday r acc'
  end.

(** The entry of [due_before] for the bill [b], due on [due_date]. *)
Definition due_entry_of (b : bill_row) (due_date : date) : due_entry :=
  mkdue (rb_name b) (money_from_cents (rb_amount_cents b)) (ymd due_date).

(** The bills the loop lists, in the words of the specification: those
    whose projected date is strictly before the next payday. *)
Definition listed (today next_payday : date) (b : bill_row) : bool :=
  ltb (spec_due_date today (rb_due_day b)) next_payday.

(** [days_left], after the clamp. *)
Definition days_left (period_end today : date) : Z :=
  let days_left := diff_days period_end today + 1 in
  if days_left <? 1 then 1 else days_left.

(** [a // b] *)
Definition floordiv (a b : Z) : result Z :=
  if b =? 0 then Raise ZeroDivisionError else Ok (a / b).

(** The local variables of [dashboard] that the template is rendered
    from. *)
Record figures : Type := mkfigures {
  f_start : date;
  f_end : date;
  f_next_payday : date;
  f_typical : Z;
  f_income : Z;
  f_expense : Z;
  f_remaining : Z;
  f_due_before : list due_entry;
  f_total_due_cents : Z;
  f_after_bills_cents : Z;
  f_days_left : Z;
  f_daily_limit : Z;
  f_top : option (string * Z)
}.

(** The computation of [dashboard] for the schedule row of the user. *)
Definition dashboard_figures (today : date) (db : database)
    (user_id : Z) (schedule : schedule_row) : result figures :=
  period <- current_pay_period schedule ;;
  let '(start, end_, next_payday) := period in
  totals <- grouped_sums t_kind
              (period_rows db user_id (ymd start) (ymd end_)) ;;
  let income := dict_get totals "income" 0 in
  let expense := dict_get totals "expense" 0 in
  let typical := ps_typical_net_pay_cents schedule in
  let remaining := typical + income - expense in
  due <- bills_loop today next_payday (active_bills db user_id) ([], 0) ;;
  let '(due_before, total_due_cents) := due in
  let after_bills_cents := remaining - total_due_cents in
  let days_left := days_left end_ today in
  daily_limit <- floordiv remaining days_left ;;
  by_category <- grouped_sums t_category
                   (spent_rows db user_id (ymd start) (ymd end_)) ;;
  Ok (mkfigures start end_ next_payday typical income expense remaining
        due_before total_due_cents after_bills_cents days_left daily_limit
        (top_group by_category)).

Definition render_dashboard (g : figures) : dashboard_view :=
  mkview (ymd (f_start g)) (ymd (f_end g)) (ymd (f_next_payday g))
    (money_from_cents (f_typical g)) (money_from_cents (f_income g))
    (money_from_cents (f_expense g)) (money_from_cents (f_remaining g))
    (money_from_cents (f_daily_limit g))
    (option_map fst (f_top g))
    (option_map (fun top => money_from_cents (snd top)) (f_top g))
    (f_due_before g)
    (money_from_cents (f_total_due_cents g))
    (money_from_cents (f_after_bills_cents g)).

(** [dashboard], on the day [today]. *)
Definition dashboard (today : date) (db : database) (s : session) : outcome :=
  match require_login s, current_user_id s with
  | (true, _), Some user_id =>
      match get_schedule db user_id with
      | None => mkoutcome db s [] (Ok (Redirect "setup"))
      | Some schedule =>
          mkoutcome db s []
            (g <- dashboard_figures today db user_id schedule ;;
             Ok (Dashboard (render_dashboard g)))
      end
  | (_, msgs), _ => mkoutcome db s msgs (Ok (Redirect "login"))
  end.

(** The remaining amount in the words of the specification: the typical
    net pay, plus the income and minus the expenses of the user whose
    date lies in the pay period, both ends included. *)
Definition in_period (period_start period_end : date) (t : transaction_row)
  : bool :=
  match parse_ymd (t_occurred_on t) with
  | Ok d => leb period_start d && leb d period_end
  | Raise _ => false
  end.

Definition period_sum (db : database) (user_id : Z) (kind : string)
    (period_start period_end : date) : Z :=
  fold_right Z.add 0
    (map t_amount_cents
       (filter (fun t => (t_user_id t =? user_id)
                         && String.eqb (t_kind t) kind
                         && in_period period_start period_end t)
               (transactions db))).

Definition spec_remaining (db : database) (user_id typical : Z)
    (period_start period_end : date) : Z :=
  typical
  + period_sum db user_id "income" period_start period_end
  - period_sum db user_id "expense" period_start period_end.

(** ** Table invariants *)

Definition budget_has_key (user_id : Z) (category : string) (b : budget_row)
  : bool :=
  (b_user_id b =? user_id) && String.eqb (b_category b) category.

Definition budget_key (b : budget_row) : Z * string :=
  (b_user_id b, b_category b).

(** No two budget rows have the same user and category. *)
Definition budgets_unique (db : database) : Prop :=
  NoDup (map budget_key (budgets db)).

(** No two schedule rows have the same user, and every row is biweekly. *)
Definition schedules_ok (db : database) : Prop :=
  NoDup (map ps_user_id (pay_schedules db))
  /\ Forall (fun r => ps_frequency r = "biweekly") (pay_schedules db).

(** ** Sequences of requests *)

(** A POST as the server sees it: the session of the sender and the
    form. *)
Definition post : Type := (session * form)%type.

(** The database after a sequence of POSTs to one route. *)
Definition run_posts (handler : database -> session -> form -> outcome)
    (db : database) (reqs : list post) : database :=
  fold_left (fun db r => o_db (handler db (fst r) (snd r))) reqs db.

(** ** The other routes *)

(** What a page that lists rows answers: the redirect to the login page
    with the message flashed, the exception it did not catch, or the
    rows its template is rendered with. *)
Inductive listing (A : Type) : Type :=
| ToLogin (flashed : list string)
| Failed (e : exn)
| Listed (rows : A).

Arguments ToLogin {A} flashed.
Arguments Failed {A} e.
Arguments Listed {A} rows.

Section Login.

(** [werkzeug.security.check_password_hash] *)
Variable check_password_hash : string -> string -> bool.

(** [login], for a POST. *)
Definition login_post (db : database) (s : session) (f : form) : outcome :=
  let email := PyStr.lower (PyStr.strip (form_get f "email" "")) in
  let pw := form_get f "password" "" in
  let invalid :=
    mkoutcome db s ["Invalid login."] (Ok (Page "auth_login.html")) in
  match find (fun u => String.eqb (u_email u) email) (users db) with
  | None => invalid
  | Some user =>
      if check_password_hash (u_password_hash user) pw then
        match get_schedule db (u_id user) with
        | None =>
            mkoutcome db (Some (u_id user)) [] (Ok (Redirect "setup"))
        | Some _ =>
            mkoutcome db (Some (u_id user)) [] (Ok (Redirect "dashboard"))
        end
      else invalid
  end.

End Login.

(** [logout]: [session.clear()]. *)
Definition logout (db : database) (s : session) : outcome :=
  mkoutcome db None [] (Ok (Redirect "login")).

(** [home] *)
Definition home (db : database) (s : session) : outcome :=
  if logged_in s then mkoutcome db s [] (Ok (Redirect "dashboard"))
  else mkoutcome db s [] (Ok (Redirect "login")).

(** The order [occurred_on DESC, id DESC] of the transactions page: the
    later text first, and among equal texts the larger id first. *)
Definition newest_first (a b : transaction_row) : bool :=
  negb (PyStr.leb (t_occurred_on a) (t_occurred_on b))
  || String.eqb (t_occurred_on a) (t_occurred_on b) && (t_id b <=? t_id a).

(** The filter of the transactions page: the user's rows, of the kind
    asked for when it is one of the two kinds, of the category asked for
    when it is not empty. *)
Definition transactions_filter (user_id : Z) (kind category : string)
    (t : transaction_row) : bool :=
  (t_user_id t =? user_id)
  && (if String.eqb kind "income" || String.eqb kind "expense"
      then String.eqb (t_kind t) kind else true)
  && (if PyStr.is_empty category then true
      else String.eqb (t_category t) category).

(** [transactions]: the rows the template is rendered with; [args] is
    the query string. *)
Definition transactions_page (db : database) (s : session) (args : form)
  : listing (list transaction_row) :=
  match require_login s, current_user_id s with
  | (true, _), Some user_id =>
      let category := PyStr.strip (form_get args "category" "") in
      let kind := PyStr.strip (form_get args "kind" "") in
      Listed
        (firstn 200
           (sort_by newest_first
              (filter (transactions_filter user_id kind category)
                 (transactions db))))
  | (_, msgs), _ => ToLogin msgs
  end.

(** The order [due_day ASC, name ASC] of the bills page. *)
Definition by_due_day_name (a b : bill_row) : bool :=
  (rb_due_day a <? rb_due_day b)
  || (rb_due_day a =? rb_due_day b) && PyStr.leb (rb_name a) (rb_name b).

(** [bills], for a GET: the user's active bills. *)
Definition bills_page (db : database) (s : session)
  : listing (list bill_row) :=
  match require_login s, current_user_id s with
  | (true, _), Some user_id =>
      Listed
        (sort_by by_due_day_name
           (filter (fun b => (rb_user_id b =? user_id) && (rb_active b =? 1))
              (recurring_bills db)))
  | (_, msgs), _ => ToLogin msgs
  end.

(** *** The budgets page *)

(** One entry of [items]. *)
Record budget_item : Type := mkitem {
  bi_category : string;
  bi_limit : string;
  bi_spent : string;
  bi_remaining : string;
  bi_pct : Z;
  bi_status : string
}.

(** What the budgets page answers: as a [listing], or the
    [UnboundLocalError] of a read of [pct_raw] before its first
    assignment. *)
Inductive budgets_answer : Type :=
| Answer (l : listing (list budget_item))
| UnboundLocalError.

(** The budgets of the user, [ORDER BY category]. *)
Definition budget_rows (db : database) (user_id : Z) : list budget_row :=
  sort_by (fun a b => PyStr.leb (b_category a) (b_category b))
    (filter (fun b => b_user_id b =? user_id) (budgets db)).

(** [spent_map.get(cat, 0)]: the sum of the group of [cat], 0 without a
    group. *)
Definition spent_of (spent_map : list (string * Z)) (cat : string) : Z :=
  dict_get spent_map cat 0.

Section BudgetsPage.

(** [int((spent_cents / limit_cents) * 100)] for a positive limit: a
    computation on floating-point numbers, taken as it comes. *)
Variable pct_raw_of : Z -> Z -> Z.

(** The value of [status] for a [pct_raw]. *)
Definition status_of (pct_raw : Z) : string :=
  if pct_raw >=? 100 then "over"
  else if pct_raw >=? 80 then "warn"
  else "ok".

(** The loop over [budget_rows]: [pct_raw] is the variable of that name,
    [None] before its first assignment; [items] is the list so far.
    [None] as the result is the [UnboundLocalError]. *)
Fixpoint items_loop (spent : list (string * Z)) (rows : list budget_row)
    (pct_raw : option Z) (items : list budget_item)
  : option (list budget_item) :=
  match rows with
  | [] => Some items
  | b :: r =>
      let cat := b_category b in
      let limit_cents := b_limit_cents b in
      let spent_cents := spent_of spent cat in
      let remaining_cents := limit_cents - spent_cents in
      let pct_raw :=
        if limit_cents >? 0 then Some (pct_raw_of spent_cents limit_cents)
        else pct_raw in
      let pct :=
        if limit_cents >? 0
        then Z.min 100 (pct_raw_of spent_cents limit_cents) else 0 in
      match pct_raw with
      | None => None
      | Some p =>
          items_loop spent r pct_raw
            (items
             ++ [mkitem cat (money_from_cents limit_cents)
                   (money_from_cents spent_cents)
                   (money_from_cents remaining_cents) pct (status_of p)])
      end
  end.

End BudgetsPage.

(** The pay period of the budgets page: [None] for a user without a
    schedule. *)
Definition page_period (db : database) (user_id : Z)
  : result (option (date * date)) :=
  match get_schedule db user_id with
  | Some schedule =>
      p <- current_pay_period schedule ;;
      Ok (Some (fst (fst p), snd (fst p)))
  | None => Ok None
  end.

(** [spent_map]: the spending query, grouped by category, when there is
    a pay period; empty otherwise. *)
Definition page_spent (db : database) (user_id : Z)
  : result (list (string * Z)) :=
  window <- page_period db user_id ;;
  match window with
  | Some (start, end_) =>
      grouped_sums t_category (spent_rows db user_id (ymd start) (ymd end_))
  | None => Ok []
  end.

(** [budgets], for a GET. *)
Definition budgets_page (pct_raw_of : Z -> Z -> Z)
    (db : database) (s : session) : budgets_answer :=
  match require_login s, current_user_id s with
  | (true, _), Some user_id =>
      match page_spent db user_id with
      | Raise e => Answer (Failed e)
      | Ok spent_map =>
          match
            items_loop pct_raw_of spent_map (budget_rows db user_id) None []
          with
          | None => UnboundLocalError
          | Some items => Answer (Listed items)
          end
      end
  | (_, msgs), _ => Answer (ToLogin msgs)
  end.

(** *** Invariants of the other tables *)

(** The rows the bills route stores: a name that is not empty, a due day
    from 1 to 31, active. *)
Definition bill_ok (b : bill_row) : Prop :=
  PyStr.is_empty (rb_name b) = false
  /\ 1 <= rb_due_day b <= 31 /\ rb_active b = 1.

(** The rows the transactions form stores: one of the two kinds, and a
    text that [parse_ymd] accepts. *)
Definition transaction_ok (t : transaction_row) : Prop :=
  (t_kind t = "income" \/ t_kind t = "expense")
  /\ is_ok (parse_ymd (t_occurred_on t)) = true.

(** The users table as [signup] keeps it: no two rows with one email, no
    two with one id, every id positive. *)
Definition users_ok (db : database) : Prop :=
  NoDup (map u_email (users db))
  /\ NoDup (map u_id (users db))
  /\ Forall (fun u => 1 <= u_id u) (users db).

(** A POST to the transactions form with the day on which it arrives. *)
Definition dated_post : Type := (date * post)%type.

(** The database after a sequence of POSTs to the transactions form. *)
Definition run_transaction_posts (db : database) (reqs : list dated_post)
  : database :=
  fold_left
    (fun db r =>
       o_db (transaction_new_post (fst r) db (fst (snd r)) (snd (snd r))))
    reqs db.

(** The transactions table as the form keeps it. *)
Definition transactions_ok (db : database) : Prop :=
  Forall transaction_ok (transactions db)
  /\ NoDup (map t_id (transactions db)).

(** The bills table as the bills route keeps it. *)
Definition bills_ok (db : database) : Prop :=
  Forall bill_ok (recurring_bills db)
  /\ NoDup (map rb_id (recurring_bills db)).

(** ** Auxiliary notions of the proofs *)

(** A character that is not the decimal point. *)
Definition not_dot (c : ascii) : bool := negb (Ascii.eqb c ".").

(** A result that is not a division by zero. *)
Definition no_zero_division {A : Type} (r : result A) : Prop :=
  r <> Raise ZeroDivisionError.

(** The digits of a number below 100, and of one below 10000. *)
Definition two_digits (v : Z) : string :=
  String (PyStr.digit_char (v / 10)) (String (PyStr.digit_char (v mod 10)) "").

Definition four_digits (v : Z) : string :=
  String (PyStr.digit_char (v / 1000))
    (String (PyStr.digit_char (v / 100 mod 10)) (two_digits (v mod 100))).

(** A transaction whose date was stored as [ymd] prints it. *)
Definition canonical (t : transaction_row) : Prop :=
  exists d, valid d = true /\ 1000 <= year d /\ t_occurred_on t = ymd d.

(** The amounts of one kind among [rows], added up as numbers: what the
    totals query gives for the kind when its [SUM] does not overflow. *)
Definition kind_total (kind : string) (rows : list transaction_row) : Z :=
  fold_right Z.add 0
    (map t_amount_cents
       (filter (fun t => String.eqb (t_kind t) kind) rows)).

(** The amounts of the user's transactions of one kind whose date text
    lies between [lo] and [hi], added up as numbers. *)
Definition window_total (db : database) (user_id : Z) (kind lo hi : string)
  : Z :=
  fold_right Z.add 0
    (map t_amount_cents
       (filter (fun t => (t_user_id t =? user_id)
                         && String.eqb (t_kind t) kind
                         && PyStr.leb lo (t_occurred_on t)
                         && PyStr.leb (t_occurred_on t) hi)
          (transactions db))).

(** The same for the user's expenses of one category. *)
Definition window_spent (db : database) (user_id : Z) (lo hi cat : string)
  : Z :=
  fold_right Z.add 0
    (map t_amount_cents
       (filter (fun t => (t_user_id t =? user_id)
                         && String.eqb (t_kind t) "expense"
                         && String.eqb (t_category t) cat
                         && PyStr.leb lo (t_occurred_on t)
                         && PyStr.leb (t_occurred_on t) hi)
          (transactions db))).

(** The absolute amounts of [rows], added up. *)
Definition abs_total (rows : list transaction_row) : Z :=
  fold_right Z.add 0 (map (fun t => Z.abs (t_amount_cents t)) rows).

(** The absolute amounts of the user's transactions add up to a number
    SQLite can hold: no sum over rows of the user overflows, in whatever
    order it is taken. *)
Definition amounts_fit (db : database) (user_id : Z) : Prop :=
  abs_total (filter (fun t => t_user_id t =? user_id) (transactions db))
  <= INT64_MAX.

(** The window of the budgets page: the pay period of the user's
    schedule, and none for a user without a schedule. *)
Definition page_window (db : database) (user_id : Z)
    (window : option (date * date)) : Prop :=
  match get_schedule db user_id with
  | Some schedule =>
      exists period_start period_end next_payday,
        current_pay_period schedule
        = Ok (period_start, period_end, next_payday)
        /\ window = Some (period_start, period_end)
  | None => window = None
  end.

(** The pay period of the budgets page does not fail: the user has no
    schedule, or [current_pay_period] returns for it. *)
Definition period_fine (db : database) (uid : Z) : Prop :=
  match get_schedule db uid with
  | Some schedule => is_ok (current_pay_period schedule) = true
  | None => True
  end.

(** What the page shows as spent for a category: the user's expenses of
    the category in the window, and 0 without a window. *)
Definition spent_in (db : database) (user_id : Z)
    (window : option (date * date)) (cat : string) : Z :=
  match window with
  | Some (period_start, period_end) =>
      window_spent db user_id (ymd period_start) (ymd period_end) cat
  | None => 0
  end.

(** What the loop makes of a row whose category has [spent_cents]: the
    fields of its item that do not depend on the rows before it. *)
Definition item_of (pct_raw_of : Z -> Z -> Z) (spent_cents : Z)
    (b : budget_row) (i : budget_item) : Prop :=
  bi_category i = b_category b
  /\ bi_limit i = money_from_cents (b_limit_cents b)
  /\ bi_spent i = money_from_cents spent_cents
  /\ bi_remaining i = money_from_cents (b_limit_cents b - spent_cents)
  /\ bi_pct i <= 100
  /\ (b_limit_cents b <= 0 -> bi_pct i = 0)
  /\ (0 < b_limit_cents b ->
      bi_pct i = Z.min 100 (pct_raw_of spent_cents (b_limit_cents b))
      /\ bi_status i = status_of (pct_raw_of spent_cents (b_limit_cents b))).

(** The budget of the user that comes first by category, when it has no
    positive limit. *)
Definition first_budget_without_limit (db : database) (uid : Z)
    (b : budget_row) : Prop :=
  In b (budgets db) /\ b_user_id b = uid /\ b_limit_cents b <= 0
  /\ forall b', In b' (budgets db) -> b_user_id b' = uid ->
                PyStr.leb (b_category b) (b_category b') = true.

(** * Properties *)

Local Open Scope list_scope.

(** Case analysis on every disjunction among the hypotheses. *)
Ltac split_or :=
  repeat match goal with
         | H : _ \/ _ |- _ => destruct H as [H | H]
         end.

(** ** Examples of the helpers *)

Example money_from_cents_ex1 : money_from_cents 123456 = "1234.56".
Proof. reflexivity. Qed.

Example money_from_cents_ex2 : money_from_cents (-5) = "-0.05".
Proof. reflexivity. Qed.

Example cents_from_money_str_ex1 : cents_from_money_str " 12.5 " = Ok 1250.
Proof. reflexivity. Qed.

Example cents_from_money_str_ex2 : cents_from_money_str "abc" = Raise ValueError.
Proof. reflexivity. Qed.

Example cents_from_money_str_ex3 : cents_from_money_str "1_000.239" = Ok 100023.
Proof. reflexivity. Qed.

Example int_separator_ex :
  PyStr.strip (String (ascii_of_N 28) "5") = "5"
  /\ PyStr.int (String (ascii_of_N 28) "5") = Raise ValueError
  /\ PyStr.int " 5 " = Ok 5.
Proof. repeat split; reflexivity. Qed.

Example bind_int_ex :
  bind_int 9223372036854775807 = Ok 9223372036854775807
  /\ bind_int 9223372036854775808 = Raise OverflowError
  /\ bind_int (-9223372036854775809) = Raise OverflowError.
Proof. repeat split; reflexivity. Qed.

Example sqlite_sum_ex :
  let big := 9000000000000000000 in
  sqlite_sum [big; - big; big] = Ok big
  /\ sqlite_sum [big; big; - big] = Raise OperationalError.
Proof. cbv zeta. split; reflexivity. Qed.

Example top_group_ex :
  top_group [("A", 5); ("B", 5); ("C", 3)] = Some ("B", 5).
Proof. reflexivity. Qed.

(** ** Money strings *)

(** A property checked on every number below a bound holds below it. *)
Lemma forall_below (P : Z -> bool) (n : Z) :
  forallb P (map Z.of_nat (seq 0 (Z.to_nat n))) = true ->
  forall v, 0 <= v < n -> P v = true.
Proof.
  intros H v Hv. rewrite forallb_forall in H. apply H.
  apply in_map_iff. exists (Z.to_nat v). split; [lia |].
  apply in_seq. lia.
Qed.

Lemma digit_val_char (d : Z) :
  0 <= d <= 9 -> PyStr.digit_val (PyStr.digit_char d) = Some d.
Proof.
  intros H.
  assert (d = 0 \/ d = 1 \/ d = 2 \/ d = 3 \/ d = 4 \/ d = 5 \/ d = 6
          \/ d = 7 \/ d = 8 \/ d = 9) as C by lia.
  split_or; subst d; reflexivity.
Qed.

Lemma is_digit_char (d : Z) :
  0 <= d <= 9 -> PyStr.is_digit (PyStr.digit_char d) = true.
Proof.
  intros H. unfold PyStr.is_digit. rewrite digit_val_char by exact H.
  reflexivity.
Qed.

Lemma dec_digits_parse (f : nat) :
  forall (n : Z) (acc : string) (p : bool),
    0 <= n < 2 ^ Z.of_nat (S f) ->
    PyStr.int_digits (PyStr.dec_digits (S f) n acc) 0 p
    = PyStr.int_digits acc n true.
Proof.
  induction f as [| f IH]; intros n acc p B.
  - change (2 ^ Z.of_nat 1) with 2 in B.
    cbn [PyStr.dec_digits].
    replace (n / 10) with 0 by (symmetry; apply Z.div_small; lia).
    rewrite Z.mod_small by lia. cbn [Z.eqb PyStr.int_digits].
    rewrite digit_val_char by lia. f_equal.
  - remember (S f) as g eqn:G. cbn [PyStr.dec_digits].
    pose proof (Z.div_mod n 10 ltac:(lia)) as DM.
    pose proof (Z.mod_pos_bound n 10 ltac:(lia)) as MB.
    destruct (Z.eqb_spec (n / 10) 0) as [E | N].
    + cbn [PyStr.int_digits]. rewrite digit_val_char by lia. f_equal. lia.
    + subst g. rewrite IH.
      * cbn [PyStr.int_digits]. rewrite digit_val_char by lia. f_equal. lia.
      * rewrite Nat2Z.inj_succ, Z.pow_succ_r in B by lia.
        assert (0 <= n / 10) by (apply Z.div_pos; lia). lia.
Qed.

Lemma of_nonneg_fuel (n : Z) :
  0 <= n -> 0 <= n < 2 ^ Z.of_nat (S (Z.to_nat (Z.log2 n))).
Proof.
  intros H. split; [exact H |].
  rewrite Nat2Z.inj_succ, Z2Nat.id by apply Z.log2_nonneg.
  destruct (Z.eq_dec n 0) as [-> | N]; [reflexivity |].
  apply Z.log2_spec. lia.
Qed.

Lemma int_digits_of_nonneg (n : Z) (p : bool) :
  0 <= n -> PyStr.int_digits (PyStr.of_nonneg n) 0 p = Ok n.
Proof.
  intros H. unfold PyStr.of_nonneg.
  rewrite dec_digits_parse by (apply of_nonneg_fuel; exact H). reflexivity.
Qed.

Lemma all_chars_app (q : ascii -> bool) (a b : string) :
  PyStr.all_chars q (a ++ b) = PyStr.all_chars q a && PyStr.all_chars q b.
Proof.
  induction a as [| c a IH]; cbn; [reflexivity |].
  rewrite IH, andb_assoc. reflexivity.
Qed.

Lemma dec_digits_all_digits (f : nat) :
  forall (n : Z) (acc : string),
    PyStr.all_chars PyStr.is_digit acc = true ->
    PyStr.all_chars PyStr.is_digit (PyStr.dec_digits f n acc) = true.
Proof.
  induction f as [| f IH]; intros n acc A; cbn [PyStr.dec_digits]; [exact A |].
  assert (A' : PyStr.all_chars PyStr.is_digit
                 (String (PyStr.digit_char (n mod 10)) acc) = true).
  { cbn [PyStr.all_chars].
    rewrite is_digit_char, A by (pose proof (Z.mod_pos_bound n 10); lia).
    reflexivity. }
  destruct (n / 10 =? 0); [exact A' | apply IH; exact A'].
Qed.

Lemma dec_digits_nonempty (f : nat) (n : Z) (acc : string) :
  PyStr.is_empty (PyStr.dec_digits (S f) n acc) = false.
Proof.
  revert n acc. induction f as [| f IH]; intros n acc.
  - cbn. destruct (n / 10 =? 0); reflexivity.
  - remember (S f) as g. cbn [PyStr.dec_digits].
    destruct (n / 10 =? 0); [reflexivity |]. subst g. apply IH.
Qed.

Lemma of_nonneg_all_digits (n : Z) :
  PyStr.all_chars PyStr.is_digit (PyStr.of_nonneg n) = true.
Proof. apply dec_digits_all_digits. reflexivity. Qed.

Lemma of_nonneg_nonempty (n : Z) : PyStr.is_empty (PyStr.of_nonneg n) = false.
Proof. apply dec_digits_nonempty. Qed.

(** What the ten digit characters are not. *)
Lemma is_digit_plain (c : ascii) :
  PyStr.is_digit c = true ->
  PyStr.is_space c = false /\ Ascii.eqb c "." = false
  /\ Ascii.eqb c "-" = false /\ Ascii.eqb c "+" = false
  /\ Ascii.eqb c "_" = false.
Proof.
  destruct c as [[] [] [] [] [] [] [] []]; intros H;
    try discriminate H; repeat split; reflexivity.
Qed.

Lemma lstrip_plain (s : string) :
  PyStr.all_chars PyStr.plain s = true -> PyStr.lstrip s = s.
Proof.
  destruct s as [| c s]; [reflexivity |]. cbn. unfold PyStr.plain.
  destruct (PyStr.is_space c); [discriminate | reflexivity].
Qed.

Lemma rstrip_plain (s : string) :
  PyStr.all_chars PyStr.plain s = true -> PyStr.rstrip s = s.
Proof.
  induction s as [| c s IH]; [reflexivity |]. cbn [PyStr.all_chars PyStr.rstrip].
  intros H. apply andb_prop in H. destruct H as [Hc Hs].
  rewrite (IH Hs). unfold PyStr.plain in Hc.
  destruct (PyStr.is_space c); [discriminate |].
  rewrite andb_false_r. reflexivity.
Qed.

Lemma strip_plain (s : string) :
  PyStr.all_chars PyStr.plain s = true -> PyStr.strip s = s.
Proof.
  intros H. unfold PyStr.strip. rewrite lstrip_plain by exact H.
  apply rstrip_plain. exact H.
Qed.

Lemma all_chars_weaken (p q : ascii -> bool) (s : string) :
  (forall c, p c = true -> q c = true) ->
  PyStr.all_chars p s = true -> PyStr.all_chars q s = true.
Proof.
  intros W. induction s as [| c s IH]; [reflexivity |]. cbn.
  intros H. apply andb_prop in H. destruct H as [Hc Hs].
  rewrite (W c Hc), (IH Hs). reflexivity.
Qed.

Lemma digits_plain (s : string) :
  PyStr.all_chars PyStr.is_digit s = true -> PyStr.all_chars PyStr.plain s = true.
Proof.
  apply all_chars_weaken. intros c H. unfold PyStr.plain.
  destruct (is_digit_plain c H) as [-> _]. reflexivity.
Qed.

(** The whitespace of [int] is whitespace for [strip] too. *)
Lemma is_int_space_is_space (c : ascii) :
  PyStr.is_int_space c = true -> PyStr.is_space c = true.
Proof.
  destruct c as [[] [] [] [] [] [] [] []]; intros H;
    try discriminate H; reflexivity.
Qed.

Lemma plain_not_int_space (c : ascii) :
  PyStr.plain c = true -> PyStr.is_int_space c = false.
Proof.
  unfold PyStr.plain. intros H.
  destruct (PyStr.is_int_space c) eqn:E; [| reflexivity].
  rewrite (is_int_space_is_space c E) in H. discriminate H.
Qed.

Lemma int_strip_plain (s : string) :
  PyStr.all_chars PyStr.plain s = true ->
  PyStr.int_rstrip (PyStr.int_lstrip s) = s.
Proof.
  intros H.
  assert (L : PyStr.int_lstrip s = s).
  { destruct s as [| c s]; [reflexivity |]. cbn [PyStr.all_chars] in H.
    apply andb_prop in H. destruct H as [Hc _]. cbn [PyStr.int_lstrip].
    rewrite (plain_not_int_space c Hc). reflexivity. }
  rewrite L. clear L.
  induction s as [| c s IH]; [reflexivity |].
  cbn [PyStr.all_chars] in H. apply andb_prop in H. destruct H as [Hc Hs].
  cbn [PyStr.int_rstrip]. rewrite (IH Hs), (plain_not_int_space c Hc).
  rewrite andb_false_r. reflexivity.
Qed.

(** [int] on a text of digits only. *)
Lemma int_of_digits (s : string) :
  PyStr.all_chars PyStr.is_digit s = true ->
  PyStr.int s = PyStr.int_digits s 0 false.
Proof.
  intros H. unfold PyStr.int.
  rewrite int_strip_plain by (apply digits_plain; exact H).
  destruct s as [| c r]; [reflexivity |].
  cbn [PyStr.all_chars] in H. apply andb_prop in H. destruct H as [Hc _].
  destruct c as [[] [] [] [] [] [] [] []]; try discriminate Hc; reflexivity.
Qed.

Lemma int_of_nonneg (n : Z) : 0 <= n -> PyStr.int (PyStr.of_nonneg n) = Ok n.
Proof.
  intros H. rewrite int_of_digits by apply of_nonneg_all_digits.
  apply int_digits_of_nonneg. exact H.
Qed.

Lemma contains_dot_app (a b : string) :
  PyStr.contains "." (a ++ String "." b) = true.
Proof.
  induction a as [| c a IH]; cbn; [reflexivity |].
  rewrite IH. apply orb_true_r.
Qed.

Lemma split_once_dot (a b : string) :
  PyStr.all_chars PyStr.is_digit a = true ->
  PyStr.split_once "." (a ++ String "." b) = (a, b).
Proof.
  induction a as [| c a IH]; intros H; [reflexivity |].
  cbn [PyStr.all_chars] in H. apply andb_prop in H. destruct H as [Hc Ha].
  cbn [append PyStr.split_once].
  destruct (is_digit_plain c Hc) as (_ & -> & _).
  rewrite (IH Ha). reflexivity.
Qed.

Lemma is_empty_app (a b : string) :
  PyStr.is_empty a = false -> PyStr.is_empty (a ++ b) = false.
Proof. destruct a; [discriminate | reflexivity]. Qed.

(** The two digits of the cents. *)
Lemma zero_pad_2_cents (v : Z) :
  0 <= v < 100 ->
  PyStr.all_chars PyStr.is_digit (PyStr.zero_pad 2 v) = true
  /\ PyStr.take 2 (PyStr.zero_pad 2 v ++ "00") = PyStr.zero_pad 2 v
  /\ PyStr.int (PyStr.zero_pad 2 v) = Ok v.
Proof.
  intros H.
  pose proof (forall_below
                (fun v =>
                   PyStr.all_chars PyStr.is_digit (PyStr.zero_pad 2 v)
                   && String.eqb (PyStr.take 2 (PyStr.zero_pad 2 v ++ "00"))
                                 (PyStr.zero_pad 2 v)
                   && match PyStr.int (PyStr.zero_pad 2 v) with
                      | Ok r => r =? v
                      | Raise _ => false
                      end)
                100 ltac:(vm_compute; reflexivity) v H) as C.
  cbv beta in C.
  apply andb_prop in C. destruct C as [C C3].
  apply andb_prop in C. destruct C as [C1 C2].
  split; [exact C1 |]. split; [apply String.eqb_eq; exact C2 |].
  destruct (PyStr.int (PyStr.zero_pad 2 v)) as [r | e]; [| discriminate].
  apply Z.eqb_eq in C3. subst r. reflexivity.
Qed.

(** Claim C9.  For a non-negative number of cents [c], the money
    string [money_from_cents c] parses back, with
    [cents_from_money_str], to [c]. *)
Theorem money_round_trip (c : Z) :
  0 <= c -> cents_from_money_str (money_from_cents c) = Ok c.
Proof.
  intros H. unfold money_from_cents.
  destruct (Z.ltb_spec c 0) as [L | _]; [lia |].
  rewrite Z.abs_eq by exact H. cbn [append].
  assert (Q : 0 <= c / 100) by (apply Z.div_pos; lia).
  pose proof (Z.mod_pos_bound c 100 ltac:(lia)) as R.
  unfold PyStr.of_int. destruct (Z.ltb_spec (c / 100) 0) as [L | _]; [lia |].
  destruct (zero_pad_2_cents (c mod 100) R) as (D2 & T2 & I2).
  pose proof (of_nonneg_all_digits (c / 100)) as D1.
  set (dollars := PyStr.of_nonneg (c / 100)) in *.
  set (cents := PyStr.zero_pad 2 (c mod 100)) in *.
  unfold cents_from_money_str.
  assert (P : PyStr.all_chars PyStr.plain (dollars ++ String "." cents) = true).
  { rewrite all_chars_app. cbn [PyStr.all_chars].
    rewrite (digits_plain _ D1), (digits_plain _ D2). reflexivity. }
  rewrite (strip_plain _ P).
  rewrite is_empty_app by apply of_nonneg_nonempty.
  rewrite contains_dot_app, split_once_dot by exact D1.
  rewrite T2. unfold dollars. rewrite int_of_nonneg by exact Q.
  cbn [bind]. rewrite I2. cbn [bind]. f_equal.
  pose proof (Z.div_mod c 100 ltac:(lia)). lia.
Qed.

Lemma money_round_trip_witness :
  0 <= 123405 /\ cents_from_money_str (money_from_cents 123405) = Ok 123405.
Proof. split; [lia | apply (money_round_trip 123405); lia]. Defined.

(** ** The calendar *)

Lemma days_before_year_decomp (n400 n100 n4 n1 : Z) :
  0 <= n100 <= 3 -> 0 <= n4 <= 24 -> 0 <= n1 <= 3 ->
  days_before_year (400 * n400 + 100 * n100 + 4 * n4 + n1 + 1)
  = 146097 * n400 + 36524 * n100 + 1461 * n4 + 365 * n1.
Proof.
  intros H100 H4 H1. unfold days_before_year.
  replace (400 * n400 + 100 * n100 + 4 * n4 + n1 + 1 - 1)
    with (400 * n400 + 100 * n100 + 4 * n4 + n1) by ring.
  set (y := 400 * n400 + 100 * n100 + 4 * n4 + n1).
  assert (E4 : y / 4 = 100 * n400 + 25 * n100 + n4).
  { symmetry. apply (Z.div_unique y 4 _ n1); [lia | unfold y; ring]. }
  assert (E100 : y / 100 = 4 * n400 + n100).
  { symmetry. apply (Z.div_unique y 100 _ (4 * n4 + n1)); [lia | unfold y; ring]. }
  assert (E400 : y / 400 = n400).
  { symmetry. apply (Z.div_unique y 400 _ (100 * n100 + 4 * n4 + n1)); [lia | unfold y; ring]. }
  rewrite E4, E100, E400. unfold y. ring.
Qed.

Lemma is_leap_decomp (n400 n100 n4 n1 : Z) :
  0 <= n100 <= 3 -> 0 <= n4 <= 24 -> 0 <= n1 <= 3 ->
  is_leap (400 * n400 + 100 * n100 + 4 * n4 + n1 + 1)
  = (n1 =? 3) && (negb (n4 =? 24) || (n100 =? 3)).
Proof.
  intros H100 H4 H1. unfold is_leap.
  set (y := 400 * n400 + 100 * n100 + 4 * n4 + n1 + 1).
  assert (Ey : y = 400 * n400 + 100 * n100 + 4 * n4 + n1 + 1) by reflexivity.
  clearbody y.
  destruct (Z.eqb_spec (y mod 4) 0) as [A|A];
    destruct (Z.eqb_spec (y mod 100) 0) as [B|B];
    destruct (Z.eqb_spec (y mod 400) 0) as [C|C];
    destruct (Z.eqb_spec n1 3) as [D|D];
    destruct (Z.eqb_spec n4 24) as [E|E];
    destruct (Z.eqb_spec n100 3) as [F|F];
    cbn [andb orb negb]; try reflexivity; exfalso;
    revert A B C; Z.div_mod_to_equations; lia.
Qed.

Ltac calc :=
  cbn [year month day DAYS_BEFORE_MONTH DAYS_IN_MONTH Z.gtb Z.eqb Z.compare
       Pos.compare Pos.compare_cont Pos.eqb andb orb negb].

Ltac numeral v :=
  match v with
  | Z0 => idtac
  | Zpos _ => idtac
  | Zneg _ => idtac
  end.

Ltac closed_arith :=
  repeat match goal with
         | |- context [DAYS_BEFORE_MONTH ?k] =>
             let v := eval compute in (DAYS_BEFORE_MONTH k) in
             numeral v; change (DAYS_BEFORE_MONTH k) with v
         | |- context [DAYS_IN_MONTH ?k] =>
             let v := eval compute in (DAYS_IN_MONTH k) in
             numeral v; change (DAYS_IN_MONTH k) with v
         | |- context [if ?b then ?x else ?y] =>
             let v := eval compute in (if b then x else y) in
             numeral v; change (if b then x else y) with v
         end.

Ltac months m :=
  assert (m = 1 \/ m = 2 \/ m = 3 \/ m = 4 \/ m = 5 \/ m = 6 \/ m = 7
          \/ m = 8 \/ m = 9 \/ m = 10 \/ m = 11 \/ m = 12) by lia.

Lemma ord2ymd_spec (n : Z) :
  1 <= n <= MAXORDINAL ->
  valid (ord2ymd n) = true /\ toordinal (ord2ymd n) = n.
Proof.
  unfold MAXORDINAL. intros Hn. unfold ord2ymd. cbv zeta.
  set (q := n - 1).
  set (n400 := q / 146097). set (r1 := q mod 146097).
  set (n100 := r1 / 36524). set (r2 := r1 mod 36524).
  set (n4 := r2 / 1461). set (r3 := r2 mod 1461).
  set (n1 := r3 / 365). set (r := r3 mod 365).
  assert (Q : q = 146097 * n400 + r1 /\ 0 <= r1 < 146097)
    by (split; [apply Z.div_mod; lia | apply Z.mod_pos_bound; lia]).
  assert (R1 : r1 = 36524 * n100 + r2 /\ 0 <= r2 < 36524)
    by (split; [apply Z.div_mod; lia | apply Z.mod_pos_bound; lia]).
  assert (R2 : r2 = 1461 * n4 + r3 /\ 0 <= r3 < 1461)
    by (split; [apply Z.div_mod; lia | apply Z.mod_pos_bound; lia]).
  assert (R3 : r3 = 365 * n1 + r /\ 0 <= r < 365)
    by (split; [apply Z.div_mod; lia | apply Z.mod_pos_bound; lia]).
  assert (Eq : n = q + 1) by (unfold q; ring).
  clearbody r n1 r3 n4 r2 n100 r1 n400 q.
  assert (B400 : 0 <= n400 <= 24) by lia.
  assert (B100 : 0 <= n100 <= 4) by lia.
  assert (B4 : 0 <= n4 <= 24) by lia.
  assert (B1 : 0 <= n1 <= 4) by lia.
  unfold valid, toordinal, ymd2ord, days_in_month, days_before_month,
    MINYEAR, MAXYEAR.
  destruct (Z.eqb_spec n100 4) as [E100 | E100].
  { (* the last day of a 400-year cycle *)
    rewrite orb_true_r. cbn [year month day].
    replace (n400 * 400 + 1 + n100 * 100 + n4 * 4 + n1 - 1)
      with (400 * n400 + 100 * 3 + 4 * 24 + 3 + 1) by lia.
    rewrite days_before_year_decomp, is_leap_decomp by lia.
    calc. split; [| lia].
    repeat (apply andb_true_intro; split); try reflexivity;
      apply Z.leb_le; lia. }
  destruct (Z.eqb_spec n1 4) as [E1 | E1].
  { (* the last day of a leap year *)
    cbn [orb year month day].
    replace (n400 * 400 + 1 + n100 * 100 + n4 * 4 + n1 - 1)
      with (400 * n400 + 100 * n100 + 4 * n4 + 3 + 1) by lia.
    rewrite days_before_year_decomp, is_leap_decomp by lia.
    assert (L : (3 =? 3) && (negb (n4 =? 24) || (n100 =? 3)) = true).
    { destruct (Z.eqb_spec n4 24); [lia | reflexivity]. }
    rewrite L. calc. split; [| lia].
    repeat (apply andb_true_intro; split); try reflexivity;
      apply Z.leb_le; lia. }
  cbn [orb].
  replace (n400 * 400 + 1 + n100 * 100 + n4 * 4 + n1)
    with (400 * n400 + 100 * n100 + 4 * n4 + n1 + 1) by ring.
  set (leap := (n1 =? 3) && (negb (n4 =? 24) || (n100 =? 3))).
  assert (Y : 1 <= 400 * n400 + 100 * n100 + 4 * n4 + n1 + 1 <= 9999) by lia.
  set (y := 400 * n400 + 100 * n100 + 4 * n4 + n1 + 1) in *.
  assert (DBY : days_before_year y = q - r).
  { unfold y. rewrite days_before_year_decomp by lia. lia. }
  assert (LEAP : is_leap y = leap).
  { unfold y. apply is_leap_decomp; lia. }
  clearbody y.
  rewrite Z.shiftr_div_pow2 by lia. change (2 ^ 5) with 32.
  set (m := (r + 50) / 32).
  assert (M : 32 * m <= r + 50 < 32 * m + 32).
  { unfold m. pose proof (Z.div_mod (r + 50) 32).
    pose proof (Z.mod_pos_bound (r + 50) 32). lia. }
  clearbody m. months m.
  assert (Br : 0 <= r < 365) by lia.
  clear Q R1 R2 R3 B400 B100 B4 B1 E100 E1.
  clearbody leap.
  split_or; subst m; destruct leap; rewrite ?LEAP; closed_arith;
    match goal with
    | |- context [if ?c >? ?d then _ else _] =>
        destruct (Z.gtb_spec c d)
    end;
    cbn [year month day]; rewrite ?LEAP, ?DBY; closed_arith;
    (split; [ repeat (apply andb_true_intro; split); apply Z.leb_le; lia | lia ]).
Qed.

Lemma days_before_year_succ (y : Z) :
  days_before_year (y + 1) = days_before_year y + 365 + leap_day y.
Proof.
  unfold days_before_year, leap_day, is_leap.
  replace (y + 1 - 1) with y by ring.
  destruct (Z.eqb_spec (y mod 4) 0) as [A|A];
    destruct (Z.eqb_spec (y mod 100) 0) as [B|B];
    destruct (Z.eqb_spec (y mod 400) 0) as [C|C];
    cbn [andb orb negb];
    revert A B C; Z.div_mod_to_equations; lia.
Qed.

Lemma days_before_year_mono (a b : Z) :
  a <= b -> days_before_year a <= days_before_year b.
Proof.
  unfold days_before_year. intros H. Z.div_mod_to_equations. lia.
Qed.

Lemma valid_inv (d : date) :
  valid d = true ->
  1 <= year d <= 9999 /\ 1 <= month d <= 12
  /\ 1 <= day d <= days_in_month (year d) (month d).
Proof.
  unfold valid, MINYEAR, MAXYEAR. intros H.
  repeat (apply andb_prop in H; destruct H as [H ?]).
  repeat match goal with
         | H : (_ <=? _) = true |- _ => apply Z.leb_le in H
         end.
  lia.
Qed.

Lemma valid_intro (d : date) :
  1 <= year d <= 9999 -> 1 <= month d <= 12 ->
  1 <= day d <= days_in_month (year d) (month d) ->
  valid d = true.
Proof.
  unfold valid, MINYEAR, MAXYEAR. intros.
  repeat (apply andb_true_intro; split); apply Z.leb_le; lia.
Qed.

(** The days of a year before month [m] and the days of [m] give the
    days before the month after [m]. *)
Lemma days_before_month_succ (y m : Z) :
  1 <= m <= 11 ->
  days_before_month y (m + 1) = days_before_month y m + days_in_month y m.
Proof.
  intros H. unfold days_before_month, days_in_month.
  assert (m = 1 \/ m = 2 \/ m = 3 \/ m = 4 \/ m = 5 \/ m = 6 \/ m = 7
          \/ m = 8 \/ m = 9 \/ m = 10 \/ m = 11) as C by lia.
  split_or; subst m; destruct (is_leap y); reflexivity.
Qed.

Lemma days_before_month_last (y : Z) :
  days_before_month y 12 + days_in_month y 12 = 365 + leap_day y.
Proof.
  unfold days_before_month, days_in_month, leap_day.
  destruct (is_leap y); reflexivity.
Qed.

Lemma days_in_month_bounds (y m : Z) :
  1 <= m <= 12 -> 28 <= days_in_month y m <= 31.
Proof.
  intros H. unfold days_in_month. months m.
  split_or; subst m; destruct (is_leap y); cbn; lia.
Qed.

Lemma days_before_month_mono (y a b : Z) :
  1 <= a -> a < b -> b <= 12 ->
  days_before_month y a + days_in_month y a <= days_before_month y b.
Proof.
  intros Ha Hab Hb.
  assert (G : forall k : nat,
             a + 1 + Z.of_nat k <= 12 ->
             days_before_month y a + days_in_month y a
             <= days_before_month y (a + 1 + Z.of_nat k)).
  { induction k as [| k IH]; intros Hk.
    - replace (a + 1 + Z.of_nat 0) with (a + 1) by lia.
      rewrite days_before_month_succ by lia. lia.
    - replace (a + 1 + Z.of_nat (S k)) with (a + 1 + Z.of_nat k + 1) by lia.
      rewrite days_before_month_succ by lia.
      pose proof (days_in_month_bounds y (a + 1 + Z.of_nat k)). lia. }
  specialize (G (Z.to_nat (b - a - 1))).
  replace (a + 1 + Z.of_nat (Z.to_nat (b - a - 1))) with b in G by lia.
  apply G. lia.
Qed.

Lemma days_before_month_bounds (y m : Z) :
  1 <= m <= 12 ->
  0 <= days_before_month y m
  /\ days_before_month y m + days_in_month y m <= 365 + leap_day y.
Proof.
  intros H. split.
  - unfold days_before_month. months m.
    split_or; subst m; destruct (is_leap y); cbn; lia.
  - destruct (Z.eq_dec m 12) as [-> | N].
    + rewrite days_before_month_last. lia.
    + pose proof (days_before_month_mono y m 12).
      pose proof (days_before_month_last y).
      pose proof (days_in_month_bounds y 12). lia.
Qed.

Lemma toordinal_lt (a b : date) :
  valid a = true -> valid b = true -> ltb a b = true ->
  toordinal a < toordinal b.
Proof.
  intros Va Vb L.
  apply valid_inv in Va. apply valid_inv in Vb.
  destruct Va as (Ya & Ma & Da), Vb as (Yb & Mb & Db).
  unfold toordinal, ymd2ord. unfold ltb in L.
  apply orb_prop in L. destruct L as [L | L].
  - apply Z.ltb_lt in L.
    pose proof (days_before_year_mono (year a + 1) (year b)).
    pose proof (days_before_year_succ (year a)).
    pose proof (days_before_month_bounds (year a) (month a)).
    pose proof (days_before_month_bounds (year b) (month b)).
    lia.
  - apply andb_prop in L. destruct L as [EY L]. apply Z.eqb_eq in EY.
    rewrite EY in *. apply orb_prop in L. destruct L as [L | L].
    + apply Z.ltb_lt in L.
      pose proof (days_before_month_mono (year b) (month a) (month b)). lia.
    + apply andb_prop in L. destruct L as [EM L]. apply Z.eqb_eq in EM.
      apply Z.ltb_lt in L. rewrite EM. lia.
Qed.

Lemma ltb_trichotomy (a b : date) :
  ltb a b = true \/ a = b \/ ltb b a = true.
Proof.
  destruct a as [ya ma da], b as [yb mb db]. unfold ltb. cbn [year month day].
  destruct (Z.lt_trichotomy ya yb) as [H | [H | H]].
  - left. apply orb_true_intro. left. apply Z.ltb_lt. exact H.
  - subst yb. rewrite Z.ltb_irrefl, Z.eqb_refl. cbn [orb andb].
    destruct (Z.lt_trichotomy ma mb) as [H | [H | H]].
    + left. apply orb_true_intro. left. apply Z.ltb_lt. exact H.
    + subst mb. rewrite Z.ltb_irrefl, Z.eqb_refl. cbn [orb andb].
      destruct (Z.lt_trichotomy da db) as [H | [H | H]].
      * left. apply Z.ltb_lt. exact H.
      * right. left. subst. reflexivity.
      * right. right. apply Z.ltb_lt. exact H.
    + right. right. apply orb_true_intro. left. apply Z.ltb_lt. exact H.
  - right. right. apply orb_true_intro. left. apply Z.ltb_lt. exact H.
Qed.

Lemma toordinal_inj (a b : date) :
  valid a = true -> valid b = true -> toordinal a = toordinal b -> a = b.
Proof.
  intros Va Vb E.
  destruct (ltb_trichotomy a b) as [L | [L | L]].
  - pose proof (toordinal_lt a b Va Vb L). lia.
  - exact L.
  - pose proof (toordinal_lt b a Vb Va L). lia.
Qed.

Lemma ltb_toordinal (a b : date) :
  valid a = true -> valid b = true ->
  ltb a b = (toordinal a <? toordinal b).
Proof.
  intros Va Vb.
  destruct (ltb_trichotomy a b) as [L | [L | L]].
  - rewrite L. symmetry. apply Z.ltb_lt. apply toordinal_lt; assumption.
  - subst b. rewrite Z.ltb_irrefl.
    destruct (ltb a a) eqn:E; [| reflexivity].
    pose proof (toordinal_lt a a Va Va E). lia.
  - pose proof (toordinal_lt b a Vb Va L) as H.
    destruct (ltb a b) eqn:E.
    + pose proof (toordinal_lt a b Va Vb E). lia.
    + symmetry. apply Z.ltb_ge. lia.
Qed.

Lemma toordinal_bounds (d : date) :
  valid d = true -> 1 <= toordinal d <= MAXORDINAL.
Proof.
  intros V. apply valid_inv in V. destruct V as (Y & M & D).
  unfold toordinal, ymd2ord, MAXORDINAL.
  pose proof (days_before_year_mono 1 (year d)).
  pose proof (days_before_year_mono (year d + 1) 10000).
  pose proof (days_before_year_succ (year d)).
  pose proof (days_before_month_bounds (year d) (month d)).
  change (days_before_year 1) with 0 in *.
  change (days_before_year 10000) with 3652059 in *.
  lia.
Qed.

Lemma ord2ymd_toordinal (d : date) :
  valid d = true -> ord2ymd (toordinal d) = d.
Proof.
  intros V. pose proof (toordinal_bounds d V) as B.
  destruct (ord2ymd_spec (toordinal d) B) as [V' E].
  apply toordinal_inj; assumption.
Qed.

(** ** Date arithmetic *)

Lemma add_days_to (d d' : date) (k : Z) :
  valid d' = true -> toordinal d' = toordinal d + k ->
  add_days d k = Ok d'.
Proof.
  intros V E. unfold add_days.
  pose proof (toordinal_bounds d' V) as B. rewrite <- E.
  replace ((0 <? toordinal d') && (toordinal d' <=? MAXORDINAL)) with true.
  - rewrite ord2ymd_toordinal by assumption. reflexivity.
  - symmetry. apply andb_true_intro. split;
      [apply Z.ltb_lt | apply Z.leb_le]; lia.
Qed.

Lemma add_days_overflow (d : date) (k : Z) :
  toordinal d + k < 1 \/ MAXORDINAL < toordinal d + k ->
  add_days d k = Raise OverflowError.
Proof.
  intros H. unfold add_days.
  replace ((0 <? toordinal d + k) && (toordinal d + k <=? MAXORDINAL))
    with false; [reflexivity |].
  symmetry. apply andb_false_iff.
  destruct H; [left; apply Z.ltb_ge | right; apply Z.leb_gt]; lia.
Qed.

Lemma add_days_ok (d : date) (k : Z) :
  1 <= toordinal d + k <= MAXORDINAL ->
  exists d', add_days d k = Ok d' /\ valid d' = true
             /\ toordinal d' = toordinal d + k.
Proof.
  intros H. unfold add_days.
  replace ((0 <? toordinal d + k) && (toordinal d + k <=? MAXORDINAL))
    with true.
  - destruct (ord2ymd_spec _ H) as [V E]. eauto.
  - symmetry. apply andb_true_intro. split;
      [apply Z.ltb_lt | apply Z.leb_le]; lia.
Qed.

Lemma make_ok (y m d : Z) :
  valid (mkdate y m d) = true -> make y m d = Ok (mkdate y m d).
Proof. intros V. unfold make. rewrite V. reflexivity. Qed.

Lemma make_valid (y m d : Z) (r : date) :
  make y m d = Ok r -> valid r = true /\ r = mkdate y m d.
Proof.
  unfold make. destruct (valid (mkdate y m d)) eqn:V; [| discriminate].
  intros H. injection H as <-. split; [exact V | reflexivity].
Qed.

Lemma strptime_ymd_valid (s : string) (d : date) :
  strptime_ymd s = Ok d -> valid d = true.
Proof.
  unfold strptime_ymd.
  destruct (parse_year s) as [[y s1] |]; [| discriminate].
  destruct (expect "-" s1) as [s2 |]; [| discriminate].
  destruct (parse_month s2) as [[m s3] |]; [| discriminate].
  destruct (expect "-" s3) as [s4 |]; [| discriminate].
  destruct (parse_day s4) as [[d0 s5] |]; [| discriminate].
  destruct (PyStr.is_empty s5); [| discriminate].
  intros H. apply make_valid in H. tauto.
Qed.

Lemma following_month_valid (y m : Z) :
  1 <= m <= 12 -> y < 9999 \/ m <= 11 -> 1 <= y <= 9999 ->
  1 <= fst (following_month y m) <= 9999
  /\ 1 <= snd (following_month y m) <= 12.
Proof.
  intros M H Y. unfold following_month.
  destruct (Z.eqb_spec m 12); cbn [fst snd]; lia.
Qed.

(** The first day of a month and the last day of the month before it are
    one day apart. *)
Lemma toordinal_following_month (y m : Z) :
  1 <= m <= 12 ->
  ymd2ord (fst (following_month y m)) (snd (following_month y m)) 1
  = ymd2ord y m (days_in_month y m) + 1.
Proof.
  intros M. unfold following_month, ymd2ord.
  destruct (Z.eqb_spec m 12) as [-> | N]; cbn [fst snd].
  - rewrite days_before_year_succ.
    pose proof (days_before_month_last y).
    change (days_before_month (y + 1) 1) with 0. lia.
  - rewrite days_before_month_succ by lia. lia.
Qed.

Lemma first_of_next_month_spec (d : date) :
  valid d = true -> year d < 9999 \/ month d <= 11 ->
  first_of_next_month d
  = Ok (mkdate (fst (following_month (year d) (month d)))
               (snd (following_month (year d) (month d))) 1).
Proof.
  intros V H. pose proof (valid_inv d V) as (Y & M & D).
  pose proof (days_in_month_bounds (year d) (month d) M) as DIM.
  pose proof (following_month_valid _ _ M H Y) as [Y' M'].
  set (y' := fst (following_month (year d) (month d))) in *.
  set (m' := snd (following_month (year d) (month d))) in *.
  pose proof (days_in_month_bounds y' m' M') as DIM'.
  unfold first_of_next_month, replace_day.
  rewrite make_ok by (apply valid_intro; cbn [year month day]; lia).
  cbn [bind].
  rewrite (add_days_to _ (mkdate y' m' (33 - days_in_month (year d) (month d)))).
  - cbn [bind year month]. apply make_ok.
    apply valid_intro; cbn [year month day]; lia.
  - apply valid_intro; cbn [year month day]; lia.
  - unfold toordinal. cbn [year month day].
    pose proof (toordinal_following_month (year d) (month d) M) as E.
    fold y' m' in E. unfold ymd2ord in *. lia.
Qed.

Lemma first_of_next_month_overflow (d : date) :
  valid d = true -> year d = 9999 -> month d = 12 ->
  first_of_next_month d = Raise OverflowError.
Proof.
  intros V Y M. pose proof (valid_inv d V) as (_ & _ & D).
  pose proof (days_in_month_bounds (year d) (month d)) as DIM.
  unfold first_of_next_month, replace_day.
  rewrite make_ok by (apply valid_intro; cbn [year month day]; lia).
  cbn [bind]. rewrite add_days_overflow; [reflexivity |].
  right. unfold toordinal. cbn [year month day]. rewrite Y, M.
  vm_compute. reflexivity.
Qed.

(** The day before the first of a month is the last day of the month
    before. *)
Lemma last_day_of_month (y m : Z) :
  1 <= y <= 9999 -> 1 <= m <= 12 -> y < 9999 \/ m <= 11 ->
  sub_days (mkdate (fst (following_month y m)) (snd (following_month y m)) 1) 1
  = Ok (mkdate y m (days_in_month y m)).
Proof.
  intros Y M H. pose proof (days_in_month_bounds y m M).
  unfold sub_days. apply add_days_to.
  - apply valid_intro; cbn [year month day]; lia.
  - unfold toordinal. cbn [year month day].
    rewrite toordinal_following_month by lia. lia.
Qed.

(** ** The daily limit *)

Lemma tomorrow_spec (d : date) :
  valid d = true -> toordinal d < MAXORDINAL ->
  valid (tomorrow d) = true /\ toordinal (tomorrow d) = toordinal d + 1.
Proof.
  intros V B. pose proof (valid_inv d V) as (Y & M & D).
  pose proof (days_in_month_bounds (year d) (month d) M) as DIM.
  unfold tomorrow.
  destruct (Z.ltb_spec (day d) (days_in_month (year d) (month d))) as [L | L].
  - split; [apply valid_intro; cbn [year month day]; lia |].
    unfold toordinal, ymd2ord. cbn [year month day]. lia.
  - assert (E : day d = days_in_month (year d) (month d)) by lia.
    pose proof (toordinal_following_month (year d) (month d) M) as T.
    unfold following_month in T.
    destruct (Z.ltb_spec (month d) 12) as [L12 | L12];
      destruct (Z.eqb_spec (month d) 12) as [E12 | N12]; try lia;
      cbn [fst snd] in T.
    + pose proof (days_in_month_bounds (year d) (month d + 1)).
      split; [apply valid_intro; cbn [year month day]; lia |].
      unfold toordinal. cbn [year month day]. rewrite T, E. reflexivity.
    + assert (Y' : year d < 9999).
      { destruct (Z.eq_dec (year d) 9999) as [E9 | N9]; [| lia].
        exfalso. unfold toordinal in B. rewrite E9, E12, E in B.
        rewrite E9, E12 in B. vm_compute in B. discriminate. }
      split; [apply valid_intro; cbn [year month day]; try lia;
              vm_compute; split; discriminate |].
      unfold toordinal. cbn [year month day]. rewrite T, E. reflexivity.
Qed.

Lemma iter_tomorrow (k : nat) (a : date) :
  valid a = true -> toordinal a + Z.of_nat k <= MAXORDINAL ->
  valid (Nat.iter k tomorrow a) = true
  /\ toordinal (Nat.iter k tomorrow a) = toordinal a + Z.of_nat k.
Proof.
  intros V. induction k as [| k IH]; intros B.
  - cbn [Nat.iter nat_rect]. split; [exact V | lia].
  - destruct IH as [V' E]; [lia |].
    change (Nat.iter (S k) tomorrow a) with (tomorrow (Nat.iter k tomorrow a)).
    destruct (tomorrow_spec _ V') as [V'' E'']; [lia |].
    split; [exact V'' | lia].
Qed.

Lemma days_left_eq (period_end today : date) :
  days_left period_end today
  = Z.max 1 (toordinal period_end - toordinal today + 1).
Proof.
  unfold days_left, diff_days.
  destruct (Z.ltb_spec (toordinal period_end - toordinal today + 1) 1); lia.
Qed.

Lemma floordiv_ok (a b : Z) : b <> 0 -> floordiv a b = Ok (a / b).
Proof.
  intros H. unfold floordiv. destruct (Z.eqb_spec b 0); [contradiction | reflexivity].
Qed.

Lemma days_left_pos (period_end today : date) : 1 <= days_left period_end today.
Proof. rewrite days_left_eq. lia. Qed.

Lemma bind_ok {A B : Type} (r : result A) (k : A -> result B) (b : B) :
  bind r k = Ok b -> exists a, r = Ok a /\ k a = Ok b.
Proof.
  destruct r as [a | e]; cbn [bind]; [| discriminate].
  intros H. exists a. split; [reflexivity | exact H].
Qed.

(** *** The sums of SQLite *)

Lemma sum_from_ok (values : list Z) :
  forall total v,
    sum_from total values = Ok v -> v = total + fold_right Z.add 0 values.
Proof.
  induction values as [| x values IH]; intros total v; cbn [sum_from fold_right].
  - intros H. injection H as <-. lia.
  - destruct (int64 (total + x)); [| discriminate].
    intros H. apply IH in H. lia.
Qed.

Lemma abs_total_filter (p : transaction_row -> bool)
    (rows : list transaction_row) :
  0 <= abs_total (filter p rows) <= abs_total rows.
Proof.
  unfold abs_total.
  induction rows as [| t rows IH]; cbn [filter map fold_right]; [lia |].
  destruct (p t); cbn [map fold_right]; lia.
Qed.

Lemma sum_from_fits (rows : list transaction_row) :
  forall total,
    Z.abs total + abs_total rows <= INT64_MAX ->
    sum_from total (map t_amount_cents rows)
    = Ok (total + fold_right Z.add 0 (map t_amount_cents rows)).
Proof.
  unfold abs_total.
  induction rows as [| t rows IH]; intros total B;
    cbn [map sum_from fold_right] in *.
  - f_equal. lia.
  - pose proof (abs_total_filter (fun _ => true) rows) as P.
    unfold abs_total in P. rewrite filter_true in P.
    assert (I : int64 (total + t_amount_cents t) = true).
    { unfold int64, INT64_MIN, INT64_MAX in *. lia. }
    rewrite I, IH by lia. f_equal. lia.
Qed.

Lemma in_insert_sorted {A : Type} (le : A -> A -> bool) (x y : A) (l : list A) :
  In y (insert_sorted le x l) <-> y = x \/ In y l.
Proof.
  induction l as [| z l IH]; cbn [insert_sorted In]; [intuition |].
  destruct (le x z); cbn [In]; [intuition | rewrite IH; intuition].
Qed.

Lemma in_sort_by {A : Type} (le : A -> A -> bool) (y : A) (l : list A) :
  In y (sort_by le l) <-> In y l.
Proof.
  unfold sort_by. induction l as [| x l IH]; cbn [fold_right In]; [reflexivity |].
  rewrite in_insert_sorted, IH. intuition.
Qed.

Lemma existsb_eqb_in (k : string) (l : list string) :
  existsb (String.eqb k) l = true <-> In k l.
Proof.
  rewrite existsb_exists. split.
  - intros (x & I & E). apply String.eqb_eq in E. subst x. exact I.
  - intros I. exists k. split; [exact I | apply String.eqb_refl].
Qed.

Lemma in_distinct (k : string) (l : list string) :
  In k (distinct l) <-> In k l.
Proof.
  induction l as [| x l IH]; cbn [distinct In]; [reflexivity |].
  destruct (existsb (String.eqb x) l) eqn:E.
  - rewrite IH. apply existsb_eqb_in in E.
    split; [intuition | intros [<- | I]; assumption].
  - cbn [In]. rewrite IH. reflexivity.
Qed.

Lemma in_group_keys (k : string) (l : list string) :
  In k (group_keys l) <-> In k l.
Proof. unfold group_keys. rewrite in_sort_by. apply in_distinct. Qed.

(** The sum of the rows of one key, as a number. *)
Lemma filter_key_absent (key : transaction_row -> string) (k : string)
    (rows : list transaction_row) :
  ~ In k (map key rows) ->
  filter (fun t => String.eqb (key t) k) rows = [].
Proof.
  induction rows as [| t rows IH]; cbn [map In filter]; [reflexivity |].
  intros N. destruct (String.eqb_spec (key t) k) as [E | _].
  - exfalso. apply N. left. exact E.
  - apply IH. intros I. apply N. right. exact I.
Qed.

(** What a dictionary filled from the groups holds for a key: the sum of
    the rows of that key, and the default when the key is no group. *)
Lemma group_sums_get (key : transaction_row -> string)
    (rows : list transaction_row) (k : string) (default : Z) :
  forall keys groups,
    group_sums key rows keys = Ok groups ->
    dict_get groups k default
    = if existsb (String.eqb k) keys
      then fold_right Z.add 0
             (map t_amount_cents
                (filter (fun t => String.eqb (key t) k) rows))
      else default.
Proof.
  induction keys as [| x keys IH]; intros groups H; cbn [group_sums] in H.
  - injection H as <-. reflexivity.
  - apply bind_ok in H. destruct H as (total & T & H).
    apply bind_ok in H. destruct H as (rest & R & H). injection H as <-.
    apply sum_from_ok in T. cbn [existsb]. unfold dict_get. cbn [find fst snd].
    destruct (String.eqb_spec x k) as [-> | N].
    + rewrite String.eqb_refl. cbn [orb snd]. lia.
    + assert (N' : String.eqb k x = false)
        by (apply String.eqb_neq; intros E; apply N; symmetry; exact E).
      rewrite N'. cbn [orb]. apply (IH rest R).
Qed.

Lemma grouped_sums_get (key : transaction_row -> string)
    (rows : list transaction_row) (groups : list (string * Z)) (k : string) :
  grouped_sums key rows = Ok groups ->
  dict_get groups k 0
  = fold_right Z.add 0
      (map t_amount_cents (filter (fun t => String.eqb (key t) k) rows)).
Proof.
  unfold grouped_sums. intros H.
  rewrite (group_sums_get key rows k 0 _ _ H).
  destruct (existsb (String.eqb k) (group_keys (map key rows))) eqn:E;
    [reflexivity |].
  rewrite filter_key_absent; [reflexivity |].
  intros I. apply in_group_keys, existsb_eqb_in in I. congruence.
Qed.

(** Sums within the range go through. *)
Lemma group_sums_fits (key : transaction_row -> string)
    (rows : list transaction_row) :
  abs_total rows <= INT64_MAX ->
  forall keys, exists groups, group_sums key rows keys = Ok groups.
Proof.
  intros B. induction keys as [| k keys [rest R]]; cbn [group_sums].
  - exists []. reflexivity.
  - unfold sqlite_sum. rewrite sum_from_fits, R.
    + cbn [bind]. eexists. reflexivity.
    + pose proof (abs_total_filter (fun t => String.eqb (key t) k) rows).
      cbn [Z.abs]. lia.
Qed.

Lemma grouped_sums_fits (key : transaction_row -> string)
    (rows : list transaction_row) :
  abs_total rows <= INT64_MAX ->
  exists groups, grouped_sums key rows = Ok groups.
Proof. intros B. apply group_sums_fits. exact B. Qed.

(** A filter that only lets rows of [u] through sees the rows of [u]
    only. *)
Lemma filter_within {A : Type} (u p : A -> bool) (l : list A) :
  (forall x, p x = true -> u x = true) ->
  filter p l = filter p (filter u l).
Proof.
  intros W. induction l as [| x l IH]; [reflexivity |]. cbn [filter].
  destruct (p x) eqn:Px.
  - rewrite (W x Px). cbn [filter]. rewrite Px, IH. reflexivity.
  - destruct (u x); cbn [filter]; [rewrite Px |]; exact IH.
Qed.

Lemma period_rows_user (db : database) (user_id : Z) (lo hi : string) :
  period_rows db user_id lo hi
  = filter (fun t => (t_user_id t =? user_id)
                     && PyStr.leb lo (t_occurred_on t)
                     && PyStr.leb (t_occurred_on t) hi)
      (filter (fun t => t_user_id t =? user_id) (transactions db)).
Proof.
  unfold period_rows. apply filter_within.
  intros t H. apply andb_prop in H. destruct H as [H _].
  apply andb_prop in H. destruct H as [H _]. exact H.
Qed.

Lemma spent_rows_user (db : database) (user_id : Z) (lo hi : string) :
  spent_rows db user_id lo hi
  = filter (fun t => (t_user_id t =? user_id)
                     && String.eqb (t_kind t) "expense"
                     && PyStr.leb lo (t_occurred_on t)
                     && PyStr.leb (t_occurred_on t) hi)
      (filter (fun t => t_user_id t =? user_id) (transactions db)).
Proof.
  unfold spent_rows. apply filter_within.
  intros t H. apply andb_prop in H. destruct H as [H _].
  apply andb_prop in H. destruct H as [H _].
  apply andb_prop in H. destruct H as [H _]. exact H.
Qed.

Lemma period_rows_fit (db : database) (user_id : Z) (lo hi : string) :
  amounts_fit db user_id ->
  abs_total (period_rows db user_id lo hi) <= INT64_MAX.
Proof.
  unfold amounts_fit. intros F. rewrite period_rows_user.
  pose proof (abs_total_filter
                (fun t => (t_user_id t =? user_id)
                          && PyStr.leb lo (t_occurred_on t)
                          && PyStr.leb (t_occurred_on t) hi)
                (filter (fun t => t_user_id t =? user_id) (transactions db))).
  lia.
Qed.

Lemma spent_rows_fit (db : database) (user_id : Z) (lo hi : string) :
  amounts_fit db user_id ->
  abs_total (spent_rows db user_id lo hi) <= INT64_MAX.
Proof.
  unfold amounts_fit. intros F. rewrite spent_rows_user.
  pose proof (abs_total_filter
                (fun t => (t_user_id t =? user_id)
                          && String.eqb (t_kind t) "expense"
                          && PyStr.leb lo (t_occurred_on t)
                          && PyStr.leb (t_occurred_on t) hi)
                (filter (fun t => t_user_id t =? user_id) (transactions db))).
  lia.
Qed.

Lemma kind_total_window (db : database) (user_id : Z) (kind lo hi : string) :
  kind_total kind (period_rows db user_id lo hi)
  = window_total db user_id kind lo hi.
Proof.
  unfold kind_total, period_rows, window_total.
  induction (transactions db) as [| t l IH]; [reflexivity |].
  cbn [filter].
  destruct (t_user_id t =? user_id); cbn [andb]; [| exact IH].
  destruct (String.eqb (t_kind t) kind) eqn:K; cbn [andb].
  - destruct (PyStr.leb lo (t_occurred_on t) && PyStr.leb (t_occurred_on t) hi);
      cbn [filter]; [rewrite K; cbn [map fold_right]; rewrite IH; reflexivity
                    | exact IH].
  - destruct (PyStr.leb lo (t_occurred_on t) && PyStr.leb (t_occurred_on t) hi);
      cbn [filter]; [rewrite K |]; exact IH.
Qed.

Lemma dashboard_figures_inv (today : date) (db : database) (user_id : Z)
    (schedule : schedule_row) (g : figures) :
  dashboard_figures today db user_id schedule = Ok g ->
  exists start end_ next_payday due_before total_due_cents by_category,
    current_pay_period schedule = Ok (start, end_, next_payday)
    /\ bills_loop today next_payday (active_bills db user_id) ([], 0)
       = Ok (due_before, total_due_cents)
    /\ grouped_sums t_category (spent_rows db user_id (ymd start) (ymd end_))
       = Ok by_category
    /\ let rows := period_rows db user_id (ymd start) (ymd end_) in
       let typical := ps_typical_net_pay_cents schedule in
       let remaining :=
         typical + kind_total "income" rows - kind_total "expense" rows in
       g = mkfigures start end_ next_payday typical
             (kind_total "income" rows) (kind_total "expense" rows)
             remaining due_before total_due_cents
             (remaining - total_due_cents) (days_left end_ today)
             (remaining / days_left end_ today) (top_group by_category).
Proof.
  unfold dashboard_figures. intros H.
  apply bind_ok in H. destruct H as ([[start end_] np] & P & H).
  apply bind_ok in H. destruct H as (totals & T & H).
  apply bind_ok in H. destruct H as ([due total] & L & H).
  rewrite floordiv_ok in H by (pose proof (days_left_pos end_ today); lia).
  cbn [bind] in H.
  apply bind_ok in H. destruct H as (by_category & C & H).
  injection H as <-.
  rewrite !(grouped_sums_get _ _ _ _ T).
  exists start, end_, np, due, total, by_category.
  repeat split; assumption.
Qed.



(** ** The pay period *)

Lemma tomorrow_of_predecessor (a b : date) :
  valid a = true -> valid b = true -> toordinal a + 1 = toordinal b ->
  tomorrow a = b.
Proof.
  intros Va Vb E. pose proof (toordinal_bounds b Vb).
  destruct (tomorrow_spec a Va) as [V T]; [lia |].
  apply toordinal_inj; [exact V | exact Vb | lia].
Qed.

(** Claim C1, for a next payday from 15 January of the year 1 on.  For
    a schedule row whose [next_payday] text is a date,
    [current_pay_period] returns the next payday together with a period
    whose end is the day before the next payday and whose start is 13
    days before that end: 14 consecutive days. *)
Theorem current_pay_period_spec (schedule : schedule_row) (next_payday : date) :
  parse_ymd (ps_next_payday schedule) = Ok next_payday ->
  ltb next_payday (mkdate 1 1 15) = false ->
  exists period_start period_end,
    current_pay_period schedule = Ok (period_start, period_end, next_payday)
    /\ valid period_start = true /\ valid period_end = true
    /\ tomorrow period_end = next_payday
    /\ Nat.iter 13 tomorrow period_start = period_end
    /\ diff_days period_end period_start + 1 = 14.
Proof.
  intros P L. pose proof (strptime_ymd_valid _ _ P) as V.
  rewrite (ltb_toordinal next_payday (mkdate 1 1 15) V eq_refl) in L.
  apply Z.ltb_ge in L.
  change (toordinal (mkdate 1 1 15)) with 15 in L.
  pose proof (toordinal_bounds _ V) as B.
  unfold current_pay_period. rewrite P. cbn [bind]. unfold sub_days.
  destruct (add_days_ok next_payday (- (1))) as (pe & -> & Ve & Te); [lia |].
  cbn [bind].
  destruct (add_days_ok pe (- (13))) as (ps & -> & Vs & Ts); [lia |].
  cbn [bind]. exists ps, pe.
  split; [reflexivity |]. split; [exact Vs |]. split; [exact Ve |].
  split; [apply tomorrow_of_predecessor; try assumption; lia |].
  split; [| unfold diff_days; lia].
  destruct (iter_tomorrow 13 ps Vs) as [Vi Ti]; [lia |].
  apply toordinal_inj; [exact Vi | exact Ve | lia].
Qed.

Lemma current_pay_period_spec_witness :
  exists period_start period_end,
    current_pay_period (mkschedule 1 "biweekly" "2024-03-15" 120000)
    = Ok (period_start, period_end, mkdate 2024 3 15)
    /\ valid period_start = true /\ valid period_end = true
    /\ tomorrow period_end = mkdate 2024 3 15
    /\ Nat.iter 13 tomorrow period_start = period_end
    /\ diff_days period_end period_start + 1 = 14.
Proof.
  apply (current_pay_period_spec
           (mkschedule 1 "biweekly" "2024-03-15" 120000) (mkdate 2024 3 15));
    reflexivity.
Defined.

(** Before 15 January of the year 1 there is no pay period: one of the
    two subtractions leaves the range of [date]. *)
Lemma current_pay_period_overflow (schedule : schedule_row) (next_payday : date) :
  parse_ymd (ps_next_payday schedule) = Ok next_payday ->
  ltb next_payday (mkdate 1 1 15) = true ->
  current_pay_period schedule = Raise OverflowError.
Proof.
  intros P L. pose proof (strptime_ymd_valid _ _ P) as V.
  rewrite (ltb_toordinal next_payday (mkdate 1 1 15) V eq_refl) in L.
  apply Z.ltb_lt in L. change (toordinal (mkdate 1 1 15)) with 15 in L.
  pose proof (toordinal_bounds _ V) as B.
  unfold current_pay_period. rewrite P. cbn [bind]. unfold sub_days.
  destruct (Z.le_gt_cases 2 (toordinal next_payday)) as [G | G].
  - destruct (add_days_ok next_payday (- (1))) as (pe & -> & Ve & Te); [lia |].
    cbn [bind]. rewrite add_days_overflow by lia. reflexivity.
  - rewrite add_days_overflow by lia. reflexivity.
Qed.

(** The schedule that [setup] stores for the next payday 0001-01-01 has
    no pay period: the day before the first date does not exist, and
    [current_pay_period] raises [OverflowError]. *)
Lemma current_pay_period_year_one :
  let f := [("next_payday", "0001-01-01"); ("typical_net_pay", "1200.00")] in
  let db := o_db (setup_post empty_db (Some 1) f) in
  let schedule := mkschedule 1 "biweekly" "0001-01-01" 120000 in
  get_schedule db 1 = Some schedule
  /\ parse_ymd (ps_next_payday schedule) = Ok (mkdate 1 1 1)
  /\ current_pay_period schedule = Raise OverflowError
  /\ ~ (exists period_start period_end,
          current_pay_period schedule
          = Ok (period_start, period_end, mkdate 1 1 1)).
Proof.
  cbv zeta. repeat split; try (vm_compute; reflexivity).
  intros (ps & pe & H). vm_compute in H. discriminate H.
Qed.

(** *** Which exceptions the dashboard can raise *)

Lemma bind_no_zero_division {A B : Type} (r : result A) (k : A -> result B) :
  no_zero_division r -> (forall a, no_zero_division (k a)) ->
  no_zero_division (bind r k).
Proof.
  unfold no_zero_division. intros Hr Hk.
  destruct r as [a | e]; cbn [bind]; [apply Hk |].
  intros E. apply Hr. injection E as ->. reflexivity.
Qed.

Lemma make_no_zero_division (y m d : Z) : no_zero_division (make y m d).
Proof. unfold make, no_zero_division. destruct (valid _); discriminate. Qed.

Lemma add_days_no_zero_division (d : date) (k : Z) :
  no_zero_division (add_days d k).
Proof. unfold add_days, no_zero_division. destruct (_ && _); discriminate. Qed.

Lemma parse_ymd_no_zero_division (s : string) : no_zero_division (parse_ymd s).
Proof.
  unfold parse_ymd, strptime_ymd.
  destruct (parse_year s) as [[y s1] |]; [| discriminate].
  destruct (expect "-" s1) as [s2 |]; [| discriminate].
  destruct (parse_month s2) as [[m s3] |]; [| discriminate].
  destruct (expect "-" s3) as [s4 |]; [| discriminate].
  destruct (parse_day s4) as [[d0 s5] |]; [| discriminate].
  destruct (PyStr.is_empty s5); [apply make_no_zero_division | discriminate].
Qed.

Ltac no_zd :=
  repeat first
    [ apply bind_no_zero_division; [| intros ?]
    | apply make_no_zero_division
    | apply add_days_no_zero_division
    | apply parse_ymd_no_zero_division
    | discriminate ].

Lemma first_of_next_month_no_zero_division (d : date) :
  no_zero_division (first_of_next_month d).
Proof. unfold first_of_next_month, replace_day. no_zd. Qed.

Lemma projected_due_date_no_zero_division (today : date) (d : Z) :
  no_zero_division (projected_due_date today d).
Proof.
  unfold projected_due_date, sub_days, replace_day.
  apply bind_no_zero_division; [apply first_of_next_month_no_zero_division |].
  intros ?. no_zd.
  destruct (ltb _ _); [| discriminate].
  apply bind_no_zero_division; [apply first_of_next_month_no_zero_division |].
  intros ?.
  apply bind_no_zero_division; [apply first_of_next_month_no_zero_division |].
  intros ?. no_zd.
Qed.

Lemma bills_loop_no_zero_division (today np : date) (bills : list bill_row) :
  forall acc, no_zero_division (bills_loop today np bills acc).
Proof.
  induction bills as [| b r IH]; intros acc; cbn [bills_loop]; [discriminate |].
  apply bind_no_zero_division; [| intros ?; apply IH].
  unfold bill_step.
  apply bind_no_zero_division; [apply projected_due_date_no_zero_division |].
  intros ?. destruct (ltb _ _); discriminate.
Qed.

Lemma sum_from_no_zero_division (values : list Z) :
  forall total, no_zero_division (sum_from total values).
Proof.
  induction values as [| v r IH]; intros total; cbn [sum_from];
    [discriminate |].
  destruct (int64 _); [apply IH | discriminate].
Qed.

Lemma grouped_sums_no_zero_division (key : transaction_row -> string)
    (rows : list transaction_row) :
  no_zero_division (grouped_sums key rows).
Proof.
  unfold grouped_sums.
  induction (group_keys (map key rows)) as [| k keys IH]; cbn [group_sums];
    [discriminate |].
  apply bind_no_zero_division; [apply sum_from_no_zero_division |].
  intros ?. apply bind_no_zero_division; [exact IH |].
  intros ?. discriminate.
Qed.

(** Claim C10.  The divisor of the daily limit is at least 1, for every
    end of the pay period and every today; it is 1 when today is at or
    past the end; the division has a result, and the dashboard never
    raises [ZeroDivisionError]. *)
Theorem days_left_divisor (period_end today : date) :
  1 <= days_left period_end today
  /\ (toordinal period_end <= toordinal today -> days_left period_end today = 1)
  /\ (forall remaining : Z,
        floordiv remaining (days_left period_end today)
        = Ok (remaining / days_left period_end today))
  /\ (forall (db : database) (user_id : Z) (schedule : schedule_row),
        dashboard_figures today db user_id schedule
        <> Raise ZeroDivisionError).
Proof.
  pose proof (days_left_pos period_end today) as P.
  split; [exact P |]. split; [rewrite days_left_eq; lia |].
  split; [intros remaining; apply floordiv_ok; lia |].
  intros db user_id schedule.
  change (no_zero_division (dashboard_figures today db user_id schedule)).
  unfold dashboard_figures.
  apply bind_no_zero_division;
    [unfold current_pay_period, sub_days; no_zd |].
  intros [[start end_] np].
  apply bind_no_zero_division; [apply grouped_sums_no_zero_division |].
  intros totals.
  apply bind_no_zero_division; [apply bills_loop_no_zero_division |].
  intros [due total].
  rewrite floordiv_ok by (pose proof (days_left_pos end_ today); lia).
  cbn [bind].
  apply bind_no_zero_division; [apply grouped_sums_no_zero_division |].
  intros ?. discriminate.
Qed.

Lemma days_left_divisor_witness :
  days_left (mkdate 2024 1 14) (mkdate 2024 2 1) = 1.
Proof.
  apply (proj1 (proj2 (days_left_divisor (mkdate 2024 1 14) (mkdate 2024 2 1)))).
  vm_compute. discriminate.
Defined.

(** ** The bills due *)

Lemma ltb_same_month (y m a b : Z) :
  ltb (mkdate y m a) (mkdate y m b) = (a <? b).
Proof.
  unfold ltb. cbn [year month day].
  rewrite !Z.ltb_irrefl, !Z.eqb_refl. reflexivity.
Qed.

Lemma ltb_iff (a b : date) :
  ltb a b = true
  <-> year a < year b
      \/ (year a = year b
          /\ (month a < month b \/ (month a = month b /\ day a < day b))).
Proof.
  unfold ltb.
  destruct (Z.ltb_spec (year a) (year b));
    destruct (Z.eqb_spec (year a) (year b));
    destruct (Z.ltb_spec (month a) (month b));
    destruct (Z.eqb_spec (month a) (month b));
    destruct (Z.ltb_spec (day a) (day b));
    cbn [orb andb]; split; intros; try lia; try discriminate; try reflexivity.
Qed.

Lemma before_december_9999 (y m c : Z) :
  1 <= c ->
  ltb (mkdate y m c) (mkdate 9999 12 1) = true ->
  y <= 9999 /\ (y < 9999 \/ m <= 11).
Proof.
  intros C H. apply ltb_iff in H. cbn [year month day] in H. lia.
Qed.

Lemma before_november_9999 (today : date) (d : Z) :
  valid today = true -> 1 <= d ->
  ltb today (mkdate 9999 11 1) = true ->
  ltb (spec_due_date today d) (mkdate 9999 12 1) = true.
Proof.
  intros V D B. pose proof (valid_inv today V) as (Y & M & Dy).
  apply ltb_iff in B. cbn [year month day] in B.
  apply ltb_iff. unfold spec_due_date, following_month.
  destruct (day today <=? clamped_day (year today) (month today) d);
    [| destruct (Z.eqb_spec (month today) 12)];
    cbn [year month day]; lia.
Qed.

(** The loop computes the date of the specification whenever that date
    falls before December 9999. *)
Lemma projected_due_date_spec (today : date) (d : Z) :
  valid today = true -> 1 <= d ->
  ltb (spec_due_date today d) (mkdate 9999 12 1) = true ->
  projected_due_date today d = Ok (spec_due_date today d)
  /\ valid (spec_due_date today d) = true.
Proof.
  intros V D B.
  pose proof (valid_inv today V) as (Y & M & Dy).
  pose proof (days_in_month_bounds (year today) (month today) M) as DIM.
  unfold spec_due_date, clamped_day in B |- *.
  assert (H : year today < 9999 \/ month today <= 11).
  { destruct (day today <=? Z.min d (days_in_month (year today) (month today))).
    - apply before_december_9999 in B; [tauto | lia].
    - unfold following_month in B.
      destruct (Z.eqb_spec (month today) 12); [| lia].
      apply before_december_9999 in B; [lia |].
      pose proof (days_in_month_bounds (year today + 1) 1). lia. }
  pose proof (following_month_valid _ _ M H Y) as [Y' M'].
  unfold projected_due_date.
  rewrite first_of_next_month_spec by assumption. cbn [bind].
  rewrite last_day_of_month by assumption. cbn [bind day].
  unfold replace_day.
  rewrite make_ok by (apply valid_intro; cbn [year month day]; lia).
  cbn [bind].
  destruct today as [y m dd]. cbn [year month day] in *.
  rewrite ltb_same_month.
  destruct (Z.ltb_spec (Z.min d (days_in_month y m)) dd) as [L | L];
    destruct (Z.leb_spec dd (Z.min d (days_in_month y m))); try lia.
  2:{ split; [reflexivity |]. apply valid_intro; cbn [year month day]; lia. }
  destruct (following_month y m) as [y' m'] eqn:F.
  cbn [fst snd] in *.
  pose proof (days_in_month_bounds y' m' M') as DIM'.
  apply before_december_9999 in B; [| lia]. destruct B as [_ H'].
  rewrite first_of_next_month_spec
    by (try apply valid_intro; cbn [year month day]; lia).
  cbn [bind year month].
  rewrite last_day_of_month by assumption. cbn [bind day year month].
  assert (V' : valid (mkdate y' m' (Z.min d (days_in_month y' m'))) = true)
    by (apply valid_intro; cbn [year month day]; lia).
  split; [apply make_ok; exact V' | exact V'].
Qed.

Lemma bill_step_spec (today np : date) (acc : list due_entry * Z) (b : bill_row) :
  valid today = true -> 1 <= rb_due_day b ->
  ltb (spec_due_date today (rb_due_day b)) (mkdate 9999 12 1) = true ->
  bill_step today np acc b
  = Ok (if ltb (spec_due_date today (rb_due_day b)) np
        then (fst acc ++ [due_entry_of b (spec_due_date today (rb_due_day b))],
              snd acc + rb_amount_cents b)
        else acc).
Proof.
  intros V D B. unfold bill_step.
  rewrite (proj1 (projected_due_date_spec today (rb_due_day b) V D B)).
  cbn [bind].
  destruct (ltb (spec_due_date today (rb_due_day b)) np); reflexivity.
Qed.

(** The whole loop, on a day before 1 November 9999: the bills listed are
    those whose date of the specification is before the next payday, in
    the order of the query, and the total is the sum of their amounts. *)
Lemma bills_loop_spec (today np : date) (bills : list bill_row) :
  valid today = true ->
  ltb today (mkdate 9999 11 1) = true ->
  Forall (fun b => 1 <= rb_due_day b) bills ->
  forall acc,
    bills_loop today np bills acc
    = Ok (fst acc
          ++ map (fun b => due_entry_of b (spec_due_date today (rb_due_day b)))
               (filter (listed today np) bills),
          snd acc
          + fold_right Z.add 0
              (map rb_amount_cents (filter (listed today np) bills))).
Proof.
  intros V B F. induction F as [| b r Hb F IH]; intros acc.
  - cbn. rewrite app_nil_r, Z.add_0_r. destruct acc; reflexivity.
  - cbn [bills_loop].
    rewrite bill_step_spec
      by (try apply before_november_9999; assumption).
    cbn [bind]. rewrite IH. cbn [filter].
    change (ltb (spec_due_date today (rb_due_day b)) np)
      with (listed today np b).
    destruct (listed today np b); cbn [fst snd map fold_right].
    + rewrite <- app_assoc. cbn [app]. f_equal.
      apply pair_equal_spec. split; [reflexivity | lia].
    + reflexivity.
Qed.

(** Claim C2, for a [due_day] of at least 1 and a projected date before
    December 9999.  The date the dashboard projects for a bill is
    [spec_due_date]: the day [min(due_day, days of the month)] of the
    current month when that day has not passed, and of the following
    month, clamped to its length, otherwise.  The bill is appended to
    [due_before], and its amount added to [total_due_cents], exactly
    when that date is strictly before the next payday. *)
Theorem dashboard_bill_projection (today : date) (d : Z) :
  valid today = true -> 1 <= d ->
  ltb (spec_due_date today d) (mkdate 9999 12 1) = true ->
  projected_due_date today d = Ok (spec_due_date today d)
  /\ valid (spec_due_date today d) = true
  /\ forall (np : date) (acc : list due_entry * Z) (b : bill_row),
       rb_due_day b = d ->
       bill_step today np acc b
       = Ok (if ltb (spec_due_date today d) np
             then (fst acc ++ [due_entry_of b (spec_due_date today d)],
                   snd acc + rb_amount_cents b)
             else acc).
Proof.
  intros V D B.
  destruct (projected_due_date_spec today d V D B) as [P W].
  split; [exact P |]. split; [exact W |].
  intros np acc b E. subst d. apply bill_step_spec; assumption.
Qed.

Lemma dashboard_bill_projection_witness :
  valid (mkdate 2024 1 31) = true /\ 1 <= 30
  /\ ltb (spec_due_date (mkdate 2024 1 31) 30) (mkdate 9999 12 1) = true
  /\ projected_due_date (mkdate 2024 1 31) 30 = Ok (mkdate 2024 2 29).
Proof.
  split; [reflexivity |]. split; [lia |]. split; [reflexivity |].
  destruct (dashboard_bill_projection (mkdate 2024 1 31) 30) as [H _];
    [reflexivity | lia | reflexivity |].
  exact H.
Defined.

(** When the date of the specification is not before December 9999, the
    loop raises [OverflowError]. *)
Lemma projected_due_date_overflow (today : date) (d : Z) :
  valid today = true -> 1 <= d ->
  ltb (spec_due_date today d) (mkdate 9999 12 1) = false ->
  projected_due_date today d = Raise OverflowError.
Proof.
  intros V D B.
  pose proof (valid_inv today V) as (Y & M & Dy).
  pose proof (days_in_month_bounds (year today) (month today) M) as DIM.
  assert (N : ~ (ltb (spec_due_date today d) (mkdate 9999 12 1) = true))
    by (rewrite B; discriminate).
  rewrite ltb_iff in N. clear B.
  unfold projected_due_date.
  destruct (Z.eq_dec (month today) 12) as [E12 | N12].
  { assert (E : year today = 9999).
    { unfold spec_due_date, following_month in N. rewrite E12 in N.
      change (12 =? 12) with true in N. cbv iota in N.
      destruct (day today <=? clamped_day (year today) 12 d);
        cbn [year month day] in N; lia. }
    rewrite first_of_next_month_overflow by assumption. reflexivity. }
  assert (F : following_month (year today) (month today)
              = (year today, month today + 1)).
  { unfold following_month.
    destruct (Z.eqb_spec (month today) 12); [contradiction | reflexivity]. }
  unfold spec_due_date, clamped_day in N. rewrite F in N.
  rewrite first_of_next_month_spec by (try assumption; lia).
  rewrite F. cbn [bind fst snd].
  pose proof (last_day_of_month (year today) (month today) Y M) as LD.
  rewrite F in LD. cbn [fst snd] in LD. rewrite LD by lia. cbn [bind day].
  unfold replace_day.
  rewrite make_ok by (apply valid_intro; cbn [year month day]; lia).
  cbn [bind].
  destruct today as [y m dd]. cbn [year month day] in *.
  rewrite ltb_same_month.
  destruct (Z.leb_spec dd (Z.min d (days_in_month y m))) as [L | L];
    cbn [year month day] in N; [lia |].
  destruct (Z.ltb_spec (Z.min d (days_in_month y m)) dd); [| lia].
  rewrite first_of_next_month_overflow; [reflexivity | | |];
    cbn [year month day]; try lia.
  apply valid_intro; cbn [year month day]; lia.
Qed.

(** On 15 December 9999 a bill due on the 20th has no projected date:
    the first day of the next month does not exist, and the loop raises
    [OverflowError]. *)
Lemma projected_due_date_december_9999 :
  valid (mkdate 9999 12 15) = true
  /\ spec_due_date (mkdate 9999 12 15) 20 = mkdate 9999 12 20
  /\ projected_due_date (mkdate 9999 12 15) 20 = Raise OverflowError
  /\ ~ (exists due_date, projected_due_date (mkdate 9999 12 15) 20 = Ok due_date).
Proof.
  repeat split; try (vm_compute; reflexivity).
  intros (d & H). vm_compute in H. discriminate H.
Qed.

(** ** The totals of the pay period *)

Example dashboard_figures_ex :
  let today := mkdate 2024 1 10 in
  let db1 :=
    o_db (setup_post empty_db (Some 1)
            [("next_payday", "2024-01-15"); ("typical_net_pay", "1000.00")]) in
  let db2 :=
    o_db (transaction_new_post today db1 (Some 1)
            [("kind", "expense"); ("amount", "10.00");
             ("category", "Coffee"); ("occurred_on", "2024-01-05")]) in
  let db3 :=
    o_db (bills_post db2 (Some 1)
            [("name", "Phone"); ("amount", "45"); ("due_day", "12")]) in
  option_map (dashboard_figures today db3 1) (get_schedule db3 1)
  = Some (Ok (mkfigures (mkdate 2024 1 1) (mkdate 2024 1 14) (mkdate 2024 1 15)
                100000 0 1000 99000
                [mkdue "Phone" "45.00" "2024-01-12"] 4500 94500 5 19800
                (Some ("Coffee", 1000)))).
Proof. vm_compute. reflexivity. Qed.

(** Claim C4, at a transaction whose date was typed without the leading
    zeros.  [transaction_new] accepts the date 2024-1-5 and stores its
    text; the date lies in the pay period from 2024-01-01 to 2024-01-14,
    so that the remaining amount of the specification is 990.00; the
    totals query compares texts, leaves the row out, and the dashboard
    shows 1000.00. *)
Theorem dashboard_remaining_unpadded_date :
  let today := mkdate 2024 1 10 in
  let db1 :=
    o_db (setup_post empty_db (Some 1)
            [("next_payday", "2024-01-15"); ("typical_net_pay", "1000.00")]) in
  let out :=
    transaction_new_post today db1 (Some 1)
      [("kind", "expense"); ("amount", "10.00");
       ("category", "Coffee"); ("occurred_on", "2024-1-5")] in
  let db2 := o_db out in
  let schedule := mkschedule 1 "biweekly" "2024-01-15" 100000 in
  o_flashed out = ["Transaction added!"]
  /\ transactions db2
     = [mktransaction 1 1 "expense" 1000 "Coffee" "2024-1-5" ""]
  /\ get_schedule db2 1 = Some schedule
  /\ current_pay_period schedule
     = Ok (mkdate 2024 1 1, mkdate 2024 1 14, mkdate 2024 1 15)
  /\ parse_ymd "2024-1-5" = Ok (mkdate 2024 1 5)
  /\ spec_remaining db2 1 100000 (mkdate 2024 1 1) (mkdate 2024 1 14) = 99000
  /\ exists g,
       dashboard_figures today db2 1 schedule = Ok g
       /\ f_expense g = 0 /\ f_remaining g = 100000.
Proof.
  cbv zeta. repeat split; try (vm_compute; reflexivity).
  eexists. split; [vm_compute; reflexivity |].
  split; reflexivity.
Qed.

(** *** The text of a date *)

Lemma zero_pad_2 (v : Z) : 0 <= v < 100 -> PyStr.zero_pad 2 v = two_digits v.
Proof.
  intros H. apply String.eqb_eq.
  exact (forall_below
           (fun v => String.eqb (PyStr.zero_pad 2 v) (two_digits v))
           100 ltac:(vm_compute; reflexivity) v H).
Qed.

Lemma zero_pad_4 (v : Z) :
  1000 <= v < 10000 -> PyStr.zero_pad 4 v = four_digits v.
Proof.
  intros H. apply String.eqb_eq.
  pose proof (forall_below
                (fun v => (v <? 1000)
                          || String.eqb (PyStr.zero_pad 4 v) (four_digits v))
                10000 ltac:(vm_compute; reflexivity) v ltac:(lia)) as C.
  cbv beta in C. destruct (Z.ltb_spec v 1000); [lia | exact C].
Qed.

Lemma ymd_text (d : date) :
  valid d = true -> 1000 <= year d ->
  ymd d = (four_digits (year d) ++ "-" ++ two_digits (month d)
           ++ "-" ++ two_digits (day d))%string.
Proof.
  intros V Y. pose proof (valid_inv d V) as (Yd & M & D).
  pose proof (days_in_month_bounds (year d) (month d) M).
  unfold ymd, strftime_ymd.
  rewrite zero_pad_4, !zero_pad_2 by lia. reflexivity.
Qed.

Lemma parse_month_two_digits (m : Z) (rest : string) :
  1 <= m <= 12 ->
  parse_month (two_digits m ++ rest)%string = Some (m, rest).
Proof.
  intros H.
  assert (m = 1 \/ m = 2 \/ m = 3 \/ m = 4 \/ m = 5 \/ m = 6 \/ m = 7
          \/ m = 8 \/ m = 9 \/ m = 10 \/ m = 11 \/ m = 12) as C by lia.
  split_or; subst m; reflexivity.
Qed.

Lemma parse_day_two_digits (d : Z) :
  1 <= d <= 31 -> parse_day (two_digits d) = Some (d, "").
Proof.
  intros H.
  pose proof (forall_below
                (fun d => (d =? 0)
                          || match parse_day (two_digits d) with
                             | Some (v, "") => v =? d
                             | _ => false
                             end)
                32 ltac:(vm_compute; reflexivity) d ltac:(lia)) as C.
  cbv beta in C. destruct (Z.eqb_spec d 0); [lia |]. cbn [orb] in C.
  destruct (parse_day (two_digits d)) as [[v [| ? ?]] |]; try discriminate.
  apply Z.eqb_eq in C. subst v. reflexivity.
Qed.

Lemma parse_year_four_digits (y : Z) (rest : string) :
  1000 <= y < 10000 ->
  parse_year (four_digits y ++ rest)%string = Some (y, rest).
Proof.
  intros H. unfold four_digits, two_digits. cbn [append parse_year].
  rewrite !digit_val_char
    by (try (apply Z.mod_pos_bound; lia); Z.div_mod_to_equations; lia).
  f_equal. f_equal. Z.div_mod_to_equations. lia.
Qed.

(** A date printed by [ymd] parses back to itself. *)
Lemma parse_ymd_ymd (d : date) :
  valid d = true -> 1000 <= year d -> parse_ymd (ymd d) = Ok d.
Proof.
  intros V Y. pose proof (valid_inv d V) as (Yd & M & D).
  pose proof (days_in_month_bounds (year d) (month d) M).
  rewrite ymd_text by assumption. unfold parse_ymd, strptime_ymd.
  rewrite parse_year_four_digits by lia.
  cbn [append expect Ascii.eqb Bool.eqb].
  rewrite parse_month_two_digits by lia.
  cbn [append expect Ascii.eqb Bool.eqb].
  rewrite parse_day_two_digits by lia. cbn [PyStr.is_empty].
  unfold make. destruct d as [y m dd]. cbn [year month day] in *.
  rewrite V. reflexivity.
Qed.

(** *** The order of the texts and the order of the dates *)

Lemma digit_char_ltb (x y : Z) :
  0 <= x <= 9 -> 0 <= y <= 9 ->
  (N_of_ascii (PyStr.digit_char x) <? N_of_ascii (PyStr.digit_char y))%N
  = (x <? y).
Proof.
  intros Hx Hy.
  pose proof (forall_below
                (fun v =>
                   Bool.eqb
                     (N_of_ascii (PyStr.digit_char (v / 10))
                      <? N_of_ascii (PyStr.digit_char (v mod 10)))%N
                     (v / 10 <? v mod 10))
                100 ltac:(vm_compute; reflexivity) (10 * x + y) ltac:(lia)) as C.
  cbv beta in C.
  replace ((10 * x + y) / 10) with x in C by (Z.div_mod_to_equations; lia).
  replace ((10 * x + y) mod 10) with y in C by (Z.div_mod_to_equations; lia).
  apply eqb_prop in C. exact C.
Qed.

Lemma leb_iff (a b : date) :
  leb a b = true
  <-> year a < year b
      \/ (year a = year b
          /\ (month a < month b \/ (month a = month b /\ day a <= day b))).
Proof.
  unfold leb, ltb. rewrite negb_true_iff.
  destruct (Z.ltb_spec (year b) (year a));
    destruct (Z.eqb_spec (year b) (year a));
    destruct (Z.ltb_spec (month b) (month a));
    destruct (Z.eqb_spec (month b) (month a));
    destruct (Z.ltb_spec (day b) (day a));
    cbn [orb andb]; split; intros; try lia; try discriminate; try reflexivity.
Qed.

Ltac digit_step :=
  rewrite digit_char_ltb
    by (try (apply Z.mod_pos_bound; lia); Z.div_mod_to_equations; lia);
  match goal with
  | |- context [if ?x <? ?y then true else _] => destruct (Z.ltb_spec x y)
  end;
  [ | rewrite digit_char_ltb
        by (try (apply Z.mod_pos_bound; lia); Z.div_mod_to_equations; lia);
      match goal with
      | |- context [if ?x <? ?y then false else _] => destruct (Z.ltb_spec x y)
      end ].

Lemma ymd_leb (a b : date) :
  valid a = true -> valid b = true -> 1000 <= year a -> 1000 <= year b ->
  PyStr.leb (ymd a) (ymd b) = leb a b.
Proof.
  intros Va Vb Ya Yb.
  pose proof (valid_inv a Va) as (Ya' & Ma & Da).
  pose proof (valid_inv b Vb) as (Yb' & Mb & Db).
  pose proof (days_in_month_bounds (year a) (month a) Ma).
  pose proof (days_in_month_bounds (year b) (month b) Mb).
  rewrite !ymd_text by assumption.
  unfold four_digits, two_digits. cbn [append PyStr.leb].
  change (N_of_ascii "-" <? N_of_ascii "-")%N with false. cbv iota.
  assert (T : forall P : Prop, P -> leb a b = true <-> P -> true = leb a b)
    by (intros P p [_ q]; symmetry; apply q; exact p).
  assert (F : forall P : Prop, ~ P -> leb a b = true <-> P -> false = leb a b).
  { intros P np [q _]. destruct (leb a b); [| reflexivity].
    exfalso. apply np. apply q. reflexivity. }
  pose proof (leb_iff a b) as L.
  digit_step; [apply (T _) with (2 := L); Z.div_mod_to_equations; lia
              | apply (F _) with (2 := L); Z.div_mod_to_equations; lia |].
  digit_step; [apply (T _) with (2 := L); Z.div_mod_to_equations; lia
              | apply (F _) with (2 := L); Z.div_mod_to_equations; lia |].
  digit_step; [apply (T _) with (2 := L); Z.div_mod_to_equations; lia
              | apply (F _) with (2 := L); Z.div_mod_to_equations; lia |].
  digit_step; [apply (T _) with (2 := L); Z.div_mod_to_equations; lia
              | apply (F _) with (2 := L); Z.div_mod_to_equations; lia |].
  digit_step; [apply (T _) with (2 := L); Z.div_mod_to_equations; lia
              | apply (F _) with (2 := L); Z.div_mod_to_equations; lia |].
  digit_step; [apply (T _) with (2 := L); Z.div_mod_to_equations; lia
              | apply (F _) with (2 := L); Z.div_mod_to_equations; lia |].
  digit_step; [apply (T _) with (2 := L); Z.div_mod_to_equations; lia
              | apply (F _) with (2 := L); Z.div_mod_to_equations; lia |].
  digit_step; [apply (T _) with (2 := L); Z.div_mod_to_equations; lia
              | apply (F _) with (2 := L); Z.div_mod_to_equations; lia |].
  apply (T _) with (2 := L). Z.div_mod_to_equations. lia.
Qed.

Lemma add_days_inv (d d' : date) (k : Z) :
  add_days d k = Ok d' -> valid d' = true /\ toordinal d' = toordinal d + k.
Proof.
  unfold add_days.
  destruct ((0 <? toordinal d + k) && (toordinal d + k <=? MAXORDINAL)) eqn:E;
    [| discriminate].
  intros H. injection H as <-.
  apply andb_prop in E. destruct E as [E1 E2].
  apply Z.ltb_lt in E1. apply Z.leb_le in E2.
  apply ord2ymd_spec. lia.
Qed.

Lemma current_pay_period_inv (schedule : schedule_row) (ps pe np : date) :
  current_pay_period schedule = Ok (ps, pe, np) ->
  valid ps = true /\ valid pe = true /\ valid np = true
  /\ toordinal pe = toordinal np - 1 /\ toordinal ps = toordinal pe - 13.
Proof.
  unfold current_pay_period, sub_days. intros H.
  apply bind_ok in H. destruct H as (np' & P & H).
  apply bind_ok in H. destruct H as (pe' & E & H).
  apply bind_ok in H. destruct H as (ps' & S & H).
  injection H as <- <- <-.
  apply strptime_ymd_valid in P.
  apply add_days_inv in E. apply add_days_inv in S. intuition lia.
Qed.

Lemma year_mono (a b : date) :
  valid a = true -> valid b = true -> toordinal a <= toordinal b ->
  year a <= year b.
Proof.
  intros Va Vb H. destruct (Z.le_gt_cases (year a) (year b)) as [L | L];
    [exact L |].
  assert (X : ltb b a = true).
  { unfold ltb. apply orb_true_intro. left. apply Z.ltb_lt. lia. }
  pose proof (toordinal_lt b a Vb Va X). lia.
Qed.

Lemma filter_filter_and {A : Type} (p q : A -> bool) (l : list A) :
  filter q (filter p l) = filter (fun x => p x && q x) l.
Proof.
  induction l as [| x l IH]; [reflexivity |]. cbn [filter].
  destruct (p x); cbn [filter andb]; [destruct (q x) |]; rewrite IH; reflexivity.
Qed.

Lemma kind_total_canonical (db : database) (user_id : Z) (kind : string)
    (ps pe : date) :
  valid ps = true -> valid pe = true -> 1000 <= year ps -> 1000 <= year pe ->
  (forall t, In t (transactions db) -> t_user_id t = user_id -> canonical t) ->
  kind_total kind (period_rows db user_id (ymd ps) (ymd pe))
  = period_sum db user_id kind ps pe.
Proof.
  intros Vs Ve Ys Ye C. unfold kind_total, period_rows, period_sum.
  rewrite filter_filter_and. f_equal. f_equal.
  apply filter_ext_in. intros t I.
  destruct (Z.eqb_spec (t_user_id t) user_id) as [U | U]; [| reflexivity].
  destruct (C t I U) as (d & Vd & Yd & E).
  unfold in_period. rewrite E, parse_ymd_ymd by assumption.
  rewrite !ymd_leb by assumption.
  cbn [andb]. apply andb_comm.
Qed.

(** On transactions stored with zero-padded dates the dashboard's
    remaining amount is the one the specification describes. *)
Lemma dashboard_remaining_canonical (today : date) (db : database)
    (user_id : Z) (schedule : schedule_row) (g : figures) :
  dashboard_figures today db user_id schedule = Ok g ->
  1000 <= year (f_start g) ->
  (forall t, In t (transactions db) -> t_user_id t = user_id -> canonical t) ->
  f_remaining g
  = spec_remaining db user_id (ps_typical_net_pay_cents schedule)
      (f_start g) (f_end g).
Proof.
  intros H Y C. apply dashboard_figures_inv in H.
  destruct H as (ps & pe & np & due & total & top & P & _ & _ & ->).
  cbn [f_start f_end f_remaining] in *.
  apply current_pay_period_inv in P. destruct P as (Vs & Ve & _ & _ & T).
  assert (Ye : 1000 <= year pe).
  { pose proof (year_mono ps pe Vs Ve). lia. }
  unfold spec_remaining. rewrite !kind_total_canonical by assumption.
  reflexivity.
Qed.

(** ** Signup *)

Lemma app_one_neq {A : Type} (l : list A) (x : A) : l ++ [x] <> l.
Proof.
  intros H. apply (f_equal (@List.length A)) in H.
  rewrite length_app in H. cbn in H. lia.
Qed.

Lemma logged_in_session (uid : Z) :
  uid <> 0 -> require_login (Some uid) = (true, []).
Proof.
  intros H. unfold require_login, logged_in, current_user_id.
  destruct (Z.eqb_spec uid 0); [contradiction | reflexivity].
Qed.

Lemma existsb_email (rows : list user_row) (email : string) :
  existsb (fun u => String.eqb (u_email u) email) rows = true
  <-> exists u, In u rows /\ u_email u = email.
Proof.
  rewrite existsb_exists. split; intros (u & I & E); exists u;
    (split; [exact I |]); apply String.eqb_eq; exact E.
Qed.

Lemma find_app_fresh (rows : list user_row) (email : string) (x : user_row) :
  existsb (fun u => String.eqb (u_email u) email) rows = false ->
  u_email x = email ->
  find (fun u => String.eqb (u_email u) email) (rows ++ [x]) = Some x.
Proof.
  intros H E. induction rows as [| r rows IH]; cbn in *.
  - rewrite E, String.eqb_refl. reflexivity.
  - apply orb_false_elim in H. destruct H as [H1 H2].
    rewrite H1. apply IH. exact H2.
Qed.

(** Claim C8.  For a signup POST whose email, trimmed and lower-cased,
    and whose password are not empty: a user row is appended if and only
    if no user has that email; then the session is the new user's and
    the response redirects to the setup; when the email is registered
    already the insert raises [IntegrityError], the database and the
    session are unchanged, and the signup page is rendered again with
    an error message. *)
Theorem signup_post_spec (generate_password_hash : string -> string)
    (db : database) (s : session) (f : form) :
  let email := PyStr.lower (PyStr.strip (form_get f "email" "")) in
  let pw := form_get f "password" "" in
  let out := signup_post generate_password_hash db s f in
  let registered := exists u, In u (users db) /\ u_email u = email in
  PyStr.is_empty email = false -> PyStr.is_empty pw = false ->
  ((exists row, users (o_db out) = users db ++ [row]) <-> ~ registered)
  /\ (~ registered ->
      let row := mkuser (next_id (map u_id (users db))) email
                   (generate_password_hash pw) in
      o_db out = set_users db (users db ++ [row])
      /\ o_session out = Some (u_id row)
      /\ o_response out = Ok (Redirect "setup"))
  /\ (registered ->
      insert_user db email (generate_password_hash pw) = Raise IntegrityError
      /\ o_db out = db
      /\ o_session out = s
      /\ o_flashed out = ["That email is already registered."]
      /\ o_response out = Ok (Page "auth_signup.html")).
Proof.
  intros email pw out registered He Hp.
  assert (D : existsb (fun u => String.eqb (u_email u) email) (users db) = true
              <-> registered) by apply existsb_email.
  unfold out, signup_post. fold email pw. rewrite He, Hp. cbn [orb].
  unfold insert_user.
  destruct (existsb (fun u => String.eqb (u_email u) email) (users db)) eqn:X.
  - assert (R : registered) by (apply D; reflexivity).
    cbn [o_db o_session o_flashed o_response].
    split; [| split].
    + split; [| intros N; contradiction].
      intros [row E]. exfalso. symmetry in E. exact (app_one_neq _ _ E).
    + intros N. contradiction.
    + intros _. repeat split; reflexivity.
  - assert (R : ~ registered) by (intros R; apply D in R; discriminate).
    cbn [o_db o_session o_flashed o_response].
    split; [| split].
    + split; [intros _; exact R |]. intros _. eexists. reflexivity.
    + intros _. cbn zeta. split; [reflexivity |]. split; [| reflexivity].
      unfold select_user_id. cbn [users set_users].
      rewrite find_app_fresh; [reflexivity | exact X | reflexivity].
    + intros R'. contradiction.
Qed.

(** An email that is empty once trimmed, or an empty password, is
    refused before the insert. *)
Lemma signup_post_required (generate_password_hash : string -> string)
    (db : database) (s : session) (f : form) :
  PyStr.is_empty (PyStr.lower (PyStr.strip (form_get f "email" ""))) = true
  \/ PyStr.is_empty (form_get f "password" "") = true ->
  signup_post generate_password_hash db s f
  = mkoutcome db s ["Email and password required."]
      (Ok (Page "auth_signup.html")).
Proof.
  intros H. unfold signup_post.
  destruct H as [-> | ->]; [| rewrite orb_true_r]; reflexivity.
Qed.

Lemma signup_post_spec_witness :
  let hash := fun pw : string => ("pbkdf2:" ++ pw)%string in
  let f := [("email", " Ada@Example.com "); ("password", "secret")] in
  o_db (signup_post hash empty_db None f)
  = set_users empty_db [mkuser 1 "ada@example.com" "pbkdf2:secret"]
  /\ o_session (signup_post hash empty_db None f) = Some 1
  /\ o_response (signup_post hash empty_db None f) = Ok (Redirect "setup").
Proof.
  cbv zeta.
  destruct (signup_post_spec (fun pw : string => ("pbkdf2:" ++ pw)%string)
              empty_db None
              [("email", " Ada@Example.com "); ("password", "secret")]
              eq_refl eq_refl) as (_ & H & _).
  apply H. intros (u & [] & _).
Defined.

(** ** Bills *)

(** A POST of a logged-in user whose amount is a money string of an
    amount that SQLite can store.  A bill row is appended if and only if
    the name is not empty and the due day is an integer from 1 to 31;
    the appended row is active and has that due day; otherwise the
    database is unchanged and an error message is flashed. *)
Lemma bills_post_spec (db : database) (f : form) (uid amount_cents : Z) :
  let name := PyStr.strip (form_get f "name" "") in
  let due_day := PyStr.strip (form_get f "due_day" "1") in
  let out := bills_post db (Some uid) f in
  let accepted :=
    PyStr.is_empty name = false
    /\ exists k, PyStr.int due_day = Ok k /\ 1 <= k <= 31 in
  uid <> 0 ->
  cents_from_money_str (PyStr.strip (form_get f "amount" "0")) = Ok amount_cents ->
  int64 amount_cents = true ->
  ((exists row, recurring_bills (o_db out) = recurring_bills db ++ [row])
   <-> accepted)
  /\ (forall row,
        recurring_bills (o_db out) = recurring_bills db ++ [row] ->
        rb_active row = 1 /\ PyStr.int due_day = Ok (rb_due_day row)
        /\ rb_user_id row = uid /\ rb_name row = name
        /\ rb_amount_cents row = amount_cents)
  /\ (~ accepted ->
      o_db out = db
      /\ o_response out = Ok (Redirect "bills")
      /\ (o_flashed out = ["Bill name required."]
          \/ o_flashed out = ["Due day must be a number 1â€“31."]
          \/ o_flashed out = ["Due day must be between 1 and 31."])).
Proof.
  intros name due_day out accepted Hu Ha Hi.
  assert (Hb : bind_int amount_cents = Ok amount_cents)
    by (unfold bind_int; rewrite Hi; reflexivity).
  unfold out, bills_post. rewrite logged_in_session by exact Hu.
  unfold current_user_id. fold name due_day. rewrite Ha.
  cbv beta iota. rewrite Hb.
  destruct (PyStr.is_empty name) eqn:En.
  { (* no name *)
    cbn [o_db o_response o_flashed].
    assert (N : ~ accepted) by (intros [X _]; discriminate).
    split; [| split].
    - split; [| intros X; contradiction].
      intros [row E]. exfalso. symmetry in E. exact (app_one_neq _ _ E).
    - intros row E. exfalso. symmetry in E. exact (app_one_neq _ _ E).
    - intros _. repeat split; try reflexivity. left. reflexivity. }
  destruct (PyStr.int due_day) as [k | e] eqn:Ei.
  2:{ (* the day is not a number *)
    cbn [o_db o_response o_flashed].
    assert (N : ~ accepted) by (intros [_ (k & X & _)]; discriminate).
    split; [| split].
    - split; [| intros X; contradiction].
      intros [row E]. exfalso. symmetry in E. exact (app_one_neq _ _ E).
    - intros row E. exfalso. symmetry in E. exact (app_one_neq _ _ E).
    - intros _. repeat split; try reflexivity. right. left. reflexivity. }
  destruct ((k <? 1) || (k >? 31)) eqn:Er.
  { (* the day is out of range *)
    cbn [o_db o_response o_flashed].
    assert (N : ~ accepted).
    { intros [_ (k' & X & R)]. injection X as <-.
      apply orb_prop in Er. destruct Er as [Er | Er];
        [apply Z.ltb_lt in Er | apply Z.gtb_lt in Er]; lia. }
    split; [| split].
    - split; [| intros X; contradiction].
      intros [row E]. exfalso. symmetry in E. exact (app_one_neq _ _ E).
    - intros row E. exfalso. symmetry in E. exact (app_one_neq _ _ E).
    - intros _. repeat split; try reflexivity. right. right. reflexivity. }
  (* the row is inserted *)
  apply orb_false_elim in Er. destruct Er as [Er1 Er2].
  apply Z.ltb_ge in Er1.
  assert (Er3 : k <= 31).
  { destruct (Z.gtb_spec k 31); [discriminate | lia]. }
  assert (Acc : accepted).
  { split; [reflexivity |]. exists k. split; [reflexivity | lia]. }
  cbn [o_db o_response o_flashed recurring_bills set_recurring_bills].
  unfold insert_bill.
  split; [| split].
  - split; [intros _; exact Acc |]. intros _. eexists. reflexivity.
  - intros row E. apply app_inv_head in E. injection E as <-.
    cbn [rb_active rb_due_day rb_user_id rb_name rb_amount_cents].
    repeat split; reflexivity.
  - intros N. contradiction.
Qed.

(** Without a session the route redirects to the login page. *)
Lemma bills_post_anonymous (db : database) (s : session) (f : form) :
  logged_in s = false ->
  bills_post db s f
  = mkoutcome db s ["Please log in first."] (Ok (Redirect "login")).
Proof.
  intros H. unfold bills_post, require_login. rewrite H. reflexivity.
Qed.

Lemma bills_post_spec_witness :
  let f := [("name", "Phone"); ("amount", "45"); ("due_day", "12")] in
  exists row,
    recurring_bills (o_db (bills_post empty_db (Some 1) f))
    = recurring_bills empty_db ++ [row]
    /\ rb_active row = 1 /\ rb_due_day row = 12.
Proof.
  cbv zeta.
  destruct (bills_post_spec empty_db
              [("name", "Phone"); ("amount", "45"); ("due_day", "12")]
              1 4500 ltac:(lia) eq_refl eq_refl) as (I & P & _).
  destruct (proj2 I) as [row E].
  { split; [reflexivity |]. exists 12. split; [reflexivity | lia]. }
  exists row. split; [exact E |].
  destruct (P row E) as (A & D & _). split; [exact A |].
  change (Ok 12 = Ok (rb_due_day row)) in D. injection D as D.
  symmetry. exact D.
Defined.

(** What the route does with an amount it cannot store, once the name
    and the due day are accepted: the [ValueError] of [int], or the
    [OverflowError] of the insert, is not caught; nothing is stored and
    nothing is flashed. *)
Lemma bills_post_amount_raises (db : database) (f : form) (uid k : Z)
    (e : exn) :
  let amount := cents_from_money_str (PyStr.strip (form_get f "amount" "0")) in
  uid <> 0 ->
  PyStr.is_empty (PyStr.strip (form_get f "name" "")) = false ->
  PyStr.int (PyStr.strip (form_get f "due_day" "1")) = Ok k ->
  1 <= k <= 31 ->
  amount = Raise e
  \/ (exists amount_cents,
        amount = Ok amount_cents /\ int64 amount_cents = false
        /\ e = OverflowError) ->
  bills_post db (Some uid) f = mkoutcome db (Some uid) [] (Raise e).
Proof.
  intros amount Hu Hn Hd Hk Ha.
  unfold bills_post. rewrite logged_in_session by exact Hu.
  unfold current_user_id. rewrite Hn, Hd. fold amount.
  assert (R : (k <? 1) || (k >? 31) = false).
  { apply orb_false_intro; [apply Z.ltb_ge; lia |].
    destruct (Z.gtb_spec k 31); [lia | reflexivity]. }
  cbv beta iota. rewrite R.
  destruct Ha as [-> | (a & -> & Hi & ->)]; [reflexivity |].
  unfold bind_int. rewrite Hi. reflexivity.
Qed.

(** Claim C5, at a POST of a logged-in user with the name [Rent], the
    due day 5 and the amount [abc].  The name is not empty and the due
    day is an integer from 1 to 31, so that the claim has a row
    inserted; [cents_from_money_str] raises [ValueError], which the
    route does not catch: no row is inserted and no message is flashed.
    The same text as the due day is caught, and a message flashed. *)
Theorem bills_post_bad_amount :
  let f := [("name", "Rent"); ("amount", "abc"); ("due_day", "5")] in
  let out := bills_post empty_db (Some 1) f in
  PyStr.is_empty (PyStr.strip (form_get f "name" "")) = false
  /\ PyStr.int (PyStr.strip (form_get f "due_day" "1")) = Ok 5
  /\ out = mkoutcome empty_db (Some 1) [] (Raise ValueError)
  /\ ~ (exists row,
          recurring_bills (o_db out) = recurring_bills empty_db ++ [row])
  /\ bills_post empty_db (Some 1)
       [("name", "Rent"); ("amount", "45"); ("due_day", "abc")]
     = mkoutcome empty_db (Some 1) ["Due day must be a number 1â€“31."]
         (Ok (Redirect "bills")).
Proof.
  cbv zeta. repeat split; try (vm_compute; reflexivity).
  intros (row & H). vm_compute in H. discriminate H.
Qed.

(** ** Budgets and pay schedules *)

(** *** The budgets table *)

Lemma budget_has_key_iff (u : Z) (c : string) (b : budget_row) :
  budget_has_key u c b = true <-> budget_key b = (u, c).
Proof.
  unfold budget_has_key, budget_key. split.
  - intros H. apply andb_prop in H. destruct H as [H1 H2].
    apply Z.eqb_eq in H1. apply String.eqb_eq in H2. congruence.
  - intros H. injection H as -> ->.
    rewrite Z.eqb_refl, String.eqb_refl. reflexivity.
Qed.

Lemma upsert_budget_keys (rows : list budget_row) (u : Z) (c : string) (l : Z) :
  map budget_key (upsert_budget rows u c l)
  = if existsb (budget_has_key u c) rows
    then map budget_key rows
    else map budget_key rows ++ [(u, c)].
Proof.
  induction rows as [| r rows IH]; [reflexivity |].
  cbn [upsert_budget existsb].
  change ((b_user_id r =? u) && (b_category r =? c)%string)
    with (budget_has_key u c r).
  destruct (budget_has_key u c r) eqn:K; cbn [orb map].
  - reflexivity.
  - rewrite IH. destruct (existsb (budget_has_key u c) rows); reflexivity.
Qed.

Lemma upsert_budget_unique (rows : list budget_row) (u : Z) (c : string) (l : Z) :
  NoDup (map budget_key rows) ->
  NoDup (map budget_key (upsert_budget rows u c l)).
Proof.
  intros N. rewrite upsert_budget_keys.
  destruct (existsb (budget_has_key u c) rows) eqn:E; [exact N |].
  apply NoDup_app; [exact N | repeat constructor; intros [] | ].
  intros k Hk [<- | []].
  apply in_map_iff in Hk. destruct Hk as (b & Kb & Ib).
  assert (X : existsb (budget_has_key u c) rows = true).
  { apply existsb_exists. exists b. split; [exact Ib |].
    apply budget_has_key_iff. exact Kb. }
  congruence.
Qed.

(** On a table without duplicate keys, the upsert of a key that is
    there rewrites the limit of its row and nothing else. *)
Lemma upsert_budget_replace (rows : list budget_row) (u : Z) (c : string) (l : Z) :
  NoDup (map budget_key rows) ->
  existsb (budget_has_key u c) rows = true ->
  upsert_budget rows u c l
  = map (fun b => if budget_has_key u c b then mkbudget u c l else b) rows.
Proof.
  induction rows as [| r rows IH]; intros N E; [discriminate |].
  cbn [upsert_budget map existsb] in *.
  change ((b_user_id r =? u) && (b_category r =? c)%string)
    with (budget_has_key u c r).
  inversion N as [| k ks Nin N' Eq]; subst.
  destruct (budget_has_key u c r) eqn:K.
  - pose proof (proj1 (budget_has_key_iff u c r) K) as Kr.
    injection Kr as <- <-. f_equal.
    (* no other row has the key *)
    clear IH E N. induction rows as [| x rows IHr]; [reflexivity |].
    cbn [map] in *. inversion N' as [| k ks Nin' N'' Eq]; subst.
    destruct (budget_has_key (b_user_id r) (b_category r) x) eqn:Kx.
    + exfalso. apply Nin. left.
      apply budget_has_key_iff in Kx. exact Kx.
    + f_equal. apply IHr; [| exact N''].
      intros I. apply Nin. right. exact I.
  - f_equal. apply IH; [exact N' | exact E].
Qed.

Lemma unique_key_count {A K : Type} (key : A -> K) (p : A -> bool) (k : K)
    (rows : list A) :
  (forall a, p a = true -> key a = k) ->
  NoDup (map key rows) ->
  (List.length (filter p rows) <= 1)%nat.
Proof.
  intros P N. induction rows as [| r rows IH]; [cbn; lia |].
  cbn [map filter] in *. inversion N as [| x xs Nin N' Eq]; subst.
  destruct (p r) eqn:E; [| apply IH; exact N'].
  cbn [List.length].
  assert (Z : filter p rows = []).
  { clear IH N. induction rows as [| y rows IHr]; [reflexivity |].
    cbn [map filter] in *. inversion N' as [| x xs Nin' N'' Eq]; subst.
    destruct (p y) eqn:Ey.
    - exfalso. apply Nin. left. rewrite (P y Ey), (P r E). reflexivity.
    - apply IHr; [| exact N'']. intros I. apply Nin. right. exact I. }
  rewrite Z. cbn. lia.
Qed.

Lemma budgets_post_unique (db : database) (s : session) (f : form) :
  budgets_unique db -> budgets_unique (o_db (budgets_post db s f)).
Proof.
  intros U. unfold budgets_post.
  destruct (require_login s) as [[] msgs]; [| exact U].
  destruct (current_user_id s) as [uid |]; [| exact U].
  destruct (cents_from_money_str _) as [l | e]; [| exact U].
  destruct (bind_int l) as [stored | e]; [| exact U].
  cbn [o_db]. unfold budgets_unique. cbn [budgets set_budgets].
  apply upsert_budget_unique. exact U.
Qed.

(** What makes [bind_int] raise. *)
Lemma bind_int_ok (v : Z) : int64 v = true -> bind_int v = Ok v.
Proof. unfold bind_int. intros ->. reflexivity. Qed.

Lemma bind_int_overflow (v : Z) :
  int64 v = false -> bind_int v = Raise OverflowError.
Proof. unfold bind_int. intros ->. reflexivity. Qed.

Lemma run_posts_invariant (I : database -> Prop)
    (handler : database -> session -> form -> outcome) :
  (forall db s f, I db -> I (o_db (handler db s f))) ->
  forall reqs db, I db -> I (run_posts handler db reqs).
Proof.
  intros Step reqs. unfold run_posts.
  induction reqs as [| r reqs IH]; intros db H; [exact H |].
  cbn [fold_left]. apply IH. apply Step. exact H.
Qed.

(** Claim C6, for limits that SQLite can store.  After any sequence of
    POSTs to the budgets route, from a table without two rows for one
    user and category, there is at most one row for every user and
    category; and a POST for a pair that has a row, with a limit in the
    64-bit range, puts the submitted limit into that row, every other
    row and the number of rows staying as they are.  A limit outside
    that range makes the statement raise [OverflowError], and the
    database stays as it was.  (A limit that [cents_from_money_str] does
    not convert is no limit: the handler raises and the database stays
    as it was.) *)
Theorem budgets_post_upsert (db : database) (reqs : list post) :
  budgets_unique db ->
  let db' := run_posts budgets_post db reqs in
  (forall (u : Z) (c : string),
      (List.length (filter (budget_has_key u c) (budgets db')) <= 1)%nat)
  /\ (forall (uid : Z) (f : form) (limit_cents : Z),
        let category := PyStr.strip (form_get f "category" "Other") in
        let out := budgets_post db' (Some uid) f in
        uid <> 0 ->
        cents_from_money_str (PyStr.strip (form_get f "limit" "0"))
        = Ok limit_cents ->
        int64 limit_cents = true ->
        (exists b, In b (budgets db') /\ budget_key b = (uid, category)) ->
        budgets (o_db out)
        = map (fun b => if budget_has_key uid category b
                        then mkbudget uid category limit_cents else b)
              (budgets db')
        /\ List.length (budgets (o_db out)) = List.length (budgets db'))
  /\ (forall (uid : Z) (f : form) (limit_cents : Z),
        uid <> 0 ->
        cents_from_money_str (PyStr.strip (form_get f "limit" "0"))
        = Ok limit_cents ->
        int64 limit_cents = false ->
        budgets_post db' (Some uid) f
        = mkoutcome db' (Some uid) [] (Raise OverflowError))
  /\ (forall (s : session) (f : form),
        is_ok (cents_from_money_str (PyStr.strip (form_get f "limit" "0")))
        = false ->
        o_db (budgets_post db' s f) = db').
Proof.
  intros U db'.
  assert (U' : budgets_unique db').
  { apply (run_posts_invariant budgets_unique); [| exact U].
    intros ? ? ?. apply budgets_post_unique. }
  split; [| split; [| split]].
  - intros u c. apply (unique_key_count budget_key _ (u, c)); [| exact U'].
    intros a. apply budget_has_key_iff.
  - intros uid f l category out Hu Hl Hi (b & Ib & Kb).
    assert (E : budgets (o_db out)
                = map (fun b => if budget_has_key uid category b
                                then mkbudget uid category l else b)
                      (budgets db')).
    { unfold out, budgets_post. rewrite logged_in_session by exact Hu.
      unfold current_user_id. fold category. rewrite Hl.
      cbv beta iota. rewrite (bind_int_ok l Hi).
      cbn [o_db budgets set_budgets].
      apply upsert_budget_replace; [exact U' |].
      apply existsb_exists. exists b. split; [exact Ib |].
      apply budget_has_key_iff. exact Kb. }
    split; [exact E |]. rewrite E. apply length_map.
  - intros uid f l Hu Hl Hi.
    unfold budgets_post. rewrite logged_in_session by exact Hu.
    unfold current_user_id. rewrite Hl.
    cbv beta iota. rewrite (bind_int_overflow l Hi). reflexivity.
  - intros s f E. unfold budgets_post.
    destruct (require_login s) as [[] msgs]; [| reflexivity].
    destruct (current_user_id s) as [uid |]; [| reflexivity].
    destruct (cents_from_money_str _) as [l | e]; [discriminate | reflexivity].
Qed.

Lemma budgets_post_upsert_witness :
  let f1 := [("category", "Rent"); ("limit", "500")] in
  let f2 := [("category", " Rent "); ("limit", "650.00")] in
  budgets_unique empty_db
  /\ budgets
       (o_db (budgets_post (run_posts budgets_post empty_db [(Some 1, f1)])
                (Some 1) f2))
     = [mkbudget 1 "Rent" 65000].
Proof.
  cbv zeta.
  assert (U : budgets_unique empty_db) by constructor.
  split; [exact U |].
  destruct (budgets_post_upsert empty_db
              [(Some 1, [("category", "Rent"); ("limit", "500")])] U)
    as (_ & H & _).
  exact (proj1
           (H 1 [("category", " Rent "); ("limit", "650.00")] 65000
              ltac:(lia) eq_refl eq_refl
              (ex_intro _ (mkbudget 1 "Rent" 50000)
                 (conj (or_introl eq_refl) eq_refl)))).
Defined.

(** A POST for a pair that has a row, with the limit
    92233720368547758.08: the text converts to 2^63 cents, one more than
    SQLite can store; the statement raises [OverflowError] and the row
    keeps the limit it had. *)
Lemma budgets_post_overflow :
  let f1 := [("category", "Rent"); ("limit", "500")] in
  let f2 := [("category", "Rent"); ("limit", "92233720368547758.08")] in
  let db := run_posts budgets_post empty_db [(Some 1, f1)] in
  let out := budgets_post db (Some 1) f2 in
  budgets db = [mkbudget 1 "Rent" 50000]
  /\ cents_from_money_str (PyStr.strip (form_get f2 "limit" "0"))
     = Ok 9223372036854775808
  /\ o_response out = Raise OverflowError
  /\ budgets (o_db out) = [mkbudget 1 "Rent" 50000]
  /\ budgets (o_db out) <> [mkbudget 1 "Rent" 9223372036854775808].
Proof.
  cbv zeta. repeat split; try (vm_compute; reflexivity).
  intros H. vm_compute in H. discriminate H.
Qed.

(** *** The pay_schedules table *)

Lemma upsert_schedule_users (rows : list schedule_row) (u : Z) (np : string) (c : Z) :
  map ps_user_id (upsert_schedule rows u np c)
  = if existsb (fun r => ps_user_id r =? u) rows
    then map ps_user_id rows
    else map ps_user_id rows ++ [u].
Proof.
  induction rows as [| r rows IH]; [reflexivity |].
  cbn [upsert_schedule existsb].
  destruct (ps_user_id r =? u) eqn:K; cbn [orb map].
  - reflexivity.
  - rewrite IH. destruct (existsb (fun r => ps_user_id r =? u) rows); reflexivity.
Qed.

Lemma upsert_schedule_unique (rows : list schedule_row) (u : Z) (np : string) (c : Z) :
  NoDup (map ps_user_id rows) ->
  NoDup (map ps_user_id (upsert_schedule rows u np c)).
Proof.
  intros N. rewrite upsert_schedule_users.
  destruct (existsb (fun r => ps_user_id r =? u) rows) eqn:E; [exact N |].
  apply NoDup_app; [exact N | repeat constructor; intros [] | ].
  intros k Hk [<- | []].
  apply in_map_iff in Hk. destruct Hk as (b & Kb & Ib).
  assert (X : existsb (fun r => ps_user_id r =? u) rows = true).
  { apply existsb_exists. exists b. split; [exact Ib |].
    apply Z.eqb_eq. exact Kb. }
  congruence.
Qed.

Lemma upsert_schedule_biweekly (rows : list schedule_row) (u : Z) (np : string) (c : Z) :
  Forall (fun r => ps_frequency r = "biweekly") rows ->
  Forall (fun r => ps_frequency r = "biweekly") (upsert_schedule rows u np c).
Proof.
  intros F. induction F as [| r rows Hr F IH]; cbn [upsert_schedule].
  - repeat constructor.
  - destruct (ps_user_id r =? u); constructor; assumption.
Qed.

Lemma upsert_schedule_replace (rows : list schedule_row) (u : Z) (np : string) (c : Z) :
  NoDup (map ps_user_id rows) ->
  existsb (fun r => ps_user_id r =? u) rows = true ->
  upsert_schedule rows u np c
  = map (fun r => if ps_user_id r =? u
                  then mkschedule u (ps_frequency r) np c else r) rows.
Proof.
  induction rows as [| r rows IH]; intros N E; [discriminate |].
  cbn [upsert_schedule map existsb] in *.
  inversion N as [| k ks Nin N' Eq]; subst.
  destruct (Z.eqb_spec (ps_user_id r) u) as [K | K].
  - subst u. f_equal.
    clear IH E N. induction rows as [| x rows IHr]; [reflexivity |].
    cbn [map] in *. inversion N' as [| k ks Nin' N'' Eq]; subst.
    destruct (Z.eqb_spec (ps_user_id x) (ps_user_id r)) as [Kx | Kx].
    + exfalso. apply Nin. left. exact Kx.
    + f_equal. apply IHr; [| exact N''].
      intros I. apply Nin. right. exact I.
  - f_equal. apply IH; [exact N' | exact E].
Qed.

Lemma setup_post_ok (db : database) (s : session) (f : form) :
  schedules_ok db -> schedules_ok (o_db (setup_post db s f)).
Proof.
  intros U. unfold setup_post.
  destruct (require_login s) as [[] msgs]; [| exact U].
  destruct (current_user_id s) as [uid |]; [| exact U].
  destruct (parse_ymd _) as [d | e]; [| exact U].
  destruct (cents_from_money_str _) as [l | e]; [| exact U].
  destruct (bind_int l) as [stored | e]; [| exact U].
  cbn [o_db]. unfold schedules_ok. cbn [pay_schedules set_pay_schedules].
  destruct U as [N F]. split.
  - apply upsert_schedule_unique. exact N.
  - apply upsert_schedule_biweekly. exact F.
Qed.

(** Claim C7, for a net pay that SQLite can store.  After any sequence
    of POSTs to the setup route, from a table with at most one row per
    user and biweekly rows only, every user has at most one row and
    every row is biweekly; a POST of a user who has a row, with a net
    pay in the 64-bit range, puts the submitted next payday and net pay
    into that row, in place; a POST whose next payday does not parse
    leaves the database unchanged; and a net pay outside that range
    makes the statement raise [OverflowError], the database staying as
    it was.  (So does a POST whose net pay [cents_from_money_str] does
    not convert: the handler raises.) *)
Theorem setup_post_upsert (db : database) (reqs : list post) :
  schedules_ok db ->
  let db' := run_posts setup_post db reqs in
  (forall u : Z,
      (List.length (filter (fun r => (ps_user_id r =? u)%Z) (pay_schedules db'))
       <= 1)%nat)
  /\ (forall r, In r (pay_schedules db') -> ps_frequency r = "biweekly")
  /\ (forall (uid : Z) (f : form) (d : date) (net_pay_cents : Z),
        let next_payday := PyStr.strip (form_get f "next_payday" "") in
        let out := setup_post db' (Some uid) f in
        uid <> 0 ->
        parse_ymd next_payday = Ok d ->
        cents_from_money_str (PyStr.strip (form_get f "typical_net_pay" ""))
        = Ok net_pay_cents ->
        int64 net_pay_cents = true ->
        (exists r, In r (pay_schedules db') /\ ps_user_id r = uid) ->
        pay_schedules (o_db out)
        = map (fun r => if ps_user_id r =? uid
                        then mkschedule uid (ps_frequency r) next_payday
                               net_pay_cents
                        else r)
              (pay_schedules db'))
  /\ (forall (s : session) (f : form),
        is_ok (parse_ymd (PyStr.strip (form_get f "next_payday" ""))) = false ->
        o_db (setup_post db' s f) = db')
  /\ (forall (uid : Z) (f : form) (d : date) (net_pay_cents : Z),
        uid <> 0 ->
        parse_ymd (PyStr.strip (form_get f "next_payday" "")) = Ok d ->
        cents_from_money_str (PyStr.strip (form_get f "typical_net_pay" ""))
        = Ok net_pay_cents ->
        int64 net_pay_cents = false ->
        setup_post db' (Some uid) f
        = mkoutcome db' (Some uid) [] (Raise OverflowError))
  /\ (forall (s : session) (f : form),
        is_ok (cents_from_money_str
                 (PyStr.strip (form_get f "typical_net_pay" ""))) = false ->
        o_db (setup_post db' s f) = db').
Proof.
  intros U db'.
  assert (U' : schedules_ok db').
  { apply (run_posts_invariant schedules_ok); [| exact U].
    intros ? ? ?. apply setup_post_ok. }
  destruct U' as [N F].
  split; [| split; [| split; [| split; [| split]]]].
  - intros u. apply (unique_key_count ps_user_id _ u); [| exact N].
    intros a. apply Z.eqb_eq.
  - intros r I. rewrite Forall_forall in F. apply F. exact I.
  - intros uid f d c next_payday out Hu Hd Hc Hi (r & Ir & Kr).
    unfold out, setup_post. rewrite logged_in_session by exact Hu.
    unfold current_user_id. fold next_payday. rewrite Hd, Hc.
    cbv beta iota. rewrite (bind_int_ok c Hi).
    cbn [o_db pay_schedules set_pay_schedules].
    apply upsert_schedule_replace; [exact N |].
    apply existsb_exists. exists r. split; [exact Ir |].
    apply Z.eqb_eq. exact Kr.
  - intros s f E. unfold setup_post.
    destruct (require_login s) as [[] msgs]; [| reflexivity].
    destruct (current_user_id s) as [uid |]; [| reflexivity].
    destruct (parse_ymd _) as [d | e]; [discriminate | reflexivity].
  - intros uid f d c Hu Hd Hc Hi.
    unfold setup_post. rewrite logged_in_session by exact Hu.
    unfold current_user_id. rewrite Hd, Hc.
    cbv beta iota. rewrite (bind_int_overflow c Hi). reflexivity.
  - intros s f E. unfold setup_post.
    destruct (require_login s) as [[] msgs]; [| reflexivity].
    destruct (current_user_id s) as [uid |]; [| reflexivity].
    destruct (parse_ymd _) as [d | e]; [| reflexivity].
    destruct (cents_from_money_str _) as [l | e]; [discriminate | reflexivity].
Qed.

Lemma setup_post_upsert_witness :
  let f1 := [("next_payday", "2024-01-15"); ("typical_net_pay", "1000.00")] in
  let f2 := [("next_payday", "2024-01-29"); ("typical_net_pay", "1100")] in
  schedules_ok empty_db
  /\ pay_schedules
       (o_db (setup_post (run_posts setup_post empty_db [(Some 1, f1)])
                (Some 1) f2))
     = [mkschedule 1 "biweekly" "2024-01-29" 110000].
Proof.
  cbv zeta.
  assert (U : schedules_ok empty_db) by (split; constructor).
  split; [exact U |].
  destruct (setup_post_upsert empty_db
              [(Some 1, [("next_payday", "2024-01-15");
                         ("typical_net_pay", "1000.00")])] U)
    as (_ & _ & H & _).
  exact (H 1 [("next_payday", "2024-01-29"); ("typical_net_pay", "1100")]
           (mkdate 2024 1 29) 110000 ltac:(lia) eq_refl eq_refl eq_refl
           (ex_intro _ (mkschedule 1 "biweekly" "2024-01-15" 100000)
              (conj (or_introl eq_refl) eq_refl))).
Defined.

(** A repeated setup POST with the net pay 92233720368547758.08: the
    next payday parses and the text converts to 2^63 cents, one more
    than SQLite can store; the statement raises [OverflowError] and the
    row keeps the next payday and the net pay it had. *)
Lemma setup_post_overflow :
  let f1 := [("next_payday", "2024-01-15"); ("typical_net_pay", "1000.00")] in
  let f2 := [("next_payday", "2024-01-29");
             ("typical_net_pay", "92233720368547758.08")] in
  let db := run_posts setup_post empty_db [(Some 1, f1)] in
  let out := setup_post db (Some 1) f2 in
  pay_schedules db = [mkschedule 1 "biweekly" "2024-01-15" 100000]
  /\ parse_ymd (PyStr.strip (form_get f2 "next_payday" ""))
     = Ok (mkdate 2024 1 29)
  /\ cents_from_money_str (PyStr.strip (form_get f2 "typical_net_pay" ""))
     = Ok 9223372036854775808
  /\ o_response out = Raise OverflowError
  /\ pay_schedules (o_db out) = [mkschedule 1 "biweekly" "2024-01-15" 100000]
  /\ pay_schedules (o_db out)
     <> [mkschedule 1 "biweekly" "2024-01-29" 9223372036854775808].
Proof.
  cbv zeta. repeat split; try (vm_compute; reflexivity).
  intros H. vm_compute in H. discriminate H.
Qed.

(** ** More on money strings *)

Lemma lstrip_spaces (s : string) :
  PyStr.all_chars PyStr.is_space s = true -> PyStr.lstrip s = "".
Proof.
  induction s as [| c s IH]; [reflexivity |]. cbn.
  intros H. apply andb_prop in H. destruct H as [-> Hs]. apply IH. exact Hs.
Qed.

(** X3.  A text of whitespace only, the empty text included, is the
    amount 0. *)
Theorem cents_from_blank (x : string) :
  PyStr.all_chars PyStr.is_space x = true -> cents_from_money_str x = Ok 0.
Proof.
  intros H. unfold cents_from_money_str, PyStr.strip.
  rewrite lstrip_spaces by exact H. reflexivity.
Qed.

Lemma cents_from_blank_witness :
  PyStr.all_chars PyStr.is_space "   " = true
  /\ cents_from_money_str "   " = Ok 0.
Proof. split; [reflexivity | apply (cents_from_blank "   "); reflexivity]. Defined.



Lemma split_once_no_dot (a b : string) :
  PyStr.all_chars not_dot a = true ->
  PyStr.split_once "." (a ++ String "." b) = (a, b).
Proof.
  induction a as [| c a IH]; intros H; [reflexivity |].
  cbn [PyStr.all_chars] in H. apply andb_prop in H. destruct H as [Hc Ha].
  cbn [append PyStr.split_once]. unfold not_dot in Hc.
  destruct (Ascii.eqb c "."); [discriminate |].
  rewrite (IH Ha). reflexivity.
Qed.

Lemma no_dot_contains (a : string) :
  PyStr.all_chars not_dot a = true -> PyStr.contains "." a = false.
Proof.
  induction a as [| c a IH]; intros H; [reflexivity |].
  cbn [PyStr.all_chars] in H. apply andb_prop in H. destruct H as [Hc Ha].
  cbn [PyStr.contains]. unfold not_dot in Hc.
  destruct (Ascii.eqb c "."); [discriminate |]. apply IH. exact Ha.
Qed.

Lemma digits_not_dot (s : string) :
  PyStr.all_chars PyStr.is_digit s = true -> PyStr.all_chars not_dot s = true.
Proof.
  apply all_chars_weaken. intros c H. unfold not_dot.
  destruct (is_digit_plain c H) as (_ & -> & _). reflexivity.
Qed.

Lemma int_two_digits (a b : Z) :
  0 <= a <= 9 -> 0 <= b <= 9 ->
  PyStr.int (String (PyStr.digit_char a) (String (PyStr.digit_char b) ""))
  = Ok (10 * a + b).
Proof.
  intros Ha Hb. rewrite int_of_digits.
  - cbn [PyStr.int_digits]. rewrite !digit_val_char by assumption.
    f_equal; lia.
  - cbn [PyStr.all_chars]. rewrite !is_digit_char by assumption. reflexivity.
Qed.

Lemma take_two (a b : ascii) (r : string) :
  PyStr.take 2 (String a (String b r)) = String a (String b "").
Proof. unfold PyStr.take. cbn. destruct r; reflexivity. Qed.

(** X1.  An amount with two or more decimals is cut after the second:
    whatever follows it, digits or not, is dropped, not rounded. *)
Theorem cents_truncates (n a b : Z) (rest : string) :
  0 <= n -> 0 <= a <= 9 -> 0 <= b <= 9 ->
  PyStr.all_chars PyStr.plain rest = true ->
  cents_from_money_str
    (PyStr.of_nonneg n
     ++ String "." (String (PyStr.digit_char a)
                      (String (PyStr.digit_char b) rest)))%string
  = Ok (100 * n + 10 * a + b).
Proof.
  intros Hn Ha Hb Hr. unfold cents_from_money_str.
  pose proof (of_nonneg_all_digits n) as D.
  assert (P : PyStr.all_chars PyStr.plain
                (PyStr.of_nonneg n
                 ++ String "." (String (PyStr.digit_char a)
                                  (String (PyStr.digit_char b) rest)))%string
              = true).
  { rewrite all_chars_app. cbn [PyStr.all_chars]. rewrite (digits_plain _ D), Hr.
    destruct (is_digit_plain _ (is_digit_char a Ha)) as [Sa _].
    destruct (is_digit_plain _ (is_digit_char b Hb)) as [Sb _].
    unfold PyStr.plain. rewrite Sa, Sb. reflexivity. }
  rewrite (strip_plain _ P).
  rewrite is_empty_app by apply of_nonneg_nonempty.
  rewrite contains_dot_app, split_once_dot by exact D.
  cbn [append]. rewrite take_two.
  rewrite int_of_nonneg by exact Hn. cbn [bind].
  rewrite int_two_digits by assumption. cbn [bind]. f_equal. lia.
Qed.

Lemma cents_truncates_witness :
  cents_from_money_str "12.3456" = Ok 1234
  /\ cents_from_money_str "12.34abc" = Ok 1234.
Proof.
  split.
  - apply (cents_truncates 12 3 4 "56"); try lia. reflexivity.
  - apply (cents_truncates 12 3 4 "abc"); try lia. reflexivity.
Defined.

(** X2.  A whole amount, and an amount with one decimal: the missing
    decimals count as zeros. *)
Theorem cents_short_fraction (n a : Z) :
  0 <= n -> 0 <= a <= 9 ->
  cents_from_money_str (PyStr.of_nonneg n) = Ok (100 * n)
  /\ cents_from_money_str (PyStr.of_nonneg n ++ ".")%string = Ok (100 * n)
  /\ cents_from_money_str
       (PyStr.of_nonneg n ++ String "." (String (PyStr.digit_char a) ""))%string
     = Ok (100 * n + 10 * a).
Proof.
  intros Hn Ha. pose proof (of_nonneg_all_digits n) as D.
  destruct (is_digit_plain _ (is_digit_char a Ha)) as [Sa _].
  split; [| split]; unfold cents_from_money_str.
  - rewrite (strip_plain _ (digits_plain _ D)), of_nonneg_nonempty.
    rewrite (no_dot_contains _ (digits_not_dot _ D)).
    rewrite int_of_nonneg by exact Hn. cbn [bind].
    change (PyStr.int "00") with (@Ok Z 0). cbn [bind]. f_equal; lia.
  - assert (P : PyStr.all_chars PyStr.plain (PyStr.of_nonneg n ++ ".")%string
                = true).
    { rewrite all_chars_app, (digits_plain _ D). reflexivity. }
    rewrite (strip_plain _ P).
    rewrite is_empty_app by apply of_nonneg_nonempty.
    rewrite contains_dot_app, split_once_dot by exact D.
    rewrite int_of_nonneg by exact Hn. cbn [bind].
    change (PyStr.int (PyStr.take 2 ("" ++ "00")%string)) with (@Ok Z 0).
    cbn [bind]. f_equal; lia.
  - assert (P : PyStr.all_chars PyStr.plain
                  (PyStr.of_nonneg n
                   ++ String "." (String (PyStr.digit_char a) ""))%string
                = true).
    { rewrite all_chars_app. cbn [PyStr.all_chars].
      rewrite (digits_plain _ D). unfold PyStr.plain. rewrite Sa. reflexivity. }
    rewrite (strip_plain _ P).
    rewrite is_empty_app by apply of_nonneg_nonempty.
    rewrite contains_dot_app, split_once_dot by exact D.
    cbn [append]. rewrite take_two.
    rewrite int_of_nonneg by exact Hn. cbn [bind].
    change "0"%char with (PyStr.digit_char 0).
    rewrite int_two_digits by lia. cbn [bind]. f_equal. lia.
Qed.

Lemma cents_short_fraction_witness :
  cents_from_money_str "12" = Ok 1200
  /\ cents_from_money_str "12." = Ok 1200
  /\ cents_from_money_str "12.5" = Ok 1250.
Proof. apply (cents_short_fraction 12 5); lia. Defined.

(** X4.  A negative amount does not survive the round trip unless it is
    a whole number of dollars: the sign is read with the dollars only, so
    that the cents are added where they should be subtracted. *)
Theorem money_round_trip_negative (c : Z) :
  c < 0 ->
  cents_from_money_str (money_from_cents c) = Ok (c + 2 * ((- c) mod 100))
  /\ (cents_from_money_str (money_from_cents c) = Ok c <-> c mod 100 = 0).
Proof.
  intros H.
  assert (E : cents_from_money_str (money_from_cents c)
              = Ok (c + 2 * ((- c) mod 100))).
  { unfold money_from_cents.
    destruct (Z.ltb_spec c 0) as [_ | L]; [| lia].
    rewrite Z.abs_neq by lia. cbn [append].
    assert (Q : 0 <= - c / 100) by (apply Z.div_pos; lia).
    pose proof (Z.mod_pos_bound (- c) 100 ltac:(lia)) as R.
    unfold PyStr.of_int.
    destruct (Z.ltb_spec (- c / 100) 0) as [L | _]; [lia |].
    destruct (zero_pad_2_cents ((- c) mod 100) R) as (D2 & T2 & I2).
    pose proof (of_nonneg_all_digits (- c / 100)) as D1.
    set (dollars := PyStr.of_nonneg (- c / 100)) in *.
    set (cents := PyStr.zero_pad 2 ((- c) mod 100)) in *.
    unfold cents_from_money_str.
    assert (P : PyStr.all_chars PyStr.plain
                  (String "-" (dollars ++ String "." cents)) = true).
    { cbn [PyStr.all_chars]. rewrite all_chars_app. cbn [PyStr.all_chars].
      rewrite (digits_plain _ D1), (digits_plain _ D2). reflexivity. }
    rewrite (strip_plain _ P). cbn [PyStr.is_empty PyStr.contains].
    change (String "-" (dollars ++ String "." cents))
      with ((String "-" dollars) ++ String "." cents)%string.
    rewrite contains_dot_app, orb_true_r.
    rewrite split_once_no_dot
      by (cbn [PyStr.all_chars]; rewrite (digits_not_dot _ D1); reflexivity).
    rewrite T2.
    assert (I1 : PyStr.int (String "-" dollars) = Ok (- (- c / 100))).
    { unfold PyStr.int.
      rewrite int_strip_plain
        by (cbn [PyStr.all_chars]; rewrite (digits_plain _ D1); reflexivity).
      unfold dollars. rewrite int_digits_of_nonneg by exact Q. reflexivity. }
    rewrite I1. cbn [bind]. rewrite I2. cbn [bind]. f_equal.
    clear. Z.div_mod_to_equations. lia. }
  split; [exact E |]. rewrite E. split.
  - intros X. assert (X' : c + 2 * ((- c) mod 100) = c) by congruence.
    revert X'. Z.div_mod_to_equations. lia.
  - intros X. f_equal. revert X. Z.div_mod_to_equations. lia.
Qed.

Lemma money_round_trip_negative_witness :
  money_from_cents (-150) = "-1.50"
  /\ cents_from_money_str (money_from_cents (-150)) = Ok (-50).
Proof.
  split; [reflexivity |].
  exact (proj1 (money_round_trip_negative (-150) ltac:(lia))).
Defined.

(** ** More on dates *)

(** X5.  From the year 1000 on, a date written by [ymd] is read back by
    [parse_ymd] as the same date. *)
Theorem ymd_round_trip (d : date) :
  valid d = true -> 1000 <= year d -> parse_ymd (ymd d) = Ok d.
Proof. apply parse_ymd_ymd. Qed.

Lemma ymd_round_trip_witness :
  parse_ymd (ymd (mkdate 2024 2 29)) = Ok (mkdate 2024 2 29).
Proof.
  apply (ymd_round_trip (mkdate 2024 2 29)); [reflexivity | cbn; lia].
Defined.

(** X6.  From the year 1000 on, the texts of two dates compare, byte by
    byte, as the dates do: the window of a query on [ymd] texts is the
    window of the dates. *)
Theorem ymd_order (a b : date) :
  valid a = true -> valid b = true -> 1000 <= year a -> 1000 <= year b ->
  PyStr.leb (ymd a) (ymd b) = leb a b
  /\ (PyStr.leb (ymd a) (ymd b) = true <-> toordinal a <= toordinal b).
Proof.
  intros Va Vb Ya Yb. rewrite ymd_leb by assumption.
  split; [reflexivity |]. unfold leb.
  rewrite (ltb_toordinal b a Vb Va), negb_true_iff, Z.ltb_ge. reflexivity.
Qed.

Lemma ymd_order_witness :
  PyStr.leb (ymd (mkdate 2023 12 31)) (ymd (mkdate 2024 1 1)) = true.
Proof.
  destruct (ymd_order (mkdate 2023 12 31) (mkdate 2024 1 1)
              eq_refl eq_refl ltac:(cbn; lia) ltac:(cbn; lia)) as [E _].
  rewrite E. reflexivity.
Defined.

(** A text that [parse_ymd] accepts is a date of the calendar. *)
Lemma parse_ymd_valid (s : string) (d : date) :
  parse_ymd s = Ok d -> valid d = true.
Proof. apply strptime_ymd_valid. Qed.

(** ** More on the dashboard *)

Lemma replace_day_below (d : date) (k : Z) :
  k < 1 -> replace_day d k = Raise ValueError.
Proof.
  intros H. unfold replace_day, make, valid. cbn [year month day].
  destruct (Z.leb_spec 1 k) as [L | _]; [lia |].
  rewrite andb_false_r. reflexivity.
Qed.

Lemma projected_due_date_needs_day (today due : date) (d : Z) :
  valid today = true -> projected_due_date today d = Ok due -> 1 <= d.
Proof.
  intros V P. destruct (Z.le_gt_cases 1 d) as [L | L]; [exact L | exfalso].
  pose proof (valid_inv today V) as (Y & M & Dy).
  pose proof (days_in_month_bounds (year today) (month today) M) as DIM.
  unfold projected_due_date in P.
  destruct (first_of_next_month today) as [fnm | e] eqn:F; [| discriminate].
  cbn [bind] in P.
  destruct (sub_days fnm 1) as [l | e]; [| discriminate]. cbn [bind] in P.
  rewrite replace_day_below in P by lia. discriminate.
Qed.

(** X7.  Whenever the loop of the dashboard projects a date for a bill,
    that date is not before today and at most 30 days after it. *)
Theorem projected_due_date_ahead (today due : date) (d : Z) :
  valid today = true ->
  projected_due_date today d = Ok due ->
  valid due = true /\ 0 <= diff_days due today <= 30.
Proof.
  intros V P.
  pose proof (projected_due_date_needs_day today due d V P) as D.
  destruct (ltb (spec_due_date today d) (mkdate 9999 12 1)) eqn:B.
  2:{ rewrite (projected_due_date_overflow today d V D B) in P. discriminate. }
  destruct (projected_due_date_spec today d V D B) as [E W].
  rewrite E in P. injection P as <-. split; [exact W |].
  pose proof (valid_inv today V) as (Y & M & Dy).
  pose proof (days_in_month_bounds (year today) (month today) M) as DIM.
  unfold diff_days, toordinal, spec_due_date, clamped_day in *.
  destruct (Z.leb_spec (day today)
              (Z.min d (days_in_month (year today) (month today)))) as [L | L].
  - cbn [year month day]. unfold ymd2ord. lia.
  - pose proof (toordinal_following_month (year today) (month today) M) as T.
    destruct (following_month (year today) (month today)) as [y' m'] eqn:F.
    cbn [fst snd year month day] in *.
    apply valid_inv in W. cbn [year month day] in W.
    unfold ymd2ord in *. lia.
Qed.

Lemma projected_due_date_ahead_witness :
  projected_due_date (mkdate 2024 1 31) 30 = Ok (mkdate 2024 2 29)
  /\ 0 <= diff_days (mkdate 2024 2 29) (mkdate 2024 1 31) <= 30.
Proof.
  split; [reflexivity |].
  exact (proj2 (projected_due_date_ahead (mkdate 2024 1 31) (mkdate 2024 2 29)
                  30 eq_refl eq_refl)).
Defined.

(** X8.  The daily limit never overspends: the limit times the days left
    is at most the remaining amount, and misses it by less than one cent
    per day left. *)
Theorem daily_limit_within_remaining (today : date) (db : database)
    (user_id : Z) (schedule : schedule_row) (g : figures) :
  dashboard_figures today db user_id schedule = Ok g ->
  f_daily_limit g * f_days_left g <= f_remaining g
  /\ f_remaining g < f_daily_limit g * f_days_left g + f_days_left g.
Proof.
  intros G. apply dashboard_figures_inv in G.
  destruct G as (ps & pe & np & due & total & top & _ & _ & _ & ->).
  cbn [f_daily_limit f_days_left f_remaining].
  pose proof (days_left_pos pe today) as P.
  set (r := ps_typical_net_pay_cents schedule + _ - _).
  pose proof (Z.div_mod r (days_left pe today) ltac:(lia)).
  pose proof (Z.mod_pos_bound r (days_left pe today) ltac:(lia)).
  nia.
Qed.

Lemma in_insert_by_due_day (b x : bill_row) (l : list bill_row) :
  In x (insert_by_due_day b l) <-> x = b \/ In x l.
Proof.
  induction l as [| y l IH]; cbn [insert_by_due_day].
  - cbn. intuition.
  - destruct (rb_due_day b <=? rb_due_day y); cbn [In]; [intuition |].
    rewrite IH. intuition.
Qed.

Lemma in_active_bills (db : database) (user_id : Z) (x : bill_row) :
  In x (active_bills db user_id)
  <-> In x (recurring_bills db) /\ rb_user_id x = user_id /\ rb_active x = 1.
Proof.
  unfold active_bills.
  set (p := fun b => (rb_user_id b =? user_id) && (rb_active b =? 1)).
  assert (G : forall l, In x (fold_right insert_by_due_day [] l) <-> In x l).
  { induction l as [| y l IH]; cbn [fold_right]; [reflexivity |].
    rewrite in_insert_by_due_day, IH. cbn. intuition. }
  rewrite G, filter_In. unfold p. rewrite andb_true_iff, !Z.eqb_eq. reflexivity.
Qed.

(** X9.  The dashboard is rendered, with the pay period that ends the
    day before the next payday, the remaining amount of the totals query
    and the bills that fall due before the next payday, whenever the
    next payday is on or after 0001-01-15, today is before 1 November
    9999, the active bills of the user have a due day of at least 1, as
    the rows of the bills route have, and the absolute amounts of the
    user's transactions add up to less than 2^63, so that no [SUM]
    overflows. *)
Theorem dashboard_figures_ok (today : date) (db : database) (user_id : Z)
    (schedule : schedule_row) (next_payday : date) :
  valid today = true ->
  ltb today (mkdate 9999 11 1) = true ->
  parse_ymd (ps_next_payday schedule) = Ok next_payday ->
  ltb next_payday (mkdate 1 1 15) = false ->
  (forall b, In b (recurring_bills db) -> rb_user_id b = user_id ->
             rb_active b = 1 -> 1 <= rb_due_day b) ->
  amounts_fit db user_id ->
  exists g,
    dashboard_figures today db user_id schedule = Ok g
    /\ f_next_payday g = next_payday
    /\ tomorrow (f_end g) = next_payday
    /\ f_remaining g
       = ps_typical_net_pay_cents schedule
         + window_total db user_id "income" (ymd (f_start g)) (ymd (f_end g))
         - window_total db user_id "expense" (ymd (f_start g)) (ymd (f_end g))
    /\ f_due_before g
       = map (fun b => due_entry_of b (spec_due_date today (rb_due_day b)))
           (filter (listed today next_payday) (active_bills db user_id))
    /\ f_total_due_cents g
       = fold_right Z.add 0
           (map rb_amount_cents
              (filter (listed today next_payday) (active_bills db user_id))).
Proof.
  intros V B P L Hb Fit.
  pose proof (strptime_ymd_valid _ _ P) as Vn.
  rewrite (ltb_toordinal next_payday (mkdate 1 1 15) Vn eq_refl) in L.
  apply Z.ltb_ge in L. change (toordinal (mkdate 1 1 15)) with 15 in L.
  pose proof (toordinal_bounds _ Vn) as Bn.
  unfold dashboard_figures, current_pay_period. rewrite P. cbn [bind].
  unfold sub_days.
  destruct (add_days_ok next_payday (- (1))) as (pe & -> & Ve & Te); [lia |].
  cbn [bind].
  destruct (add_days_ok pe (- (13))) as (ps & -> & Vs & Ts); [lia |].
  cbn [bind].
  destruct (grouped_sums_fits t_kind _
              (period_rows_fit db user_id (ymd ps) (ymd pe) Fit))
    as [totals T].
  rewrite T. cbn [bind].
  rewrite bills_loop_spec; try assumption.
  2:{ apply Forall_forall. intros b I. apply in_active_bills in I.
      destruct I as (I & U & A). apply Hb; assumption. }
  cbn [bind fst snd].
  rewrite floordiv_ok by (pose proof (days_left_pos pe today); lia).
  cbn [bind].
  destruct (grouped_sums_fits t_category _
              (spent_rows_fit db user_id (ymd ps) (ymd pe) Fit))
    as [by_category C].
  rewrite C. cbn [bind]. eexists. split; [reflexivity |].
  cbn [f_next_payday f_start f_end f_remaining f_due_before
         f_total_due_cents app].
  split; [reflexivity |].
  split; [apply tomorrow_of_predecessor; try assumption; lia |].
  split.
  { rewrite !(grouped_sums_get _ _ _ _ T).
    change (ps_typical_net_pay_cents schedule
            + kind_total "income" (period_rows db user_id (ymd ps) (ymd pe))
            - kind_total "expense" (period_rows db user_id (ymd ps) (ymd pe))
            = ps_typical_net_pay_cents schedule
              + window_total db user_id "income" (ymd ps) (ymd pe)
              - window_total db user_id "expense" (ymd ps) (ymd pe)).
    rewrite !kind_total_window. reflexivity. }
  split; [reflexivity | lia].
Qed.

Lemma dashboard_figures_ok_witness :
  let db :=
    o_db (bills_post empty_db (Some 1)
            [("name", "Phone"); ("amount", "45"); ("due_day", "12")]) in
  exists g,
    dashboard_figures (mkdate 2024 1 10) db 1
      (mkschedule 1 "biweekly" "2024-01-15" 100000) = Ok g
    /\ f_next_payday g = mkdate 2024 1 15.
Proof.
  cbv zeta.
  destruct (dashboard_figures_ok (mkdate 2024 1 10)
              (o_db (bills_post empty_db (Some 1)
                       [("name", "Phone"); ("amount", "45"); ("due_day", "12")]))
              1 (mkschedule 1 "biweekly" "2024-01-15" 100000)
              (mkdate 2024 1 15) eq_refl eq_refl eq_refl eq_refl)
    as (g & G & N & _).
  - intros b [<- | []] _ _. cbn. lia.
  - unfold amounts_fit. cbn. unfold INT64_MAX. lia.
  - exists g. split; [exact G | exact N].
Defined.

Lemma filter_user_first {A : Type} (u p : A -> bool) (l : list A) :
  filter (fun x => u x && p x) l = filter (fun x => u x && p x) (filter u l).
Proof.
  induction l as [| x l IH]; [reflexivity |]. cbn [filter].
  destruct (u x) eqn:E; cbn [andb filter]; [rewrite E; cbn [andb] |];
    rewrite <- IH; reflexivity.
Qed.

(** X10.  The dashboard of a user reads the rows of that user only: two
    databases with the same transactions and bills of the user give the
    same figures, whatever the rows of the other users are. *)
Theorem dashboard_figures_isolation (today : date) (db1 db2 : database)
    (user_id : Z) (schedule : schedule_row) :
  filter (fun t => t_user_id t =? user_id) (transactions db1)
  = filter (fun t => t_user_id t =? user_id) (transactions db2) ->
  filter (fun b => rb_user_id b =? user_id) (recurring_bills db1)
  = filter (fun b => rb_user_id b =? user_id) (recurring_bills db2) ->
  dashboard_figures today db1 user_id schedule
  = dashboard_figures today db2 user_id schedule.
Proof.
  intros T B.
  assert (R : forall lo hi,
             period_rows db1 user_id lo hi = period_rows db2 user_id lo hi).
  { intros lo hi. rewrite !period_rows_user, T. reflexivity. }
  assert (S : forall lo hi,
             spent_rows db1 user_id lo hi = spent_rows db2 user_id lo hi).
  { intros lo hi. rewrite !spent_rows_user, T. reflexivity. }
  assert (A : active_bills db1 user_id = active_bills db2 user_id).
  { unfold active_bills.
    rewrite (filter_user_first _ _ (recurring_bills db1)).
    rewrite (filter_user_first _ _ (recurring_bills db2)).
    rewrite B. reflexivity. }
  unfold dashboard_figures.
  destruct (current_pay_period schedule) as [[[ps pe] np] | e];
    [| reflexivity].
  cbn [bind]. rewrite A, R, S. reflexivity.
Qed.

Lemma dashboard_figures_isolation_witness :
  let other := mktransaction 1 2 "expense" 5000 "Rent" "2024-01-05" "" in
  dashboard_figures (mkdate 2024 1 10)
    (set_transactions empty_db [other]) 1
    (mkschedule 1 "biweekly" "2024-01-15" 100000)
  = dashboard_figures (mkdate 2024 1 10) empty_db 1
      (mkschedule 1 "biweekly" "2024-01-15" 100000).
Proof.
  cbv zeta.
  apply (dashboard_figures_isolation (mkdate 2024 1 10)
           (set_transactions empty_db
              [mktransaction 1 2 "expense" 5000 "Rent" "2024-01-05" ""])
           empty_db 1); reflexivity.
Defined.

(** X11.  When every transaction of the user was stored with a
    zero-padded date from the year 1000 on, and the pay period starts in
    such a year, the remaining amount of the dashboard is the typical net
    pay plus the income and minus the expenses whose date lies in the pay
    period, both ends included. *)
Theorem dashboard_remaining_by_date (today : date) (db : database)
    (user_id : Z) (schedule : schedule_row) (g : figures) :
  dashboard_figures today db user_id schedule = Ok g ->
  1000 <= year (f_start g) ->
  (forall t, In t (transactions db) -> t_user_id t = user_id -> canonical t) ->
  f_remaining g
  = spec_remaining db user_id (ps_typical_net_pay_cents schedule)
      (f_start g) (f_end g).
Proof. apply dashboard_remaining_canonical. Qed.

Lemma dashboard_remaining_by_date_witness :
  let db :=
    set_transactions empty_db
      [mktransaction 1 1 "expense" 1000 "Coffee" "2024-01-05" "";
       mktransaction 2 1 "income" 2500 "Other" "2024-01-14" "";
       mktransaction 3 1 "expense" 700 "Coffee" "2024-01-15" ""] in
  exists g,
    dashboard_figures (mkdate 2024 1 10) db 1
      (mkschedule 1 "biweekly" "2024-01-15" 100000) = Ok g
    /\ f_remaining g
       = spec_remaining db 1 100000 (mkdate 2024 1 1) (mkdate 2024 1 14)
    /\ f_remaining g = 101500.
Proof.
  cbv zeta. eexists. split; [vm_compute; reflexivity |].
  split; [| reflexivity].
  apply (dashboard_remaining_by_date (mkdate 2024 1 10)
           (set_transactions empty_db
              [mktransaction 1 1 "expense" 1000 "Coffee" "2024-01-05" "";
               mktransaction 2 1 "income" 2500 "Other" "2024-01-14" "";
               mktransaction 3 1 "expense" 700 "Coffee" "2024-01-15" ""])
           1 (mkschedule 1 "biweekly" "2024-01-15" 100000)).
  - vm_compute. reflexivity.
  - cbn. lia.
  - intros t [<- | [<- | [<- | []]]] _.
    + exists (mkdate 2024 1 5). repeat split; [cbn; lia].
    + exists (mkdate 2024 1 14). repeat split; [cbn; lia].
    + exists (mkdate 2024 1 15). repeat split; [cbn; lia].
Defined.

Lemma daily_limit_within_remaining_witness :
  exists g,
    dashboard_figures (mkdate 2024 1 10) empty_db 1
      (mkschedule 1 "biweekly" "2024-01-15" 100003) = Ok g
    /\ f_daily_limit g = 20000 /\ f_days_left g = 5
    /\ f_daily_limit g * f_days_left g <= f_remaining g.
Proof.
  eexists. split; [vm_compute; reflexivity |].
  split; [reflexivity |]. split; [reflexivity |].
  exact (proj1 (daily_limit_within_remaining (mkdate 2024 1 10) empty_db 1
                  (mkschedule 1 "biweekly" "2024-01-15" 100003) _ eq_refl)).
Defined.

(** ** More on the POST handlers *)

Lemma next_id_bound (ids : list Z) :
  1 <= next_id ids /\ forall i, In i ids -> i < next_id ids.
Proof.
  unfold next_id. induction ids as [| x ids [IH1 IH2]]; cbn [fold_right].
  - split; [lia | intros i []].
  - split; [lia |]. intros i [<- | I]; [lia |]. specialize (IH2 i I). lia.
Qed.

Lemma next_id_fresh (ids : list Z) : ~ In (next_id ids) ids.
Proof.
  intros I. destruct (next_id_bound ids) as [_ B]. specialize (B _ I). lia.
Qed.

Lemma NoDup_snoc {A : Type} (l : list A) (x : A) :
  NoDup l -> ~ In x l -> NoDup (l ++ [x]).
Proof.
  intros N I. apply NoDup_app; [exact N | repeat constructor; intros [] |].
  intros y Hy [<- | []]. exact (I Hy).
Qed.

Lemma is_ok_true {A : Type} (r : result A) :
  is_ok r = true <-> exists a, r = Ok a.
Proof.
  destruct r as [a | e]; cbn; split; try discriminate; eauto.
  intros [a H]. discriminate.
Qed.

(** X12.  A POST to the transactions form by a logged-in user appends a
    row if and only if the kind is one of the two kinds, the date is a
    text that [parse_ymd] accepts and the amount is a money string of an
    amount that SQLite can store; the row holds the fields as they were
    submitted, the date as its text; otherwise the database is
    unchanged. *)
Theorem transaction_new_post_spec (today : date) (db : database) (f : form)
    (uid : Z) :
  let kind := form_get f "kind" "expense" in
  let amount := form_get f "amount" "0" in
  let category := PyStr.strip (form_get f "category" "Other") in
  let occurred_on := PyStr.strip (form_get f "occurred_on" (ymd today)) in
  let note := PyStr.strip (form_get f "note" "") in
  let out := transaction_new_post today db (Some uid) f in
  let accepted :=
    (kind = "income" \/ kind = "expense")
    /\ is_ok (parse_ymd occurred_on) = true
    /\ exists amount_cents,
         cents_from_money_str amount = Ok amount_cents
         /\ int64 amount_cents = true in
  uid <> 0 ->
  ((exists row, transactions (o_db out) = transactions db ++ [row])
   <-> accepted)
  /\ (forall row,
        transactions (o_db out) = transactions db ++ [row] ->
        row = mktransaction (next_id (map t_id (transactions db))) uid kind
                (t_amount_cents row) category occurred_on note
        /\ cents_from_money_str amount = Ok (t_amount_cents row)
        /\ int64 (t_amount_cents row) = true)
  /\ (~ accepted -> o_db out = db).
Proof.
  intros kind amount category occurred_on note out accepted Hu.
  unfold out, transaction_new_post. rewrite logged_in_session by exact Hu.
  unfold current_user_id. fold kind amount category occurred_on note.
  assert (Fail : forall o : outcome,
             o_db o = db -> ~ accepted ->
             ((exists row, transactions (o_db o) = transactions db ++ [row])
              <-> accepted)
             /\ (forall row,
                   transactions (o_db o) = transactions db ++ [row] ->
                   row = mktransaction (next_id (map t_id (transactions db)))
                           uid kind (t_amount_cents row) category occurred_on
                           note
                   /\ cents_from_money_str amount = Ok (t_amount_cents row)
                   /\ int64 (t_amount_cents row) = true)
             /\ (~ accepted -> o_db o = db)).
  { intros o E N. rewrite E. split; [| split].
    - split; [| intros X; contradiction].
      intros [row R]. exfalso. symmetry in R. exact (app_one_neq _ _ R).
    - intros row R. exfalso. symmetry in R. exact (app_one_neq _ _ R).
    - intros _. reflexivity. }
  destruct ((kind =? "income")%string || (kind =? "expense")%string) eqn:K;
    cbn [negb].
  2:{ apply Fail; [reflexivity |]. intros [[X | X] _]; rewrite X in K;
        discriminate. }
  destruct (parse_ymd occurred_on) as [d | e] eqn:P.
  2:{ apply Fail; [reflexivity |]. intros (_ & X & _). discriminate. }
  destruct (cents_from_money_str amount) as [a | e] eqn:C.
  2:{ apply Fail; [reflexivity |]. intros (_ & _ & a & X & _). discriminate. }
  unfold bind_int. destruct (int64 a) eqn:I.
  2:{ apply Fail; [reflexivity |]. intros (_ & _ & a' & X & I').
      injection X as <-. congruence. }
  assert (Acc : accepted).
  { split; [| split; [reflexivity |]].
    - apply orb_prop in K. destruct K as [K | K]; apply String.eqb_eq in K;
        [left | right]; exact K.
    - exists a. split; [reflexivity | exact I]. }
  cbn [o_db transactions set_transactions]. unfold insert_transaction.
  split; [| split].
  - split; [intros _; exact Acc |]. intros _. eexists. reflexivity.
  - intros row R. apply app_inv_head in R. injection R as <-.
    cbn [t_amount_cents]. split; [reflexivity | split; [reflexivity | exact I]].
  - intros N. contradiction.
Qed.

Lemma transaction_new_post_spec_witness :
  let f := [("kind", "income"); ("amount", "12.50"); ("category", " Other ");
            ("occurred_on", "2024-01-05")] in
  transactions (o_db (transaction_new_post (mkdate 2024 1 10) empty_db
                        (Some 1) f))
  = [mktransaction 1 1 "income" 1250 "Other" "2024-01-05" ""].
Proof.
  cbv zeta.
  destruct (transaction_new_post_spec (mkdate 2024 1 10) empty_db
              [("kind", "income"); ("amount", "12.50");
               ("category", " Other "); ("occurred_on", "2024-01-05")]
              1 ltac:(lia)) as (I & P & _).
  destruct (proj2 I) as [row R].
  { split; [left; reflexivity | split; [reflexivity |]].
    exists 1250. split; reflexivity. }
  rewrite R. destruct (P row R) as (E & C & _).
  change (Ok 1250 = Ok (t_amount_cents row)) in C.
  assert (A : t_amount_cents row = 1250) by congruence.
  rewrite E, A. reflexivity.
Defined.

Lemma transaction_new_post_insert (today : date) (db : database) (f : form)
    (uid : Z) (d : date) (a : Z) :
  uid <> 0 ->
  (form_get f "kind" "expense" = "income"
   \/ form_get f "kind" "expense" = "expense") ->
  parse_ymd (PyStr.strip (form_get f "occurred_on" (ymd today))) = Ok d ->
  cents_from_money_str (form_get f "amount" "0") = Ok a ->
  int64 a = true ->
  transactions (o_db (transaction_new_post today db (Some uid) f))
  = transactions db
    ++ [mktransaction (next_id (map t_id (transactions db))) uid
          (form_get f "kind" "expense") a
          (PyStr.strip (form_get f "category" "Other"))
          (PyStr.strip (form_get f "occurred_on" (ymd today)))
          (PyStr.strip (form_get f "note" ""))].
Proof.
  intros Hu Hk Hd Ha Hi. unfold transaction_new_post.
  rewrite logged_in_session by exact Hu. unfold current_user_id.
  rewrite Hd, Ha. cbv beta iota. rewrite (bind_int_ok a Hi).
  destruct Hk as [-> | ->]; reflexivity.
Qed.

(** X13.  A transaction submitted without a date, with one of the two
    kinds and an amount that SQLite can store, is dated today. *)
Theorem transaction_new_default_date (today : date) (db : database) (f : form)
    (uid : Z) :
  uid <> 0 -> valid today = true -> 1000 <= year today ->
  (forall default, form_get f "occurred_on" default = default) ->
  (form_get f "kind" "expense" = "income"
   \/ form_get f "kind" "expense" = "expense") ->
  (exists amount_cents,
      cents_from_money_str (form_get f "amount" "0") = Ok amount_cents
      /\ int64 amount_cents = true) ->
  exists row,
    transactions (o_db (transaction_new_post today db (Some uid) f))
    = transactions db ++ [row]
    /\ parse_ymd (t_occurred_on row) = Ok today.
Proof.
  intros Hu V Y Hd Hk Ha.
  assert (S : PyStr.strip (form_get f "occurred_on" (ymd today)) = ymd today).
  { rewrite Hd. apply strip_plain. rewrite ymd_text by assumption.
    unfold four_digits, two_digits. cbn [append PyStr.all_chars].
    pose proof (valid_inv today V) as (Y' & M & D).
    pose proof (days_in_month_bounds (year today) (month today) M).
    assert (Pl : forall v, 0 <= v <= 9 ->
                           PyStr.plain (PyStr.digit_char v) = true).
    { intros v Hv. unfold PyStr.plain.
      destruct (is_digit_plain _ (is_digit_char v Hv)) as [-> _].
      reflexivity. }
    rewrite !Pl
      by (try (apply Z.mod_pos_bound; lia); Z.div_mod_to_equations; lia).
    reflexivity. }
  destruct Ha as (a & Ha & Hi).
  eexists. split.
  - apply (transaction_new_post_insert today db f uid today a);
      try assumption.
    rewrite S. apply parse_ymd_ymd; assumption.
  - cbn [t_occurred_on]. rewrite S. apply parse_ymd_ymd; assumption.
Qed.

Lemma transaction_new_default_date_witness :
  exists row,
    transactions (o_db (transaction_new_post (mkdate 2024 1 10) empty_db
                          (Some 1) [("amount", "3")]))
    = transactions empty_db ++ [row]
    /\ parse_ymd (t_occurred_on row) = Ok (mkdate 2024 1 10).
Proof.
  apply (transaction_new_default_date (mkdate 2024 1 10) empty_db
           [("amount", "3")] 1).
  - lia.
  - reflexivity.
  - cbn. lia.
  - intros default. reflexivity.
  - right. reflexivity.
  - exists 300. split; reflexivity.
Defined.

Lemma transaction_new_post_ok (today : date) (db : database) (s : session)
    (f : form) :
  transactions_ok db ->
  transactions_ok (o_db (transaction_new_post today db s f)).
Proof.
  intros U. unfold transaction_new_post.
  destruct (require_login s) as [[] msgs]; [| exact U].
  destruct (current_user_id s) as [uid |]; [| exact U].
  destruct ((_ =? "income")%string || (_ =? "expense")%string) eqn:K;
    cbn [negb]; [| exact U].
  destruct (parse_ymd _) as [d | e] eqn:P; [| exact U].
  destruct (cents_from_money_str _) as [a | e]; [| exact U].
  destruct (bind_int a) as [stored | e]; [| exact U].
  cbn [o_db]. unfold transactions_ok, insert_transaction.
  cbn [transactions set_transactions]. destruct U as [F N]. split.
  - apply Forall_app. split; [exact F |].
    apply Forall_cons; [| apply Forall_nil]. split.
    + cbn [t_kind]. apply orb_prop in K.
      destruct K as [K | K]; apply String.eqb_eq in K; [left | right]; exact K.
    + cbn [t_occurred_on]. rewrite P. reflexivity.
  - rewrite map_app. cbn [map t_id]. apply NoDup_snoc; [exact N |].
    apply next_id_fresh.
Qed.

(** X14.  After any sequence of POSTs to the transactions form, every
    stored transaction is an income or an expense with a date that
    [parse_ymd] accepts, and no two transactions share an id. *)
Theorem transactions_invariant (db : database) (reqs : list dated_post) :
  transactions_ok db ->
  transactions_ok (run_transaction_posts db reqs).
Proof.
  unfold run_transaction_posts. revert db.
  induction reqs as [| r reqs IH]; intros db U; [exact U |].
  cbn [fold_left]. apply IH. apply transaction_new_post_ok. exact U.
Qed.

Lemma transactions_invariant_witness :
  transactions_ok
    (run_transaction_posts empty_db
       [(mkdate 2024 1 10, (Some 1, [("amount", "3")]));
        (mkdate 2024 1 11, (Some 2, [("kind", "income"); ("amount", "x")]));
        (mkdate 2024 1 12, (None, [("amount", "4")]))]).
Proof.
  apply transactions_invariant. split; constructor.
Defined.

Lemma bills_post_ok (db : database) (s : session) (f : form) :
  bills_ok db -> bills_ok (o_db (bills_post db s f)).
Proof.
  intros U. unfold bills_post.
  destruct (require_login s) as [[] msgs]; [| exact U].
  destruct (current_user_id s) as [uid |]; [| exact U].
  destruct (PyStr.is_empty _) eqn:En; [exact U |].
  destruct (PyStr.int _) as [k | e]; [| exact U].
  destruct ((k <? 1) || (k >? 31)) eqn:Er; [exact U |].
  destruct (cents_from_money_str _) as [a | e]; [| exact U].
  destruct (bind_int a) as [stored | e]; [| exact U].
  cbn [o_db]. unfold bills_ok, insert_bill.
  cbn [recurring_bills set_recurring_bills]. destruct U as [F N]. split.
  - apply Forall_app. split; [exact F |].
    apply Forall_cons; [| apply Forall_nil]. split; [| split; [split |]].
    + cbn [rb_name]. exact En.
    + cbn [rb_due_day]. apply orb_false_elim in Er. destruct Er as [E1 E2].
      apply Z.ltb_ge in E1. exact E1.
    + cbn [rb_due_day]. apply orb_false_elim in Er. destruct Er as [E1 E2].
      destruct (Z.gtb_spec k 31); [discriminate | lia].
    + reflexivity.
  - rewrite map_app. cbn [map rb_id]. apply NoDup_snoc; [exact N |].
    apply next_id_fresh.
Qed.

(** X15.  After any sequence of POSTs to the bills route, every stored
    bill has a name that is not empty, a due day from 1 to 31 and is
    active, and no two bills share an id. *)
Theorem bills_invariant (db : database) (reqs : list post) :
  bills_ok db -> bills_ok (run_posts bills_post db reqs).
Proof.
  apply (run_posts_invariant bills_ok). intros ? ? ?. apply bills_post_ok.
Qed.

Lemma bills_invariant_witness :
  bills_ok
    (run_posts bills_post empty_db
       [(Some 1, [("name", "Phone"); ("amount", "45"); ("due_day", "12")]);
        (Some 1, [("name", "Rent"); ("amount", "900"); ("due_day", "32")])]).
Proof. apply bills_invariant. split; constructor. Defined.

(** X16.  What [setup] stores is what [get_schedule] finds: after a POST
    of a logged-in user with a next payday that parses and a net pay that
    converts to an amount SQLite can store, the schedule of the user has
    the submitted next payday and net pay, and the schedules of the
    other users are as before. *)
Theorem setup_then_get_schedule (db : database) (f : form) (uid : Z)
    (d : date) (net_pay_cents : Z) :
  let next_payday := PyStr.strip (form_get f "next_payday" "") in
  let db' := o_db (setup_post db (Some uid) f) in
  uid <> 0 ->
  parse_ymd next_payday = Ok d ->
  cents_from_money_str (PyStr.strip (form_get f "typical_net_pay" ""))
  = Ok net_pay_cents ->
  int64 net_pay_cents = true ->
  (exists r,
      get_schedule db' uid = Some r
      /\ ps_user_id r = uid /\ ps_next_payday r = next_payday
      /\ ps_typical_net_pay_cents r = net_pay_cents
      /\ current_pay_period r
         = (period_end <- sub_days d 1 ;;
            period_start <- sub_days period_end 13 ;;
            Ok (period_start, period_end, d)))
  /\ (forall u, u <> uid -> get_schedule db' u = get_schedule db u).
Proof.
  intros next_payday db' Hu Hd Hc Hi.
  unfold db', setup_post. rewrite logged_in_session by exact Hu.
  unfold current_user_id. fold next_payday. rewrite Hd, Hc.
  cbv beta iota. rewrite (bind_int_ok _ Hi).
  cbn [o_db]. unfold get_schedule. cbn [pay_schedules set_pay_schedules].
  generalize (pay_schedules db) as rows. intros rows. split.
  - induction rows as [| r rows IH]; cbn [upsert_schedule find].
    + cbn [ps_user_id]. rewrite Z.eqb_refl. eexists. split; [reflexivity |].
      cbn [ps_user_id ps_next_payday ps_typical_net_pay_cents].
      repeat split. unfold current_pay_period. cbn [ps_next_payday].
      rewrite Hd. reflexivity.
    + destruct (Z.eqb_spec (ps_user_id r) uid) as [E | E]; cbn [find].
      * cbn [ps_user_id]. rewrite E, Z.eqb_refl. eexists.
        split; [reflexivity |].
        cbn [ps_user_id ps_next_payday ps_typical_net_pay_cents].
        repeat split. unfold current_pay_period. cbn [ps_next_payday].
        rewrite Hd. reflexivity.
      * destruct (Z.eqb_spec (ps_user_id r) uid); [contradiction | exact IH].
  - intros u Nu. induction rows as [| r rows IH]; cbn [upsert_schedule find].
    + cbn [ps_user_id]. destruct (Z.eqb_spec uid u); [congruence | reflexivity].
    + destruct (Z.eqb_spec (ps_user_id r) uid) as [E | E]; cbn [find].
      * cbn [ps_user_id]. rewrite E.
        destruct (Z.eqb_spec uid u); [congruence | reflexivity].
      * rewrite IH. reflexivity.
Qed.

Lemma setup_then_get_schedule_witness :
  let f := [("next_payday", " 2024-01-15 "); ("typical_net_pay", "1000")] in
  exists r,
    get_schedule (o_db (setup_post empty_db (Some 7) f)) 7 = Some r
    /\ ps_next_payday r = "2024-01-15"
    /\ ps_typical_net_pay_cents r = 100000.
Proof.
  cbv zeta.
  destruct (setup_then_get_schedule empty_db
              [("next_payday", " 2024-01-15 "); ("typical_net_pay", "1000")]
              7 (mkdate 2024 1 15) 100000 ltac:(lia) eq_refl eq_refl eq_refl)
    as [(r & G & _ & N & T & _) _].
  exists r. split; [exact G |]. split; [exact N | exact T].
Defined.

(** X17.  What [budgets] stores is what a lookup finds: after a POST of a
    logged-in user with a limit that converts to an amount SQLite can
    store, the first row of the user and category has that limit, and
    the rows of every other user and category are found as before. *)
Theorem budgets_then_lookup (db : database) (f : form) (uid limit_cents : Z) :
  let category := PyStr.strip (form_get f "category" "Other") in
  let db' := o_db (budgets_post db (Some uid) f) in
  uid <> 0 ->
  cents_from_money_str (PyStr.strip (form_get f "limit" "0")) = Ok limit_cents ->
  int64 limit_cents = true ->
  find (budget_has_key uid category) (budgets db')
  = Some (mkbudget uid category limit_cents)
  /\ (forall u c, (u, c) <> (uid, category) ->
        find (budget_has_key u c) (budgets db')
        = find (budget_has_key u c) (budgets db)).
Proof.
  intros category db' Hu Hl Hi.
  unfold db', budgets_post. rewrite logged_in_session by exact Hu.
  unfold current_user_id. fold category. rewrite Hl.
  cbv beta iota. rewrite (bind_int_ok _ Hi).
  cbn [o_db budgets set_budgets].
  generalize (budgets db) as rows. intros rows.
  assert (Self : budget_has_key uid category (mkbudget uid category limit_cents)
                 = true) by (apply budget_has_key_iff; reflexivity).
  split.
  - induction rows as [| r rows IH]; cbn [upsert_budget find].
    + rewrite Self. reflexivity.
    + change ((b_user_id r =? uid) && (b_category r =? category)%string)
        with (budget_has_key uid category r).
      destruct (budget_has_key uid category r) eqn:K; cbn [find].
      * pose proof (proj1 (budget_has_key_iff _ _ _) K) as Kr.
        injection Kr as -> ->. rewrite Self. reflexivity.
      * rewrite K. exact IH.
  - intros u c N.
    assert (Other : forall b, budget_key b = (uid, category) ->
                              budget_has_key u c b = false).
    { intros b Kb. destruct (budget_has_key u c b) eqn:X; [| reflexivity].
      apply budget_has_key_iff in X. congruence. }
    induction rows as [| r rows IH]; cbn [upsert_budget find].
    + rewrite Other by reflexivity. reflexivity.
    + change ((b_user_id r =? uid) && (b_category r =? category)%string)
        with (budget_has_key uid category r).
      destruct (budget_has_key uid category r) eqn:K; cbn [find].
      * pose proof (proj1 (budget_has_key_iff _ _ _) K) as Kr.
        rewrite (Other r Kr).
        rewrite (Other (mkbudget (b_user_id r) (b_category r) limit_cents) Kr).
        reflexivity.
      * rewrite IH. reflexivity.
Qed.

Lemma budgets_then_lookup_witness :
  find (budget_has_key 3 "Rent")
    (budgets (o_db (budgets_post empty_db (Some 3)
                      [("category", "Rent "); ("limit", "500.5")])))
  = Some (mkbudget 3 "Rent" 50050).
Proof.
  exact (proj1 (budgets_then_lookup empty_db
                  [("category", "Rent "); ("limit", "500.5")] 3 50050
                  ltac:(lia) eq_refl eq_refl)).
Defined.

(** X18.  Without a user in the session (no [user_id], or the id 0),
    every route behind [require_login] flashes the login message and
    redirects to the login page, and leaves the database and the session
    as they were. *)
Theorem login_required (today : date) (db : database) (s : session) (f : form) :
  logged_in s = false ->
  let denied :=
    mkoutcome db s ["Please log in first."] (Ok (Redirect "login")) in
  setup_post db s f = denied
  /\ transaction_new_post today db s f = denied
  /\ budgets_post db s f = denied
  /\ bills_post db s f = denied
  /\ dashboard today db s = denied
  /\ transactions_page db s f = ToLogin ["Please log in first."]
  /\ bills_page db s = ToLogin ["Please log in first."]
  /\ (forall pct_raw_of,
        budgets_page pct_raw_of db s
        = Answer (ToLogin ["Please log in first."])).
Proof.
  intros H denied.
  unfold setup_post, transaction_new_post, budgets_post, bills_post, dashboard,
    transactions_page, bills_page, budgets_page, require_login.
  rewrite H. repeat split; reflexivity.
Qed.

Lemma login_required_witness :
  bills_post empty_db (Some 0)
    [("name", "Phone"); ("amount", "45"); ("due_day", "12")]
  = mkoutcome empty_db (Some 0) ["Please log in first."]
      (Ok (Redirect "login")).
Proof.
  destruct (login_required (mkdate 2024 1 1) empty_db (Some 0)
              [("name", "Phone"); ("amount", "45"); ("due_day", "12")]
              eq_refl) as (_ & _ & _ & H & _).
  exact H.
Defined.

(** X19.  Each POST handler writes to its own table only, and none of
    them changes the session: [setup] leaves users, transactions, budgets
    and bills as they were, and so on for the transactions form, the
    budgets and the bills. *)
Theorem post_handlers_frame (today : date) (db : database) (s : session)
    (f : form) :
  (let db' := o_db (setup_post db s f) in
   users db' = users db /\ transactions db' = transactions db
   /\ budgets db' = budgets db /\ recurring_bills db' = recurring_bills db
   /\ o_session (setup_post db s f) = s)
  /\ (let db' := o_db (transaction_new_post today db s f) in
      users db' = users db /\ pay_schedules db' = pay_schedules db
      /\ budgets db' = budgets db /\ recurring_bills db' = recurring_bills db
      /\ o_session (transaction_new_post today db s f) = s)
  /\ (let db' := o_db (budgets_post db s f) in
      users db' = users db /\ pay_schedules db' = pay_schedules db
      /\ transactions db' = transactions db
      /\ recurring_bills db' = recurring_bills db
      /\ o_session (budgets_post db s f) = s)
  /\ (let db' := o_db (bills_post db s f) in
      users db' = users db /\ pay_schedules db' = pay_schedules db
      /\ transactions db' = transactions db /\ budgets db' = budgets db
      /\ o_session (bills_post db s f) = s).
Proof.
  cbv zeta.
  unfold setup_post, transaction_new_post, budgets_post, bills_post.
  destruct (require_login s) as [[] msgs];
    [| repeat split; reflexivity].
  destruct (current_user_id s) as [uid |]; [| repeat split; reflexivity].
  split; [| split; [| split]].
  - destruct (parse_ymd _); [| repeat split; reflexivity].
    destruct (cents_from_money_str _) as [amt | e];
      [| repeat split; reflexivity].
    destruct (bind_int amt); repeat split; reflexivity.
  - destruct (negb _); [repeat split; reflexivity |].
    destruct (parse_ymd _); [| repeat split; reflexivity].
    destruct (cents_from_money_str _) as [amt | e];
      [| repeat split; reflexivity].
    destruct (bind_int amt); repeat split; reflexivity.
  - destruct (cents_from_money_str _) as [amt | e];
      [| repeat split; reflexivity].
    destruct (bind_int amt); repeat split; reflexivity.
  - destruct (PyStr.is_empty _); [repeat split; reflexivity |].
    destruct (PyStr.int _) as [k | e]; [| repeat split; reflexivity].
    destruct ((k <? 1) || (k >? 31)); [repeat split; reflexivity |].
    destruct (cents_from_money_str _) as [amt | e];
      [| repeat split; reflexivity].
    destruct (bind_int amt); repeat split; reflexivity.
Qed.

(** ** Signup and login *)

Lemma NoDup_key_eq {A K : Type} (key : A -> K) (l : list A) (a b : A) :
  NoDup (map key l) -> In a l -> In b l -> key a = key b -> a = b.
Proof.
  induction l as [| x l IH]; intros N Ia Ib E; [destruct Ia |].
  cbn [map] in N. inversion N as [| k ks Nin N' Eq]; subst.
  destruct Ia as [-> | Ia], Ib as [-> | Ib].
  - reflexivity.
  - exfalso. apply Nin. rewrite E. apply in_map. exact Ib.
  - exfalso. apply Nin. rewrite <- E. apply in_map. exact Ia.
  - apply IH; assumption.
Qed.

Lemma signup_post_ok (generate_password_hash : string -> string)
    (db : database) (s : session) (f : form) :
  users_ok db -> users_ok (o_db (signup_post generate_password_hash db s f)).
Proof.
  intros U. unfold signup_post.
  destruct (PyStr.is_empty _ || PyStr.is_empty _); [exact U |].
  unfold insert_user.
  destruct (existsb _ (users db)) eqn:X; [exact U |].
  cbn [o_db]. unfold users_ok. cbn [users set_users].
  destruct U as (Ne & Ni & F).
  rewrite !map_app. cbn [map u_email u_id].
  split; [| split].
  - apply NoDup_snoc; [exact Ne |]. intros I.
    apply in_map_iff in I. destruct I as (u & E & I).
    assert (Y : existsb (fun u => (u_email u =? PyStr.lower
                  (PyStr.strip (form_get f "email" "")))%string) (users db)
                = true).
    { apply existsb_exists. exists u. split; [exact I |].
      apply String.eqb_eq. exact E. }
    congruence.
  - apply NoDup_snoc; [exact Ni |]. apply next_id_fresh.
  - apply Forall_app. split; [exact F |].
    apply Forall_cons; [| apply Forall_nil]. cbn [u_id].
    apply next_id_bound.
Qed.

(** X20.  After any sequence of signups, no two users have the same
    email or the same id and every id is at least 1; and the session that
    a signup opens is one that [require_login] accepts. *)
Theorem signup_invariant (generate_password_hash : string -> string)
    (db : database) (reqs : list post) :
  users_ok db ->
  let db' := run_posts (signup_post generate_password_hash) db reqs in
  users_ok db'
  /\ (forall (s : session) (f : form),
        let out := signup_post generate_password_hash db' s f in
        o_response out = Ok (Redirect "setup") ->
        logged_in (o_session out) = true
        /\ exists u, In u (users (o_db out))
                     /\ o_session out = Some (u_id u)
                     /\ u_email u
                        = PyStr.lower (PyStr.strip (form_get f "email" ""))).
Proof.
  intros U db'.
  assert (U' : users_ok db').
  { apply (run_posts_invariant users_ok); [| exact U].
    intros ? ? ?. apply signup_post_ok. }
  split; [exact U' |]. intros s f out R.
  unfold out, signup_post in *.
  destruct (PyStr.is_empty _ || PyStr.is_empty _); [discriminate R |].
  unfold insert_user in *.
  destruct (existsb _ (users db')) eqn:X; [discriminate R |].
  cbn [o_session o_db] in *. unfold select_user_id. cbn [users set_users].
  rewrite find_app_fresh; [| exact X | reflexivity].
  cbn [option_map u_id]. split.
  - unfold logged_in, current_user_id.
    destruct (next_id_bound (map u_id (users db'))) as [B _].
    destruct (Z.eqb_spec (next_id (map u_id (users db'))) 0); [lia | reflexivity].
  - eexists. split; [apply in_or_app; right; left; reflexivity |].
    split; reflexivity.
Qed.

Lemma signup_invariant_witness :
  let hash := fun pw : string => ("h:" ++ pw)%string in
  users_ok
    (run_posts (signup_post hash) empty_db
       [(None, [("email", "a@x.org"); ("password", "p")]);
        (None, [("email", " A@X.org"); ("password", "q")]);
        (None, [("email", "b@x.org"); ("password", "r")])]).
Proof.
  cbv zeta.
  apply (signup_invariant (fun pw : string => ("h:" ++ pw)%string) empty_db).
  split; [constructor | split; constructor].
Defined.

Section LoginProperties.

Variable generate_password_hash : string -> string.
Variable check_password_hash : string -> string -> bool.

(** A hash checks against the password it was made from. *)
Hypothesis check_generate :
  forall pw, check_password_hash (generate_password_hash pw) pw = true.

(** X21.  A user who has signed up can log in: a login with the same
    password and an email that is the same once trimmed and lower-cased
    opens the session of the new user and changes nothing in the
    database. *)
Theorem login_after_signup (db : database) (s s' : session) (f f' : form) :
  let email := PyStr.lower (PyStr.strip (form_get f "email" "")) in
  let pw := form_get f "password" "" in
  let out := signup_post generate_password_hash db s f in
  let out' := login_post check_password_hash (o_db out) s' f' in
  PyStr.is_empty email = false -> PyStr.is_empty pw = false ->
  ~ (exists u, In u (users db) /\ u_email u = email) ->
  PyStr.lower (PyStr.strip (form_get f' "email" "")) = email ->
  form_get f' "password" "" = pw ->
  o_session out' = o_session out
  /\ logged_in (o_session out') = true
  /\ o_db out' = o_db out
  /\ o_flashed out' = [].
Proof.
  intros email pw out out' He Hp Hn He' Hp'.
  assert (X : existsb (fun u => (u_email u =? email)%string) (users db)
              = false).
  { destruct (existsb _ (users db)) eqn:X; [| reflexivity].
    exfalso. apply Hn. apply existsb_email. exact X. }
  assert (Edb : o_db out
                = set_users db
                    (users db
                     ++ [mkuser (next_id (map u_id (users db))) email
                           (generate_password_hash pw)])
                /\ o_session out = Some (next_id (map u_id (users db)))).
  { unfold out, signup_post. fold email pw. rewrite He, Hp. cbn [orb].
    unfold insert_user. rewrite X. cbn [o_db o_session].
    split; [reflexivity |]. unfold select_user_id. cbn [users set_users].
    rewrite find_app_fresh; [reflexivity | exact X | reflexivity]. }
  destruct Edb as [Edb Es].
  unfold out', login_post. rewrite He', Hp', Edb. cbn [users set_users].
  rewrite find_app_fresh; [| exact X | reflexivity].
  cbn [u_password_hash u_id]. rewrite check_generate.
  assert (L : logged_in (Some (next_id (map u_id (users db)))) = true).
  { unfold logged_in, current_user_id.
    destruct (next_id_bound (map u_id (users db))) as [B _].
    destruct (Z.eqb_spec (next_id (map u_id (users db))) 0); [lia | reflexivity]. }
  rewrite Es.
  destruct (get_schedule _ _); cbn [o_session o_db o_flashed];
    repeat split; try reflexivity; exact L.
Qed.

(** X22.  A login never changes the database.  On a users table without
    two rows for one email it opens the session of a user exactly when
    that user has the submitted email, trimmed and lower-cased, and a
    hash that checks against the submitted password; it then redirects
    to the dashboard when the user has a schedule and to the setup
    otherwise.  In every other case the session is unchanged and
    [Invalid login.] is flashed. *)
Theorem login_post_spec (db : database) (s : session) (f : form) :
  let email := PyStr.lower (PyStr.strip (form_get f "email" "")) in
  let pw := form_get f "password" "" in
  let out := login_post check_password_hash db s f in
  let matches (u : user_row) :=
    In u (users db) /\ u_email u = email
    /\ check_password_hash (u_password_hash u) pw = true in
  NoDup (map u_email (users db)) ->
  o_db out = db
  /\ (forall u, matches u ->
        o_session out = Some (u_id u)
        /\ o_flashed out = []
        /\ o_response out
           = Ok (Redirect (match get_schedule db (u_id u) with
                           | Some _ => "dashboard"
                           | None => "setup"
                           end)))
  /\ (~ (exists u, matches u) ->
      o_session out = s
      /\ o_flashed out = ["Invalid login."]
      /\ o_response out = Ok (Page "auth_login.html")).
Proof.
  intros email pw out matches N.
  unfold out, login_post. fold email pw.
  destruct (find (fun u => (u_email u =? email)%string) (users db))
    as [user |] eqn:F.
  - apply find_some in F. destruct F as [Iu Eu]. apply String.eqb_eq in Eu.
    destruct (check_password_hash (u_password_hash user) pw) eqn:C.
    + split; [destruct (get_schedule db (u_id user)); reflexivity |]. split.
      * intros u (I & E & _).
        assert (u = user).
        { apply (NoDup_key_eq u_email (users db)); try assumption. congruence. }
        subst u. destruct (get_schedule db (u_id user));
          repeat split; reflexivity.
      * intros X. exfalso. apply X. exists user. repeat split; assumption.
    + split; [reflexivity |]. split.
      * intros u (I & E & C').
        assert (u = user).
        { apply (NoDup_key_eq u_email (users db)); try assumption. congruence. }
        subst u. congruence.
      * intros _. repeat split; reflexivity.
  - split; [reflexivity |]. split.
    + intros u (I & E & _). exfalso.
      pose proof (find_none _ _ F u I) as X. cbv beta in X.
      apply String.eqb_neq in X. contradiction.
    + intros _. repeat split; reflexivity.
Qed.

End LoginProperties.

Lemma login_after_signup_witness :
  let hash := fun pw : string => ("h:" ++ pw)%string in
  let check := fun h pw : string => String.eqb h ("h:" ++ pw)%string in
  let out :=
    signup_post hash empty_db None
      [("email", "Ada@Example.com"); ("password", "secret")] in
  o_session
    (login_post check (o_db out) None
       [("email", " ada@example.COM "); ("password", "secret")])
  = Some 1.
Proof.
  cbv zeta.
  destruct (login_after_signup
              (fun pw : string => ("h:" ++ pw)%string)
              (fun h pw : string => String.eqb h ("h:" ++ pw)%string)
              (fun pw => String.eqb_refl _)
              empty_db None None
              [("email", "Ada@Example.com"); ("password", "secret")]
              [("email", " ada@example.COM "); ("password", "secret")]
              eq_refl eq_refl) as (E & _).
  - intros (u & [] & _).
  - reflexivity.
  - reflexivity.
  - rewrite E. reflexivity.
Defined.

Lemma login_post_spec_witness :
  let check := fun h pw : string => String.eqb h ("h:" ++ pw)%string in
  let db := set_users empty_db [mkuser 1 "ada@example.com" "h:secret"] in
  o_session (login_post check db None
               [("email", "ADA@example.com"); ("password", "secret")])
  = Some 1
  /\ o_session (login_post check db None
                  [("email", "ada@example.com"); ("password", "guess")])
     = None.
Proof.
  cbv zeta. split.
  - destruct (login_post_spec
                (fun h pw : string => String.eqb h ("h:" ++ pw)%string)
                (set_users empty_db [mkuser 1 "ada@example.com" "h:secret"])
                None [("email", "ADA@example.com"); ("password", "secret")])
      as (_ & H & _).
    + repeat constructor. intros [].
    + apply (H (mkuser 1 "ada@example.com" "h:secret")).
      split; [left; reflexivity | split; reflexivity].
  - destruct (login_post_spec
                (fun h pw : string => String.eqb h ("h:" ++ pw)%string)
                (set_users empty_db [mkuser 1 "ada@example.com" "h:secret"])
                None [("email", "ada@example.com"); ("password", "guess")])
      as (_ & _ & H).
    + repeat constructor. intros [].
    + apply H. intros (u & [<- | []] & _ & C). discriminate C.
Defined.

(** ** The order of texts *)

Lemma N_of_ascii_inj (a b : ascii) : N_of_ascii a = N_of_ascii b -> a = b.
Proof.
  intros H. rewrite <- (ascii_N_embedding a), <- (ascii_N_embedding b), H.
  reflexivity.
Qed.

Lemma text_leb_refl (a : string) : PyStr.leb a a = true.
Proof.
  induction a as [| c a IH]; [reflexivity |]. cbn [PyStr.leb].
  rewrite N.ltb_irrefl. exact IH.
Qed.

Lemma text_leb_total (a b : string) :
  PyStr.leb a b = false -> PyStr.leb b a = true.
Proof.
  revert b. induction a as [| x a IH]; intros [| y b]; cbn [PyStr.leb];
    try discriminate; try reflexivity.
  destruct (N.ltb_spec (N_of_ascii x) (N_of_ascii y));
    destruct (N.ltb_spec (N_of_ascii y) (N_of_ascii x));
    try discriminate; try reflexivity; try lia.
  apply IH.
Qed.

Lemma text_leb_antisym (a b : string) :
  PyStr.leb a b = true -> PyStr.leb b a = true -> a = b.
Proof.
  revert b. induction a as [| x a IH]; intros [| y b]; cbn [PyStr.leb];
    try discriminate; try reflexivity.
  destruct (N.ltb_spec (N_of_ascii x) (N_of_ascii y));
    destruct (N.ltb_spec (N_of_ascii y) (N_of_ascii x));
    try discriminate; try lia.
  intros H1 H2. f_equal; [apply N_of_ascii_inj; lia | apply IH; assumption].
Qed.

Lemma text_leb_trans (a b c : string) :
  PyStr.leb a b = true -> PyStr.leb b c = true -> PyStr.leb a c = true.
Proof.
  revert b c. induction a as [| x a IH]; intros [| y b] [| z c];
    cbn [PyStr.leb]; try discriminate; try reflexivity.
  destruct (N.ltb_spec (N_of_ascii x) (N_of_ascii y));
    destruct (N.ltb_spec (N_of_ascii y) (N_of_ascii x));
    destruct (N.ltb_spec (N_of_ascii y) (N_of_ascii z));
    destruct (N.ltb_spec (N_of_ascii z) (N_of_ascii y));
    destruct (N.ltb_spec (N_of_ascii x) (N_of_ascii z));
    destruct (N.ltb_spec (N_of_ascii z) (N_of_ascii x));
    try discriminate; try reflexivity; try lia.
  apply IH.
Qed.

(** ** Sorting *)

Section Sorting.

Context {A : Type} (le : A -> A -> bool).

Lemma insert_sorted_perm (x : A) (l : list A) :
  Permutation (insert_sorted le x l) (x :: l).
Proof.
  induction l as [| y l IH]; cbn [insert_sorted]; [reflexivity |].
  destruct (le x y); [reflexivity |].
  rewrite IH. apply perm_swap.
Qed.

Lemma sort_by_perm (l : list A) : Permutation (sort_by le l) l.
Proof.
  induction l as [| x l IH]; cbn [sort_by fold_right]; [reflexivity |].
  fold (sort_by le l). rewrite insert_sorted_perm, IH. reflexivity.
Qed.

Hypothesis le_total : forall a b, le a b = false -> le b a = true.

Lemma insert_sorted_sorted (x : A) (l : list A) :
  Sorted (fun a b => le a b = true) l ->
  Sorted (fun a b => le a b = true) (insert_sorted le x l).
Proof.
  induction l as [| y l IH]; intros S; cbn [insert_sorted].
  - repeat constructor.
  - destruct (le x y) eqn:E.
    + constructor; [exact S |]. constructor. exact E.
    + inversion S as [| ? ? S' H]; subst. constructor; [apply IH; exact S' |].
      destruct l as [| z l]; cbn [insert_sorted].
      * constructor. apply le_total. exact E.
      * destruct (le x z); constructor.
        -- apply le_total. exact E.
        -- inversion H; subst. assumption.
Qed.

Lemma sort_by_sorted (l : list A) :
  Sorted (fun a b => le a b = true) (sort_by le l).
Proof.
  induction l as [| x l IH]; cbn [sort_by fold_right]; [constructor |].
  apply insert_sorted_sorted. exact IH.
Qed.

Hypothesis le_trans :
  forall a b c, le a b = true -> le b c = true -> le a c = true.

(** The first row of a sorted table is a least row. *)
Lemma sort_by_head (l r : list A) (x : A) :
  sort_by le l = x :: r ->
  In x l /\ forall y, In y l -> le x y = true.
Proof.
  intros E. pose proof (sort_by_perm l) as P. rewrite E in P.
  split; [apply (Permutation_in _ P); left; reflexivity |].
  intros y I. apply (Permutation_in _ (Permutation_sym P)) in I.
  pose proof (sort_by_sorted l) as S. rewrite E in S.
  apply Sorted_StronglySorted in S.
  - inversion S as [| ? ? _ F]; subst. destruct I as [<- | I].
    + pose proof (le_total x x) as T.
      destruct (le x x); [reflexivity | apply T; reflexivity].
    + rewrite Forall_forall in F. apply F. exact I.
  - intros a b c. apply le_trans.
Qed.

End Sorting.

Lemma Sorted_firstn {A : Type} (R : A -> A -> Prop) (n : nat) (l : list A) :
  Sorted R l -> Sorted R (firstn n l).
Proof.
  revert l. induction n as [| n IH]; intros [| x l] S; cbn [firstn];
    try constructor.
  - apply IH. inversion S; assumption.
  - inversion S as [| ? ? _ H]; subst.
    destruct l as [| y l]; destruct n; cbn [firstn]; constructor.
    inversion H; assumption.
Qed.

Lemma in_firstn {A : Type} (n : nat) (l : list A) (x : A) :
  In x (firstn n l) -> In x l.
Proof.
  revert l. induction n as [| n IH]; intros [| y l]; cbn [firstn In];
    try tauto.
  intros [E | I]; [left; exact E | right; apply IH; exact I].
Qed.

(** ** The pages that list rows *)

Lemma newest_first_total (a b : transaction_row) :
  newest_first a b = false -> newest_first b a = true.
Proof.
  unfold newest_first. intros H.
  apply orb_false_elim in H. destruct H as [H1 H2].
  apply negb_false_iff in H1.
  destruct (String.eqb_spec (t_occurred_on a) (t_occurred_on b)) as [E | E].
  - cbn [andb] in H2. apply Z.leb_gt in H2.
    rewrite E, String.eqb_refl. cbn [andb].
    apply orb_true_intro. right. apply Z.leb_le. lia.
  - apply orb_true_intro. left. apply negb_true_iff.
    destruct (PyStr.leb (t_occurred_on b) (t_occurred_on a)) eqn:L;
      [| reflexivity].
    exfalso. apply E. apply text_leb_antisym; assumption.
Qed.

(** X23.  The transactions page of a logged-in user lists at most 200
    rows; each of them is a stored transaction of that user that passes
    the filters of the query string; they come latest date text first
    and, for one text, larger id first; and when no more than 200 rows
    pass the filters, all of them are listed, each once.  A kind other
    than the two kinds is no filter. *)
Theorem transactions_page_spec (db : database) (uid : Z) (args : form) :
  let category := PyStr.strip (form_get args "category" "") in
  let kind := PyStr.strip (form_get args "kind" "") in
  let matching :=
    filter (transactions_filter uid kind category) (transactions db) in
  uid <> 0 ->
  exists rows,
    transactions_page db (Some uid) args = Listed rows
    /\ (List.length rows <= 200)%nat
    /\ (forall t, In t rows ->
          In t (transactions db) /\ t_user_id t = uid
          /\ (kind = "income" \/ kind = "expense" -> t_kind t = kind)
          /\ (category <> "" -> t_category t = category))
    /\ Sorted (fun a b => newest_first a b = true) rows
    /\ ((List.length matching <= 200)%nat -> Permutation rows matching)
    /\ (kind <> "income" -> kind <> "expense" ->
        matching = filter (transactions_filter uid "" category)
                     (transactions db)).
Proof.
  intros category kind matching Hu.
  unfold transactions_page. rewrite logged_in_session by exact Hu.
  unfold current_user_id. fold category kind matching.
  eexists. split; [reflexivity |].
  split; [apply firstn_le_length |].
  split; [| split; [| split]].
  - intros t I. apply in_firstn in I.
    apply (Permutation_in _ (sort_by_perm newest_first matching)) in I.
    unfold matching in I. apply filter_In in I. destruct I as [I F].
    unfold transactions_filter in F.
    apply andb_prop in F. destruct F as [F Fc].
    apply andb_prop in F. destruct F as [Fu Fk].
    apply Z.eqb_eq in Fu. split; [exact I |]. split; [exact Fu |]. split.
    + intros K.
      assert (X : (kind =? "income")%string || (kind =? "expense")%string
                  = true).
      { destruct K as [-> | ->]; reflexivity. }
      rewrite X in Fk. apply String.eqb_eq. exact Fk.
    + intros C. destruct category as [| c r]; [contradiction |].
      cbn [PyStr.is_empty] in Fc. apply String.eqb_eq. exact Fc.
  - apply Sorted_firstn. apply sort_by_sorted. exact newest_first_total.
  - intros L. rewrite firstn_all2.
    + apply sort_by_perm.
    + rewrite (Permutation_length (sort_by_perm newest_first matching)).
      exact L.
  - intros K1 K2. unfold matching. apply filter_ext. intros t.
    unfold transactions_filter.
    destruct (String.eqb_spec kind "income"); [contradiction |].
    destruct (String.eqb_spec kind "expense"); [contradiction |].
    reflexivity.
Qed.

Lemma transactions_page_spec_witness :
  let db :=
    set_transactions empty_db
      [mktransaction 1 1 "expense" 1000 "Coffee" "2024-01-05" "";
       mktransaction 2 2 "expense" 500 "Rent" "2024-01-09" "";
       mktransaction 3 1 "income" 2500 "Other" "2024-01-07" "";
       mktransaction 4 1 "expense" 300 "Coffee" "2024-01-07" ""] in
  transactions_page db (Some 1) []
  = Listed [mktransaction 4 1 "expense" 300 "Coffee" "2024-01-07" "";
            mktransaction 3 1 "income" 2500 "Other" "2024-01-07" "";
            mktransaction 1 1 "expense" 1000 "Coffee" "2024-01-05" ""].
Proof.
  cbv zeta.
  destruct (transactions_page_spec
              (set_transactions empty_db
                 [mktransaction 1 1 "expense" 1000 "Coffee" "2024-01-05" "";
                  mktransaction 2 2 "expense" 500 "Rent" "2024-01-09" "";
                  mktransaction 3 1 "income" 2500 "Other" "2024-01-07" "";
                  mktransaction 4 1 "expense" 300 "Coffee" "2024-01-07" ""])
              1 [] ltac:(lia)) as (rows & E & _).
  rewrite E. vm_compute in E. injection E as <-. reflexivity.
Defined.

Lemma by_due_day_name_total (a b : bill_row) :
  by_due_day_name a b = false -> by_due_day_name b a = true.
Proof.
  unfold by_due_day_name. intros H.
  apply orb_false_elim in H. destruct H as [H1 H2].
  apply Z.ltb_ge in H1.
  destruct (Z.eqb_spec (rb_due_day a) (rb_due_day b)) as [E | E].
  - cbn [andb] in H2. rewrite E, Z.eqb_refl, Z.ltb_irrefl. cbn [orb andb].
    apply text_leb_total. exact H2.
  - apply orb_true_intro. left. apply Z.ltb_lt. lia.
Qed.

(** X24.  The bills page of a logged-in user lists the active bills of
    that user, all of them and each once, by due day and, for one due
    day, by name. *)
Theorem bills_page_spec (db : database) (uid : Z) :
  uid <> 0 ->
  exists rows,
    bills_page db (Some uid) = Listed rows
    /\ Permutation rows
         (filter (fun b => (rb_user_id b =? uid) && (rb_active b =? 1))
            (recurring_bills db))
    /\ (forall b, In b rows <->
                  In b (recurring_bills db) /\ rb_user_id b = uid
                  /\ rb_active b = 1)
    /\ Sorted (fun a b => by_due_day_name a b = true) rows.
Proof.
  intros Hu. unfold bills_page. rewrite logged_in_session by exact Hu.
  unfold current_user_id. eexists. split; [reflexivity |].
  split; [apply sort_by_perm |]. split.
  - intros b. split.
    + intros I. apply (Permutation_in _ (sort_by_perm _ _)) in I.
      apply filter_In in I. destruct I as [I F].
      apply andb_prop in F. destruct F as [F1 F2].
      apply Z.eqb_eq in F1. apply Z.eqb_eq in F2. tauto.
    + intros (I & U & Ac).
      apply (Permutation_in _ (Permutation_sym (sort_by_perm _ _))).
      apply filter_In. split; [exact I |].
      rewrite U, Ac, !Z.eqb_refl. reflexivity.
  - apply sort_by_sorted. exact by_due_day_name_total.
Qed.

Lemma bills_page_spec_witness :
  let db :=
    run_posts bills_post empty_db
      [(Some 1, [("name", "Rent"); ("amount", "900"); ("due_day", "28")]);
       (Some 2, [("name", "Gym"); ("amount", "30"); ("due_day", "1")]);
       (Some 1, [("name", "Phone"); ("amount", "45"); ("due_day", "12")])] in
  bills_page db (Some 1)
  = Listed [mkbill 3 1 "Phone" 4500 12 1; mkbill 1 1 "Rent" 90000 28 1].
Proof.
  cbv zeta.
  destruct (bills_page_spec
              (run_posts bills_post empty_db
                 [(Some 1, [("name", "Rent"); ("amount", "900");
                            ("due_day", "28")]);
                  (Some 2, [("name", "Gym"); ("amount", "30");
                            ("due_day", "1")]);
                  (Some 1, [("name", "Phone"); ("amount", "45");
                            ("due_day", "12")])])
              1 ltac:(lia)) as (rows & E & _).
  rewrite E. vm_compute in E. injection E as <-. reflexivity.
Defined.

(** ** The budgets page *)

(** What the spending query finds for a category: the expenses of the
    user in the category whose date text lies in the window. *)
Lemma spent_rows_category (db : database) (user_id : Z) (lo hi cat : string) :
  fold_right Z.add 0
    (map t_amount_cents
       (filter (fun t => String.eqb (t_category t) cat)
          (spent_rows db user_id lo hi)))
  = window_spent db user_id lo hi cat.
Proof.
  unfold spent_rows, window_spent.
  induction (transactions db) as [| t l IH]; [reflexivity |].
  cbn [filter].
  destruct (t_user_id t =? user_id); cbn [andb]; [| exact IH].
  destruct (String.eqb (t_kind t) "expense"); cbn [andb]; [| exact IH].
  destruct (String.eqb (t_category t) cat) eqn:C; cbn [andb].
  - destruct (PyStr.leb lo (t_occurred_on t) && PyStr.leb (t_occurred_on t) hi);
      cbn [filter]; [rewrite C; cbn [map fold_right]; rewrite IH; reflexivity
                    | exact IH].
  - destruct (PyStr.leb lo (t_occurred_on t) && PyStr.leb (t_occurred_on t) hi);
      cbn [filter]; [rewrite C |]; exact IH.
Qed.

(** [spent_map], when the queries go through: the window is the pay
    period of the schedule, and the dictionary holds for every category
    what the user spent on it in the window. *)
Lemma page_spent_inv (db : database) (uid : Z) (spent_map : list (string * Z)) :
  page_spent db uid = Ok spent_map ->
  exists window,
    page_window db uid window
    /\ forall cat, spent_of spent_map cat = spent_in db uid window cat.
Proof.
  unfold page_spent, page_period, page_window. intros H.
  destruct (get_schedule db uid) as [schedule |].
  - destruct (current_pay_period schedule) as [[[ps pe] np] | e];
      [| discriminate H].
    cbn [bind fst snd] in H. exists (Some (ps, pe)). split.
    + exists ps, pe, np. split; reflexivity.
    + intros cat. unfold spent_of, spent_in.
      rewrite (grouped_sums_get _ _ _ cat H). apply spent_rows_category.
  - cbn [bind] in H. injection H as <-. exists None.
    split; [reflexivity |]. intros cat. reflexivity.
Qed.

(** The spending query goes through when the pay period does and the
    amounts of the user are within the range. *)
Lemma page_spent_fits (db : database) (uid : Z) :
  period_fine db uid -> amounts_fit db uid ->
  is_ok (page_spent db uid) = true.
Proof.
  unfold period_fine, page_spent, page_period. intros P F.
  destruct (get_schedule db uid) as [schedule |]; [| reflexivity].
  destruct (current_pay_period schedule) as [[[ps pe] np] | e];
    [| discriminate P].
  cbn [bind fst snd].
  destruct (grouped_sums_fits t_category _
              (spent_rows_fit db uid (ymd ps) (ymd pe) F)) as [g ->].
  reflexivity.
Qed.

Section BudgetsPageProperties.

Variable pct_raw_of : Z -> Z -> Z.

(** Once [pct_raw] is assigned the loop goes through. *)
Lemma items_loop_assigned (spent : list (string * Z))
    (rows : list budget_row) :
  forall (p : Z) (items : list budget_item),
  exists more,
    items_loop pct_raw_of spent rows (Some p) items = Some (items ++ more)
    /\ Forall2
         (fun b i => item_of pct_raw_of (spent_of spent (b_category b)) b i)
         rows more.
Proof.
  induction rows as [| b rows IH]; intros p items; cbn [items_loop].
  - exists []. rewrite app_nil_r. split; [reflexivity | constructor].
  - destruct (Z.gtb_spec (b_limit_cents b) 0) as [G | G].
    + match goal with
      | |- context [items_loop _ _ _ (Some ?q) ?acc] =>
          destruct (IH q acc) as (more & E & F)
      end.
      eexists. rewrite E, <- app_assoc. split; [reflexivity |].
      constructor; [| exact F].
      unfold item_of. cbn [bi_category bi_limit bi_spent bi_remaining bi_pct
                             bi_status].
      repeat split; try reflexivity; lia.
    + match goal with
      | |- context [items_loop _ _ _ (Some p) ?acc] =>
          destruct (IH p acc) as (more & E & F)
      end.
      eexists. rewrite E, <- app_assoc. split; [reflexivity |].
      constructor; [| exact F].
      unfold item_of. cbn [bi_category bi_limit bi_spent bi_remaining bi_pct
                             bi_status].
      repeat split; try reflexivity; lia.
Qed.

(** The loop fails exactly on a first row without a positive limit. *)
Lemma items_loop_unbound (spent : list (string * Z))
    (rows : list budget_row) :
  items_loop pct_raw_of spent rows None [] = None
  <-> exists b rest, rows = b :: rest /\ b_limit_cents b <= 0.
Proof.
  destruct rows as [| b rest]; cbn [items_loop].
  - split; [discriminate | intros (b & r & E & _); discriminate].
  - destruct (Z.gtb_spec (b_limit_cents b) 0) as [G | G].
    + match goal with
      | |- context [items_loop _ _ _ (Some ?q) ?acc] =>
          destruct (items_loop_assigned spent rest q acc) as (more & E & _)
      end.
      rewrite E. split; [discriminate |].
      intros (b' & r & X & L). injection X as <- <-. lia.
    + split; [| reflexivity]. intros _. exists b, rest.
      split; [reflexivity | lia].
Qed.

(** The first of the budget rows is the budget of the user that comes
    first by category. *)
Lemma budget_rows_head (db : database) (uid : Z) :
  budgets_unique db ->
  (exists b rest, budget_rows db uid = b :: rest /\ b_limit_cents b <= 0)
  <-> exists b, first_budget_without_limit db uid b.
Proof.
  intros U.
  set (le := fun a b : budget_row => PyStr.leb (b_category a) (b_category b)).
  assert (Tot : forall a b, le a b = false -> le b a = true)
    by (intros a b; apply text_leb_total).
  assert (Tr : forall a b c, le a b = true -> le b c = true -> le a c = true)
    by (intros a b c; apply text_leb_trans).
  unfold budget_rows. fold le. split.
  - intros (b & rest & E & L).
    destruct (sort_by_head le Tot Tr _ _ _ E) as [I M].
    apply filter_In in I. destruct I as [I Ub]. apply Z.eqb_eq in Ub.
    exists b. repeat split; try assumption.
    intros b' I' U'. apply (M b'). apply filter_In.
    split; [exact I' | apply Z.eqb_eq; exact U'].
  - intros (b & I & Ub & L & M).
    assert (Ib : In b (filter (fun b => b_user_id b =? uid) (budgets db))).
    { apply filter_In. split; [exact I | apply Z.eqb_eq; exact Ub]. }
    destruct (sort_by le (filter (fun b => b_user_id b =? uid) (budgets db)))
      as [| h rest] eqn:E.
    + exfalso.
      apply (Permutation_in _ (Permutation_sym (sort_by_perm le _))) in Ib.
      rewrite E in Ib. destruct Ib.
    + destruct (sort_by_head le Tot Tr _ _ _ E) as [Ih Mh].
      pose proof (Mh b Ib) as L1.
      apply filter_In in Ih. destruct Ih as [Ih Uh]. apply Z.eqb_eq in Uh.
      pose proof (M h Ih Uh) as L2.
      assert (h = b).
      { apply (NoDup_key_eq budget_key (budgets db)); try assumption.
        unfold budget_key. f_equal; [congruence |].
        apply text_leb_antisym; assumption. }
      subst h. exists b, rest. split; [reflexivity | exact L].
Qed.

(** X25.  The budgets page of a logged-in user fails with
    [UnboundLocalError] exactly when the pay period and the spending
    query go through and the budget of the user that comes first by
    category has a limit of 0 or less: [pct_raw] is then read before any
    assignment.  (The default limit of the form is 0.)  When the pay
    period or the spending query raises, the page fails with that
    exception instead; they go through when the user has no schedule, or
    has a pay period and amounts that add up within the 64-bit range. *)
Theorem budgets_page_unbound (db : database) (uid : Z) :
  uid <> 0 -> budgets_unique db ->
  (budgets_page pct_raw_of db (Some uid) = UnboundLocalError
   <-> is_ok (page_spent db uid) = true
       /\ exists b, first_budget_without_limit db uid b)
  /\ (forall e, page_spent db uid = Raise e ->
        budgets_page pct_raw_of db (Some uid) = Answer (Failed e))
  /\ (period_fine db uid -> amounts_fit db uid ->
      is_ok (page_spent db uid) = true).
Proof.
  intros Hu U. unfold budgets_page.
  rewrite logged_in_session by exact Hu. unfold current_user_id.
  split; [| split].
  - rewrite <- (budget_rows_head db uid U).
    destruct (page_spent db uid) as [spent_map | e].
    + rewrite <- (items_loop_unbound spent_map). cbn [is_ok].
      destruct (items_loop pct_raw_of _ _ None []); split.
      * discriminate.
      * intros [_ X]. discriminate X.
      * intros _. split; reflexivity.
      * intros _. reflexivity.
    + cbn [is_ok]. split; [discriminate | intros [X _]; discriminate X].
  - intros e ->. reflexivity.
  - apply page_spent_fits.
Qed.

(** X26.  When the budgets page is rendered it has one item per budget
    of the user, in the order of the categories; the item of a category
    shows the limit, what the user spent on the category in the pay
    period (the expenses of the category whose date text lies between
    the two ends; nothing for a user without a schedule) and their
    difference as money strings; the percentage is never above 100, and
    is 0 for a budget without a positive limit. *)
Theorem budgets_page_items (db : database) (uid : Z)
    (items : list budget_item) :
  uid <> 0 ->
  budgets_page pct_raw_of db (Some uid) = Answer (Listed items) ->
  exists window,
    page_window db uid window
    /\ Forall2
         (fun b i =>
            item_of pct_raw_of (spent_in db uid window (b_category b)) b i)
         (budget_rows db uid) items
    /\ Permutation (budget_rows db uid)
         (filter (fun b => b_user_id b =? uid) (budgets db))
    /\ map bi_category items = map b_category (budget_rows db uid)
    /\ Sorted (fun a b => PyStr.leb a b = true) (map bi_category items)
    /\ Forall (fun i => bi_pct i <= 100) items.
Proof.
  intros Hu. unfold budgets_page.
  rewrite logged_in_session by exact Hu. unfold current_user_id.
  destruct (page_spent db uid) as [spent_map | e] eqn:Sp; [| discriminate].
  destruct (page_spent_inv db uid spent_map Sp) as (window & W & Sw).
  intros H. exists window. split; [exact W |].
  assert (Rows : Sorted (fun a b => PyStr.leb (b_category a) (b_category b)
                                    = true) (budget_rows db uid)).
  { unfold budget_rows. apply sort_by_sorted.
    intros x y. apply text_leb_total. }
  assert (F : Forall2
                (fun b i =>
                   item_of pct_raw_of (spent_of spent_map (b_category b)) b i)
                (budget_rows db uid) items).
  { destruct (budget_rows db uid) as [| b rest].
    - cbn [items_loop] in H. injection H as <-. constructor.
    - cbn [items_loop] in H.
      destruct (Z.gtb_spec (b_limit_cents b) 0) as [G | G]; [| discriminate H].
      match type of H with
      | context [items_loop _ _ _ (Some ?q) ?acc] =>
          destruct (items_loop_assigned spent_map rest q acc) as (more & E & F)
      end.
      rewrite E in H. injection H as <-. cbn [app].
      constructor; [| exact F]. unfold item_of.
      cbn [bi_category bi_limit bi_spent bi_remaining bi_pct bi_status].
      repeat split; try reflexivity; lia. }
  assert (C : forall rows its,
             Forall2
               (fun b i =>
                  item_of pct_raw_of (spent_of spent_map (b_category b)) b i)
               rows its ->
             map bi_category its = map b_category rows
             /\ Forall (fun i => bi_pct i <= 100) its).
  { intros rows its X. induction X as [| r i rows its Hi X [IH1 IH2]];
      [split; constructor |].
    cbn [map]. destruct Hi as (Hc & _ & _ & _ & Hp & _).
    split; [rewrite Hc, IH1; reflexivity | constructor; assumption]. }
  destruct (C _ _ F) as [C1 C2].
  split.
  { clear - F Sw. induction F as [| b i rows its Hi F IH]; constructor;
      [| exact IH].
    rewrite <- Sw. exact Hi. }
  split; [unfold budget_rows; apply sort_by_perm |].
  split; [exact C1 |]. split; [| exact C2].
  rewrite C1. clear - Rows.
  induction Rows as [| x l S IH H]; cbn [map]; constructor; [exact IH |].
  destruct H; cbn [map]; constructor. assumption.
Qed.

(** The status that [pct_raw] carries from row to row: in the items of
    the rows after an item [i0] made with [pct_raw = p], a row without a
    positive limit has the status of the item before it. *)
Lemma items_loop_carries (spent : list (string * Z))
    (rows : list budget_row) :
  forall (p : Z) (items : list budget_item) (i0 : budget_item),
  bi_status i0 = status_of p ->
  exists more,
    items_loop pct_raw_of spent rows (Some p) (items ++ [i0])
    = Some (items ++ i0 :: more)
    /\ forall k b i i',
         nth_error rows k = Some b -> b_limit_cents b <= 0 ->
         nth_error (i0 :: more) k = Some i -> nth_error more k = Some i' ->
         bi_status i' = bi_status i.
Proof.
  induction rows as [| b rows IH]; intros p items i0 S0; cbn [items_loop].
  - exists []. split; [reflexivity |]. intros [| k]; discriminate.
  - destruct (Z.gtb_spec (b_limit_cents b) 0) as [G | G].
    + match goal with
      | |- context [items_loop _ _ _ (Some ?q) (_ ++ [?ib])] =>
          destruct (IH q (items ++ [i0]) ib eq_refl) as (more & E & C);
          exists (ib :: more)
      end.
      rewrite E, <- app_assoc. split; [reflexivity |].
      intros [| k] b' i i' Hb L Hi Hi'.
      * injection Hb as <-. lia.
      * apply (C k b'); assumption.
    + match goal with
      | |- context [items_loop _ _ _ (Some p) (_ ++ [?ib])] =>
          destruct (IH p (items ++ [i0]) ib eq_refl) as (more & E & C);
          exists (ib :: more)
      end.
      rewrite E, <- app_assoc. split; [reflexivity |].
      intros [| k] b' i i' Hb L Hi Hi'.
      * injection Hi as <-. injection Hi' as <-. symmetry. exact S0.
      * apply (C k b'); assumption.
Qed.

(** X27.  On a rendered budgets page a budget without a positive limit
    has the status of the budget listed just before it: [pct_raw] keeps
    the value of the last budget with a positive limit, and the status
    is computed from it again. *)
Theorem budgets_page_stale_status (db : database) (uid : Z)
    (items : list budget_item) (k : nat) (b : budget_row)
    (i i' : budget_item) :
  uid <> 0 ->
  budgets_page pct_raw_of db (Some uid) = Answer (Listed items) ->
  nth_error (budget_rows db uid) (S k) = Some b ->
  b_limit_cents b <= 0 ->
  nth_error items k = Some i ->
  nth_error items (S k) = Some i' ->
  bi_status i' = bi_status i.
Proof.
  intros Hu. unfold budgets_page.
  rewrite logged_in_session by exact Hu. unfold current_user_id.
  destruct (page_spent db uid) as [spent | e]; [| discriminate].
  destruct (budget_rows db uid) as [| b0 rest]; [discriminate 2 |].
  cbn [items_loop].
  destruct (Z.gtb_spec (b_limit_cents b0) 0) as [G | G]; [| discriminate 1].
  match goal with
  | |- context [items_loop _ _ _ (Some ?q) (_ ++ [?ib])] =>
      destruct (items_loop_carries spent rest q [] ib eq_refl)
        as (more & E & C)
  end.
  rewrite E. cbn [app]. intros H Hb L Hi Hi'. injection H as <-.
  cbn [nth_error] in Hb, Hi'.
  apply (C k b); assumption.
Qed.

End BudgetsPageProperties.

Lemma budgets_page_unbound_witness :
  let db :=
    run_posts budgets_post empty_db
      [(Some 1, [("category", "Rent"); ("limit", "900")]);
       (Some 1, [("category", "Coffee")])] in
  budgets_page (fun spent limit => spent * 100 / limit) db (Some 1)
  = UnboundLocalError.
Proof.
  cbv zeta.
  apply (proj1 (budgets_page_unbound (fun spent limit => spent * 100 / limit)
                  (run_posts budgets_post empty_db
                     [(Some 1, [("category", "Rent"); ("limit", "900")]);
                      (Some 1, [("category", "Coffee")])]) 1
                  ltac:(lia)
                  ltac:(repeat constructor; cbn; intuition discriminate))).
  split; [reflexivity |].
  exists (mkbudget 1 "Coffee" 0).
  split; [right; left; reflexivity |]. split; [reflexivity |].
  split; [cbn; lia |].
  intros b' [<- | [<- | []]] _; reflexivity.
Defined.

Lemma budgets_page_items_witness :
  let db :=
    mkdb [] [mkschedule 1 "biweekly" "2024-01-15" 100000]
      [mktransaction 1 1 "expense" 450 "Coffee" "2024-01-05" "";
       mktransaction 2 1 "expense" 300 "Coffee" "2024-01-20" "";
       mktransaction 3 2 "expense" 999 "Coffee" "2024-01-06" ""]
      [mkbudget 1 "Rent" 90000; mkbudget 1 "Coffee" 2000] [] in
  exists items,
    budgets_page (fun spent limit => spent * 100 / limit) db (Some 1)
    = Answer (Listed items)
    /\ map bi_category items = ["Coffee"; "Rent"]
    /\ map bi_spent items = ["4.50"; "0.00"].
Proof.
  cbv zeta. eexists. split; [vm_compute; reflexivity |].
  destruct (budgets_page_items (fun spent limit => spent * 100 / limit)
              (mkdb [] [mkschedule 1 "biweekly" "2024-01-15" 100000]
                 [mktransaction 1 1 "expense" 450 "Coffee" "2024-01-05" "";
                  mktransaction 2 1 "expense" 300 "Coffee" "2024-01-20" "";
                  mktransaction 3 2 "expense" 999 "Coffee" "2024-01-06" ""]
                 [mkbudget 1 "Rent" 90000; mkbudget 1 "Coffee" 2000] [])
              1 _ ltac:(lia) eq_refl) as (window & _ & _ & _ & C & _).
  split; [exact C | reflexivity].
Defined.

Lemma budgets_page_stale_status_witness :
  let db :=
    mkdb [] [mkschedule 1 "biweekly" "2024-01-15" 100000]
      [mktransaction 1 1 "expense" 2000 "Coffee" "2024-01-05" ""]
      [mkbudget 1 "Rent" 0; mkbudget 1 "Coffee" 2000] [] in
  exists i i',
    budgets_page (fun spent limit => spent * 100 / limit) db (Some 1)
    = Answer (Listed [i; i'])
    /\ bi_status i = "over" /\ bi_status i' = "over".
Proof.
  cbv zeta. eexists. eexists. split; [vm_compute; reflexivity |].
  split; [reflexivity |].
  apply (budgets_page_stale_status (fun spent limit => spent * 100 / limit)
           (mkdb [] [mkschedule 1 "biweekly" "2024-01-15" 100000]
              [mktransaction 1 1 "expense" 2000 "Coffee" "2024-01-05" ""]
              [mkbudget 1 "Rent" 0; mkbudget 1 "Coffee" 2000] [])
           1 _ 0%nat (mkbudget 1 "Rent" 0) _ _ ltac:(lia) eq_refl eq_refl
           ltac:(cbn; lia) eq_refl eq_refl).
Defined.
